(** * Trading strategies ShinonV1, ShinonV2 and ZaratustraV2

  A shallow embedding of the three strategy modules (src/shinonV1.py,
  src/shinonV2.py, src/zaratustraV2.py) and of the fragment of pandas and
  of the host's data provider their hooks rely on.

  Numbers are IEEE-754 binary64 values, as Python's [float] and numpy's
  [float64] are: Rocq's primitive [float].  A table is a set of named
  columns over a common row index.  The indicator library (TA-Lib, qtpylib's
  Bollinger bands, the host's merge helper) is external to the repository
  and enters as a type class. *)

From Stdlib Require Import ZArith Floats Uint63.
From stdpp Require Import base option list gmap strings.

Set Warnings "-inexact-float".

(** ** Python floats *)

Module PyFloat.

Local Open Scope float_scope.

(** Python's comparison operators on floats.  Every comparison with a NaN
    operand is false. *)
Definition lt (x y : float) : bool := x <? y.
Definition gt (x y : float) : bool := y <? x.
Definition le (x y : float) : bool := x <=? y.
Definition ge (x y : float) : bool := y <=? x.
Definition eq (x y : float) : bool := x =? y.

(** The builtins [min(a, b)] and [max(a, b)]: the first argument is kept
    unless the second compares strictly smaller (resp. larger). *)
Definition py_min (a b : float) : float := if lt b a then b else a.
Definition py_max (a b : float) : float := if gt b a then b else a.

(** A positive real number: above zero and below infinity. *)
Definition is_pos_real (x : float) : bool := (0 <? x) && (x <? infinity).

(** Clamping [x] to the interval [[lo, hi]]. *)
Definition clamp (lo hi x : float) : float :=
  if hi <? x then hi else if x <? lo then lo else x.

(** A Python [int] used where a float is expected.  Exact for the
    magnitudes below [2^53], which covers every integer parameter of the
    strategies. *)
Definition float_of_int (z : Z) : float :=
  if (z <? 0)%Z then - of_uint63 (Uint63.of_Z (- z)) else of_uint63 (Uint63.of_Z z).

End PyFloat.


(** ** Python exceptions and results *)

(** The exceptions the modelled fragment of Python and pandas can raise.
    [OutsideModel] is no exception of Python: it ends a run that reaches a
    table the model does not represent (see [lower_columns]), where Python
    goes on. *)
Inductive exn :=
| KeyError (key : string)
| TypeError
| ValueError
| IndexError
| IndexingError
| AttributeError
| LibraryError
| OutsideModel.

(** What a Python call produces: a value, or a raised exception. *)
Inductive result (A : Type) :=
| Ok (a : A)
| Raise (e : exn).
Arguments Ok {A} a.
Arguments Raise {A} e.

#[global] Instance result_ret : MRet result := @Ok.
#[global] Instance result_bind : MBind result := λ A B f m,
match m with Ok a => f a | Raise e => Raise e end.
#[global] Instance result_fmap : FMap result := λ A B f m,
match m with Ok a => Ok (f a) | Raise e => Raise e end.

(** Whether a call returned. *)
Definition is_ok {A} (r : result A) : bool :=
  match r with Ok _ => true | Raise _ => false end.

(** ** The fragment of pandas the strategies use *)

Module Pandas.

Local Open Scope float_scope.

(** A cell holds a number (NaN when undefined) or a string (the tags). *)
Inductive cell :=
  | Num (x : float)
  | Str (s : string).

Definition NaN : cell := Num nan.

(** A series: the cells of a column, in row order. *)
Abbreviation Series := (list cell).

(** A table: [index] rows, and named columns over them. *)
Record DataFrame := {
  index : nat;
  columns : gmap string (list cell)
}.

(** Every column has one cell per row. *)
Definition wf (df : DataFrame) : Prop :=
  ∀ c s, columns df !! c = Some s → length s = index df.

(** [df.empty]: an axis of length zero. *)
Definition empty (df : DataFrame) : bool :=
  Nat.eqb (index df) 0 || Nat.eqb (size (columns df)) 0.

(** [df[c]] *)
Definition getitem (df : DataFrame) (c : string) : result Series :=
  match columns df !! c with
  | Some s => Ok s
  | None => Raise (KeyError c)
  end.

(** A series aligned on an index of [n] rows: rows the series lacks are
    undefined, rows beyond the index are dropped. *)
Definition reindex (n : nat) (s : Series) : Series :=
  take n s ++ replicate (n - length s) NaN.

(** [df[c] = s]: the column is added or replaced; the rows stay. *)
Definition setitem (df : DataFrame) (c : string) (s : Series) : DataFrame :=
  {| index := index df; columns := <[c := reindex (index df) s]> (columns df) |}.

(** The cell of column [c] at row [i], when the table has both. *)
Definition at_ (df : DataFrame) (c : string) (i : nat) : option cell :=
  s ← columns df !! c; s !! i.

(** Comparison of two cells with the operator [op]: defined between
    numbers, a [TypeError] when a string is involved. *)
Definition cell_cmp (op : float → float → bool) (x y : cell) : result bool :=
  match x, y with
  | Num a, Num b => Ok (op a b)
  | _, _ => Raise TypeError
  end.

(** [a op b] on two series, row by row. *)
Definition series_cmp (op : float → float → bool) (a b : Series) : result (list bool) :=
  if negb (Nat.eqb (length a) (length b)) then Raise ValueError
  else mapM (λ p, cell_cmp op p.1 p.2) (zip a b).

(** [a op k] for a scalar [k]. *)
Definition series_cmp_scalar (op : float → float → bool) (a : Series) (k : float)
  : result (list bool) :=
  mapM (λ x, cell_cmp op x (Num k)) a.

(** [a == k]: equality never raises; a string differs from every number. *)
Definition series_eq_scalar (a : Series) (k : float) : list bool :=
  (λ x, match x with Num v => PyFloat.eq v k | Str _ => false end) <$> a.

(** Arithmetic on cells: between numbers only. *)
Definition cell_arith (op : float → float → float) (x y : cell) : result cell :=
  match x, y with
  | Num a, Num b => Ok (Num (op a b))
  | _, _ => Raise TypeError
  end.

Definition series_arith (op : float → float → float) (a b : Series) : result Series :=
  if negb (Nat.eqb (length a) (length b)) then Raise ValueError
  else mapM (λ p, cell_arith op p.1 p.2) (zip a b).

Definition series_arith_scalar (op : float → float → float) (a : Series) (k : float)
  : result Series :=
  mapM (λ x, cell_arith op x (Num k)) a.

(** [m1 & m2] on boolean masks, and [m & b] for a Python [bool]. *)
Definition mask_and (m1 m2 : list bool) : list bool := zip_with andb m1 m2.
Definition mask_and_scalar (m : list bool) (b : bool) : list bool :=
  (λ x, x && b) <$> m.

(** [s.shift(1)]: every cell moves one row down; the first row is
    undefined and the last cell is dropped. *)
Definition shift1 (s : Series) : Series := take (length s) (NaN :: s).

(** [np.where(mask, x, y)] *)
Definition np_where (mask : list bool) (x y : cell) : Series :=
  (λ b : bool, if b then x else y) <$> mask.

(** [np.all(conds, axis=0)]: the row-wise conjunction of a list of masks. *)
Definition np_all (conds : list (list bool)) : list bool :=
  match conds with
  | [] => []
  | c :: cs => foldl mask_and c cs
  end.

(** One column of [df.loc[mask, c] = v]: the column is created undefined
    when the table lacks it, then the rows selected by [mask] receive
    [v]. *)
Definition loc_set1 (df : DataFrame) (mask : list bool) (c : string) (v : cell)
  : DataFrame :=
  let old := default (replicate (index df) NaN) (columns df !! c) in
  {| index := index df;
     columns := <[c := zip_with (λ (b : bool) o, if b then v else o) mask old]>
                  (columns df) |}.

(** [df.loc[mask, [c1; ...]] = (v1, ...)]: a boolean mask must have one
    entry per row. *)
Definition loc_setitem (df : DataFrame) (mask : list bool)
    (cvs : list (string * cell)) : result DataFrame :=
  if negb (Nat.eqb (length mask) (index df)) then Raise IndexingError
  else Ok (foldl (λ d cv, loc_set1 d mask cv.1 cv.2) df cvs).

(** [df.iloc[-1]]: the last row, as a map from column names to cells. *)
Definition iloc_last_row (df : DataFrame) : result (gmap string cell) :=
  if Nat.eqb (index df) 0 then Raise IndexError
  else Ok ((λ s, default NaN (s !! (index df - 1)%nat)) <$> columns df).

(** [row[c]] *)
Definition row_getitem (row : gmap string cell) (c : string) : result cell :=
  match row !! c with
  | Some v => Ok v
  | None => Raise (KeyError c)
  end.

(** [s.iloc[-1]] *)
Definition iloc_last (s : Series) : result cell :=
  match last s with
  | Some v => Ok v
  | None => Raise IndexError
  end.

(** [df[a] op df[b]] and [df[a] op k] *)
Definition col_cmp (op : float → float → bool) (df : DataFrame) (a b : string)
  : result (list bool) :=
  x ← getitem df a; y ← getitem df b; series_cmp op x y.

Definition col_cmp_scalar (op : float → float → bool) (df : DataFrame) (a : string)
    (k : float) : result (list bool) :=
  x ← getitem df a; series_cmp_scalar op x k.

(** The number in a cell taken out of a table, for Python arithmetic: a
    string there is a [TypeError]. *)
Definition cell_float (x : cell) : result float :=
  match x with
  | Num a => Ok a
  | Str _ => Raise TypeError
  end.

(** [str.lower()] on ASCII column names. *)
Definition lower_ascii (a : Ascii.ascii) : Ascii.ascii :=
  let n := Ascii.N_of_ascii a in
  if ((65 <=? n) && (n <=? 90))%N then Ascii.ascii_of_N (n + 32) else a.

Fixpoint lower (s : string) : string :=
  match s with
  | EmptyString => EmptyString
  | String a s' => String (lower_ascii a) (lower s')
  end.

(** A name made of ASCII characters, on which [str.lower()] is [lower]. *)
Fixpoint is_ascii (s : string) : bool :=
  match s with
  | EmptyString => true
  | String a s' => (Ascii.N_of_ascii a <? 128)%N && is_ascii s'
  end.

(** The columns of a table under their lower-cased names, one for each
    column of the table. *)
Definition lowered (df : DataFrame) : list (string * Series) :=
  prod_map lower id <$> map_to_list (columns df).

(** [df.columns = [x.lower() for x in df.columns]].  pandas keeps every
    column, also when two names collide once lower-cased: the table then
    carries a label twice.  A table of the model has one column per label
    and ASCII names, so the renamed table is given where every name is
    ASCII and the lower-cased names are distinct; elsewhere it is [None]. *)
Definition lower_columns (df : DataFrame) : option DataFrame :=
  let renamed := lowered df in
  if forallb is_ascii renamed.*1 && bool_decide (NoDup renamed.*1) then
    Some {| index := index df; columns := list_to_map renamed |}
  else None.

(** A table the model represents, or the end of the run. *)
Definition represented {A} (x : option A) : result A :=
  match x with
  | Some a => Ok a
  | None => Raise OutsideModel
  end.

(** A table given by its rows count and its numeric columns. *)
Definition frame (n : nat) (cols : list (string * list float)) : DataFrame :=
  {| index := n;
     columns := list_to_map ((λ c : string * list float, (c.1, Num <$> c.2)) <$> cols) |}.

(** What a hook returned, or the table it was given when it raised. *)
Definition returned (r : result DataFrame) (otherwise : DataFrame) : DataFrame :=
  match r with
  | Ok df => df
  | Raise _ => otherwise
  end.

End Pandas.

(** ** The indicator library

    TA-Lib's abstract functions, qtpylib's Bollinger bands and the host's
    [merge_informative_pair] are not part of the repository: they are the
    fields of a class.  An abstract TA-Lib function accepts a whole table or
    a single series; it reads its input and returns a fresh series. *)

Module TA.

Import Pandas.

Inductive ta_input :=
  | InFrame (df : DataFrame)
  | InSeries (s : Series).

Class Indicators := {
  EMA : ta_input → Z → result Series;
  SMA : ta_input → Z → result Series;
  RSI : ta_input → Z → result Series;
  ATR : ta_input → Z → result Series;
  DX : ta_input → Z → result Series;
  ADX : ta_input → Z → result Series;
  PLUS_DI : ta_input → Z → result Series;
  MINUS_DI : ta_input → Z → result Series;
  bollinger_bands : Series → Z → float → result DataFrame;
  merge_informative_pair :
    DataFrame → DataFrame → string → string → bool → result DataFrame
}.

(** The library as it answers on tables shorter than every look-back window
    of the strategies (fewer than 13 rows): each indicator is undefined on
    every row.  Merging adds the informative columns, named with the
    informative timeframe, undefined on every row: no informative candle has
    closed before any row of so short a table. *)
Definition undefined_like (i : ta_input) : Series :=
  match i with
  | InFrame df => replicate (index df) NaN
  | InSeries s => replicate (length s) NaN
  end.

Definition short_bollinger (s : Series) : DataFrame :=
  let u := replicate (length s) NaN in
  {| index := length s;
     columns := <["lower" := u]> (<["mid" := u]> (<["upper" := u]> ∅)) |}.

Definition short_merge (df inf : DataFrame) (tf_inf : string) : DataFrame :=
  foldr (λ c d, setitem d (c.1 +:+ "_" +:+ tf_inf) []) df (map_to_list (columns inf)).

Definition short_table_indicators : Indicators := {|
  EMA := λ i _, Ok (undefined_like i);
  SMA := λ i _, Ok (undefined_like i);
  RSI := λ i _, Ok (undefined_like i);
  ATR := λ i _, Ok (undefined_like i);
  DX := λ i _, Ok (undefined_like i);
  ADX := λ i _, Ok (undefined_like i);
  PLUS_DI := λ i _, Ok (undefined_like i);
  MINUS_DI := λ i _, Ok (undefined_like i);
  bollinger_bands := λ s _ _, Ok (short_bollinger s);
  merge_informative_pair := λ df inf _ tf_inf _, Ok (short_merge df inf tf_inf)
|}.

End TA.

(** ** qtpylib's crossing indicators *)

Module Qtpylib.

Import Pandas.

(** Modelled from the spec: [crossed_above] belongs to qtpylib, which the
    repository imports and does not contain.  A series crosses above another
    at row [i] when it is greater there and was not greater on the row
    before: [s1[i] > s2[i]] and [s1[i-1] <= s2[i-1]].  The first row has no
    row before it, and so is never a crossing. *)
Definition crossed_above (s1 s2 : Series) : result (list bool) :=
  above ← series_cmp PyFloat.gt s1 s2;
  before ← series_cmp PyFloat.le (shift1 s1) (shift1 s2);
  mret (mask_and above before).

(** Modelled from the spec: [crossed_below], the mirror image of
    [crossed_above]: [s1[i] < s2[i]] and [s1[i-1] >= s2[i-1]]. *)
Definition crossed_below (s1 s2 : Series) : result (list bool) :=
  below ← series_cmp PyFloat.lt s1 s2;
  before ← series_cmp PyFloat.ge (shift1 s1) (shift1 s2);
  mret (mask_and below before).

End Qtpylib.

(** ** The host: data provider and trade *)

Module Host.

Import Pandas.

(** The analyzed tables the host holds, by pair and timeframe.  A hook that
    asks for one receives the host's own object, not a copy: what the hook
    writes into it is written into the host's table. *)
Record DataProvider := {
  cache : gmap (string * string) DataFrame
}.

(** The key under which the host holds a table names that object. *)
Abbreviation ref := (string * string)%type.

(** A hook runs against the host's tables; an exception leaves in place
    what was written before it. *)
Definition Hook (A : Type) : Type := DataProvider → result A * DataProvider.

#[global] Instance hook_ret : MRet Hook := λ A a dp, (Ok a, dp).
#[global] Instance hook_bind : MBind Hook := λ A B f m dp,
  match m dp with
  | (Ok a, dp') => f a dp'
  | (Raise e, dp') => (Raise e, dp')
  end.

Definition lift {A} (r : result A) : Hook A := λ dp, (r, dp).

(** [self.dp.get_analyzed_dataframe(pair, timeframe)]: the table the host
    holds, with the reference to it, or Python's [None]. *)
Definition get_analyzed_dataframe (pair timeframe : string)
  : Hook (option (ref * DataFrame)) :=
  λ dp, (Ok ((λ df, ((pair, timeframe), df)) <$> cache dp !! (pair, timeframe)), dp).

(** A write through a reference: the host's table becomes [df]. *)
Definition store (r : ref) (df : DataFrame) : Hook unit :=
  λ dp, (Ok tt, {| cache := <[r := df]> (cache dp) |}).

(** The fields of the host's trade object the hooks read. *)
Record Trade := {
  trade_pair : string;
  is_short : bool;
  entry_side : string;
  nr_of_successful_exits : Z;
  stake_amount : float
}.

(** [metadata['pair']] *)
Definition dict_getitem (d : gmap string string) (k : string) : result string :=
  match d !! k with
  | Some v => Ok v
  | None => Raise (KeyError k)
  end.

End Host.

(** ** ShinonV1 (src/shinonV1.py) *)

Module ShinonV1.

Import Pandas TA Host.
Local Open Scope float_scope.

Record ShinonV1 := {
  timeframe : string;
  informative_timeframe : string;
  stoploss : float
}.

Definition default : ShinonV1 := {|
  timeframe := "5m";
  informative_timeframe := "1h";
  stoploss := -0.03
|}.

Section Hooks.

Context `{Indicators}.

(** [populate_indicators].  [informative] is the host's own table: each
    assignment to it is a write into the data provider.  The renaming of
    line 58 is followed where the renamed table is one of the model's
    (see [lower_columns]). *)
Definition populate_indicators (self : ShinonV1) (dataframe : DataFrame)
    (metadata : gmap string string) : Hook DataFrame :=
  close ← lift (getitem dataframe "close");
  ema13 ← lift (EMA (InSeries close) 13);
  let dataframe := setitem dataframe "ema13" ema13 in
  close ← lift (getitem dataframe "close");
  ema21 ← lift (EMA (InSeries close) 21);
  let dataframe := setitem dataframe "ema21" ema21 in
  pair ← lift (dict_getitem metadata "pair");
  got ← get_analyzed_dataframe pair (informative_timeframe self);
  match got with
  | None => lift (Raise AttributeError)
  | Some (r, informative) =>
    informative ←
      (if negb (bool_decide ("close" ∈ dom (columns informative))) then
         informative ← lift (represented (lower_columns informative));
         _ ← store r informative; mret informative
       else mret informative);
    close ← lift (getitem informative "close");
    ema13 ← lift (EMA (InSeries close) 13);
    let informative := setitem informative "ema13" ema13 in
    _ ← store r informative;
    close ← lift (getitem informative "close");
    ema21 ← lift (EMA (InSeries close) 21);
    let informative := setitem informative "ema21" ema21 in
    _ ← store r informative;
    lift (merge_informative_pair dataframe informative
            (timeframe self) (informative_timeframe self) true)
  end.

End Hooks.

Definition populate_entry_trend (self : ShinonV1) (dataframe : DataFrame)
    : result DataFrame :=
  c1 ← col_cmp PyFloat.gt dataframe "close" "ema13";
  c2 ← col_cmp PyFloat.gt dataframe "close" "ema21";
  c3 ← col_cmp PyFloat.gt dataframe "ema13" "ema21";
  c4 ← col_cmp PyFloat.gt dataframe "informative_1h_close" "informative_1h_ema13";
  c5 ← col_cmp PyFloat.gt dataframe "informative_1h_close" "informative_1h_ema21";
  c6 ← col_cmp PyFloat.gt dataframe "informative_1h_ema13" "informative_1h_ema21";
  let conditions_long := [c1; c2; c3; c4; c5; c6] in
  dataframe ← loc_setitem dataframe (np_all conditions_long)
    [("enter_long", Num 1); ("enter_tag", Str "Long: EMA trend confirmed on main & 1h")];
  c1 ← col_cmp PyFloat.lt dataframe "close" "ema13";
  c2 ← col_cmp PyFloat.lt dataframe "close" "ema21";
  c3 ← col_cmp PyFloat.lt dataframe "ema13" "ema21";
  c4 ← col_cmp PyFloat.lt dataframe "informative_1h_close" "informative_1h_ema13";
  c5 ← col_cmp PyFloat.lt dataframe "informative_1h_close" "informative_1h_ema21";
  c6 ← col_cmp PyFloat.lt dataframe "informative_1h_ema13" "informative_1h_ema21";
  let conditions_short := [c1; c2; c3; c4; c5; c6] in
  loc_setitem dataframe (np_all conditions_short)
    [("enter_short", Num 1); ("enter_tag", Str "Short: EMA trend confirmed on main & 1h")].

Definition populate_exit_trend (self : ShinonV1) (dataframe : DataFrame)
    : result DataFrame :=
  exit_long_condition ← col_cmp PyFloat.lt dataframe "close" "ema13";
  dataframe ← loc_setitem dataframe exit_long_condition
    [("exit_long", Num 1); ("exit_tag", Str "Exit Long: Price below EMA13")];
  exit_short_condition ← col_cmp PyFloat.gt dataframe "close" "ema13";
  loc_setitem dataframe exit_short_condition
    [("exit_short", Num 1); ("exit_tag", Str "Exit Short: Price above EMA13")].

End ShinonV1.

(** ** ShinonV2 (src/shinonV2.py) *)

Module ShinonV2.

Import Pandas TA Host.
Local Open Scope float_scope.

(** The strategy object: its class attributes and the current values of
    its hyperparameters. *)
Record ShinonV2 := {
  timeframe : string;
  stoploss : float;
  bb_length : Z;
  bb_dev : float;
  volume_filter : float;
  trend_filter : bool
}.

Definition default : ShinonV2 := {|
  timeframe := "15m";
  stoploss := -0.15;
  bb_length := 20;
  bb_dev := 1.8;
  volume_filter := 1.1;
  trend_filter := true
|}.

Section Hooks.

Context `{Indicators}.

Definition populate_indicators (self : ShinonV2) (dataframe : DataFrame)
    : result DataFrame :=
  let bb_length := bb_length self in
  let bb_dev := bb_dev self in
  close ← getitem dataframe "close";
  bollinger ← bollinger_bands close bb_length bb_dev;
  lower ← getitem bollinger "lower";
  let dataframe := setitem dataframe "bb_lower" lower in
  mid ← getitem bollinger "mid";
  let dataframe := setitem dataframe "bb_middle" mid in
  upper ← getitem bollinger "upper";
  let dataframe := setitem dataframe "bb_upper" upper in
  atr ← ATR (InFrame dataframe) 14;
  let dataframe := setitem dataframe "atr" atr in
  volume ← getitem dataframe "volume";
  volume_ma ← SMA (InSeries volume) 20;
  let dataframe := setitem dataframe "volume_ma" volume_ma in
  adx ← ADX (InFrame dataframe) 14;
  let dataframe := setitem dataframe "adx" adx in
  plus_di ← PLUS_DI (InFrame dataframe) 14;
  let dataframe := setitem dataframe "plus_di" plus_di in
  minus_di ← MINUS_DI (InFrame dataframe) 14;
  let dataframe := setitem dataframe "minus_di" minus_di in
  mret dataframe.

End Hooks.

(** [(dataframe['adx'] > 30) if self.trend_filter.value else True], joined
    to the mask on its left. *)
Definition and_trend_filter (self : ShinonV2) (dataframe : DataFrame)
    (m : list bool) : result (list bool) :=
  if trend_filter self then
    c ← col_cmp_scalar PyFloat.gt dataframe "adx" 30; mret (mask_and m c)
  else mret (mask_and_scalar m true).

(** [dataframe['volume'] > dataframe['volume_ma'] * self.volume_filter.value] *)
Definition volume_above_ma (self : ShinonV2) (dataframe : DataFrame)
    : result (list bool) :=
  volume ← getitem dataframe "volume";
  volume_ma ← getitem dataframe "volume_ma";
  scaled ← series_arith_scalar PrimFloat.mul volume_ma (volume_filter self);
  series_cmp PyFloat.gt volume scaled.

Definition populate_entry_trend (self : ShinonV2) (dataframe : DataFrame)
    : result DataFrame :=
  c1 ← col_cmp PyFloat.lt dataframe "close" "bb_lower";
  c2 ← volume_above_ma self dataframe;
  m ← and_trend_filter self dataframe (mask_and c1 c2);
  c4 ← col_cmp PyFloat.gt dataframe "plus_di" "minus_di";
  dataframe ← loc_setitem dataframe (mask_and m c4) [("enter_long", Num 1)];
  c1 ← col_cmp PyFloat.gt dataframe "close" "bb_upper";
  c2 ← volume_above_ma self dataframe;
  m ← and_trend_filter self dataframe (mask_and c1 c2);
  c4 ← col_cmp PyFloat.gt dataframe "minus_di" "plus_di";
  loc_setitem dataframe (mask_and m c4) [("enter_short", Num 1)].

Definition populate_exit_trend (self : ShinonV2) (dataframe : DataFrame)
    : result DataFrame :=
  c1 ← col_cmp PyFloat.gt dataframe "close" "bb_middle";
  minus_di ← getitem dataframe "minus_di";
  plus_di ← getitem dataframe "plus_di";
  c2 ← Qtpylib.crossed_above minus_di plus_di;
  dataframe ← loc_setitem dataframe (mask_and c1 c2) [("exit_long", Num 1)];
  c1 ← col_cmp PyFloat.lt dataframe "close" "bb_middle";
  plus_di ← getitem dataframe "plus_di";
  minus_di ← getitem dataframe "minus_di";
  c2 ← Qtpylib.crossed_above plus_di minus_di;
  loc_setitem dataframe (mask_and c1 c2) [("exit_short", Num 1)].

(** [max(min_sl, min(risk_pct, max_sl))] with [min_sl = 0.03] and
    [max_sl = 0.07]. *)
Definition dynamic_sl (risk_pct : float) : float :=
  let min_sl := 0.03 in
  let max_sl := 0.07 in
  PyFloat.py_max min_sl (PyFloat.py_min risk_pct max_sl).

Definition custom_stoploss (self : ShinonV2) (pair : string) (trade : Trade)
    (current_rate current_profit : float) : Hook float :=
  got ← get_analyzed_dataframe pair (timeframe self);
  match got with
  | None => mret (stoploss self)
  | Some (_, dataframe) =>
    if empty dataframe then mret (stoploss self) else
    last_row ← lift (iloc_last_row dataframe);
    atr ← lift (row_getitem last_row "atr");
    atr ← lift (cell_float atr);
    let risk_pct := atr / current_rate in
    let dynamic_sl := dynamic_sl risk_pct in
    if is_short trade then mret dynamic_sl else mret (- dynamic_sl)
  end.

Definition custom_exit (self : ShinonV2) (pair : string) (trade : Trade)
    (current_rate current_profit : float) : Hook bool :=
  got ← get_analyzed_dataframe pair (timeframe self);
  match got with
  | None => mret false
  | Some (_, dataframe) =>
    if empty dataframe then mret false else
    last_row ← lift (iloc_last_row dataframe);
    atr ← lift (row_getitem last_row "atr");
    atr ← lift (cell_float atr);
    let risk_pct := atr / current_rate in
    let target_profit := 4 * PyFloat.py_max 0.03 (PyFloat.py_min risk_pct 0.07) in
    let target_profit := PyFloat.py_max 0.05 (PyFloat.py_min target_profit 0.15) in
    if PyFloat.ge current_profit target_profit then mret true else mret false
  end.

End ShinonV2.

(** ** ZaratustraV2 (src/zaratustraV2.py) *)

Module ZaratustraV2.

Import Pandas TA Host.
Local Open Scope float_scope.

Record ZaratustraV2 := {
  timeframe : string;
  stoploss : float;
  max_dca_multiplier : float;
  adx_threshold : Z;
  rsi_threshold : Z;
  atr_multiplier : float
}.

Definition default : ZaratustraV2 := {|
  timeframe := "5m";
  stoploss := -0.349;
  max_dca_multiplier := 1.5;
  adx_threshold := 21;
  rsi_threshold := 64;
  atr_multiplier := 4.097
|}.

(** [min_stake] is [Optional[float]]: comparing [None] with a float is a
    [TypeError]. *)
Definition custom_stake_amount (self : ZaratustraV2) (pair : string)
    (current_rate proposed_stake : float) (min_stake : option float)
    (max_stake leverage : float) : result float :=
  let adjusted_stake := proposed_stake / max_dca_multiplier self in
  match min_stake with
  | Some min_stake => Ok (PyFloat.py_max adjusted_stake min_stake)
  | None => Raise TypeError
  end.

(** The two return statements shared by both sides of the trade. *)
Definition adjust_by_profit (trade : Trade) (atr : cell)
    (current_rate current_profit : float) : result (option float) :=
  if PyFloat.gt current_profit 0.10 && (nr_of_successful_exits trade =? 0)%Z then
    Ok (Some (- (stake_amount trade / 2)))
  else
    atr ← cell_float atr;
    if PyFloat.lt current_profit (-0.05 * (atr / current_rate)) then
      Ok (Some (stake_amount trade * 0.6))
    else Ok None.

Definition adjust_trade_position (self : ZaratustraV2) (trade : Trade)
    (current_rate current_profit : float) (min_stake : option float)
    (max_stake : float) : Hook (option float) :=
  got ← get_analyzed_dataframe (trade_pair trade) (timeframe self);
  match got with
  | None => lift (Raise TypeError)
  | Some (_, dataframe) =>
    column ← lift (getitem dataframe "atr");
    atr ← lift (iloc_last column);
    if String.eqb (entry_side trade) "buy" then
      lift (adjust_by_profit trade atr current_rate current_profit)
    else
      lift (adjust_by_profit trade atr current_rate current_profit)
  end.

Section Hooks.

Context `{Indicators}.

(** [ta.SMA(x * dataframe['volume']) / ta.SMA(dataframe['volume'])]; the
    default look-back of [ta.SMA] is 30. *)
Definition volume_weighted (dataframe : DataFrame) (x : Series) : result Series :=
  volume ← getitem dataframe "volume";
  weighted ← series_arith PrimFloat.mul x volume;
  num ← SMA (InSeries weighted) 30;
  volume ← getitem dataframe "volume";
  den ← SMA (InSeries volume) 30;
  series_arith PrimFloat.div num den.

Definition populate_indicators (self : ZaratustraV2) (dataframe : DataFrame)
    : result DataFrame :=
  atr ← ATR (InFrame dataframe) 14;
  let dataframe := setitem dataframe "atr" atr in
  rsi ← RSI (InFrame dataframe) 14;
  let dataframe := setitem dataframe "rsi" rsi in
  ema_200 ← EMA (InFrame dataframe) 200;
  let dataframe := setitem dataframe "ema_200" ema_200 in
  above ← col_cmp PyFloat.gt dataframe "close" "ema_200";
  let dataframe := setitem dataframe "market_trend" (np_where above (Num 1) (Num (-1))) in
  x ← DX (InFrame dataframe) 14;
  dx ← volume_weighted dataframe x;
  let dataframe := setitem dataframe "dx" dx in
  x ← ADX (InFrame dataframe) 14;
  adx ← volume_weighted dataframe x;
  let dataframe := setitem dataframe "adx" adx in
  x ← PLUS_DI (InFrame dataframe) 14;
  pdi ← volume_weighted dataframe x;
  let dataframe := setitem dataframe "pdi" pdi in
  x ← MINUS_DI (InFrame dataframe) 14;
  mdi ← volume_weighted dataframe x;
  let dataframe := setitem dataframe "mdi" mdi in
  atr ← getitem dataframe "atr";
  close ← getitem dataframe "close";
  volatility ← series_arith PrimFloat.div atr close;
  let dataframe := setitem dataframe "volatility" volatility in
  mret dataframe.

End Hooks.

Definition populate_entry_trend (self : ZaratustraV2) (dataframe : DataFrame)
    : result DataFrame :=
  market_trend ← getitem dataframe "market_trend";
  let c1 := series_eq_scalar market_trend 1 in
  dx ← getitem dataframe "dx";
  pdi ← getitem dataframe "pdi";
  c2 ← Qtpylib.crossed_above dx pdi;
  c3 ← col_cmp_scalar PyFloat.gt dataframe "adx" (PyFloat.float_of_int (adx_threshold self));
  c4 ← col_cmp PyFloat.gt dataframe "pdi" "mdi";
  c5 ← col_cmp_scalar PyFloat.gt dataframe "rsi" (PyFloat.float_of_int (rsi_threshold self));
  c6 ← col_cmp_scalar PyFloat.lt dataframe "volatility" 0.05;
  dataframe ← loc_setitem dataframe
    (mask_and (mask_and (mask_and (mask_and (mask_and c1 c2) c3) c4) c5) c6)
    [("enter_long", Num 1); ("enter_tag", Str "ZaratustraDCA Entry Long")];
  market_trend ← getitem dataframe "market_trend";
  let c1 := series_eq_scalar market_trend (-1) in
  dx ← getitem dataframe "dx";
  mdi ← getitem dataframe "mdi";
  c2 ← Qtpylib.crossed_above dx mdi;
  c3 ← col_cmp_scalar PyFloat.gt dataframe "adx" (PyFloat.float_of_int (adx_threshold self));
  c4 ← col_cmp PyFloat.gt dataframe "mdi" "pdi";
  c5 ← col_cmp_scalar PyFloat.lt dataframe "rsi"
         (PyFloat.float_of_int (100 - rsi_threshold self));
  c6 ← col_cmp_scalar PyFloat.lt dataframe "volatility" 0.05;
  loc_setitem dataframe
    (mask_and (mask_and (mask_and (mask_and (mask_and c1 c2) c3) c4) c5) c6)
    [("enter_short", Num 1); ("enter_tag", Str "ZaratustraDCA Entry Short")].

Definition populate_exit_trend (self : ZaratustraV2) (dataframe : DataFrame)
    : result DataFrame :=
  atr ← getitem dataframe "atr";
  stoploss ← series_arith_scalar PrimFloat.mul atr (atr_multiplier self);
  let dataframe := setitem dataframe "stoploss" stoploss in
  dx ← getitem dataframe "dx";
  adx ← getitem dataframe "adx";
  c1 ← Qtpylib.crossed_below dx adx;
  c2 ← col_cmp_scalar PyFloat.gt dataframe "adx" (PyFloat.float_of_int (adx_threshold self));
  dataframe ← loc_setitem dataframe (mask_and c1 c2)
    [("exit_long", Num 1); ("exit_tag", Str "ZaratustraDCA Exit Long")];
  dx ← getitem dataframe "dx";
  adx ← getitem dataframe "adx";
  c1 ← Qtpylib.crossed_below dx adx;
  c2 ← col_cmp_scalar PyFloat.le dataframe "adx" (PyFloat.float_of_int (adx_threshold self));
  loc_setitem dataframe (mask_and c1 c2)
    [("exit_short", Num 1); ("exit_tag", Str "ZaratustraDCA Exit Short")].

End ZaratustraV2.
(** *** The order on floats, through its specification *)

Section FloatOrder.

Import PyFloat.
Local Open Scope float_scope.

Lemma SFcompare_swap (x y : spec_float) :
  SFcompare y x = CompOpp <$> SFcompare x y.
Proof.
  destruct x as [[]|[]| |[] mx ex], y as [[]|[]| |[] my ey]; simpl; try reflexivity.
  all: rewrite (Z.compare_antisym ex ey);
    destruct (ex ?= ey)%Z; simpl; try reflexivity;
    change PosDef.Pos.compare_cont with Pos.compare_cont;
    rewrite (Pos.compare_cont_antisym mx my Eq); simpl;
    by destruct (Pos.compare_cont Eq my mx).
Qed.

Lemma ltb_compare (x y : float) :
  (x <? y) = true <-> SFcompare (Prim2SF x) (Prim2SF y) = Some Lt.
Proof.
  rewrite FloatAxioms.ltb_spec. unfold SFltb.
  destruct (SFcompare _ _) as [[]|]; split; congruence.
Qed.

Lemma leb_compare (x y : float) :
  (x <=? y) = true <->
  SFcompare (Prim2SF x) (Prim2SF y) = Some Lt \/
  SFcompare (Prim2SF x) (Prim2SF y) = Some Eq.
Proof.
  rewrite FloatAxioms.leb_spec. unfold SFleb.
  destruct (SFcompare _ _) as [[]|]; split; intros; try tauto; try congruence.
  all: destruct H; congruence.
Qed.

Lemma eqb_compare (x y : float) :
  (x =? y) = true <-> SFcompare (Prim2SF x) (Prim2SF y) = Some Eq.
Proof.
  rewrite FloatAxioms.eqb_spec. unfold SFeqb.
  destruct (SFcompare _ _) as [[]|]; split; congruence.
Qed.

Lemma is_nan_spec (x : float) : is_nan x = true <-> Prim2SF x = S754_nan.
Proof.
  unfold is_nan. rewrite negb_true_iff, FloatAxioms.eqb_spec. unfold SFeqb.
  destruct (Prim2SF x) as [[]|[]| |[] m e]; simpl; try (split; congruence).
  all: rewrite Z.compare_refl, Pos.compare_cont_refl; simpl; split; congruence.
Qed.

Lemma compare_None (x y : float) :
  SFcompare (Prim2SF x) (Prim2SF y) = None <->
  is_nan x = true \/ is_nan y = true.
Proof.
  rewrite !is_nan_spec.
  destruct (Prim2SF x) as [[]|[]| |[] mx ex], (Prim2SF y) as [[]|[]| |[] my ey];
    simpl; (split; [intros H | intros [H|H]]); try congruence; auto.
Qed.

(** [<] and [>=] exclude each other, and one of them holds between
    numbers. *)
Lemma ltb_leb_excl (x y : float) : (x <? y) = true -> (y <=? x) = true -> False.
Proof.
  rewrite ltb_compare, leb_compare, (SFcompare_swap (Prim2SF x)).
  intros ->. simpl. intros [?|?]; congruence.
Qed.

Lemma ltb_leb_total (x y : float) :
  is_nan x = false -> is_nan y = false -> (x <? y) = true \/ (y <=? x) = true.
Proof.
  intros Hx Hy. rewrite ltb_compare, leb_compare, (SFcompare_swap (Prim2SF x)).
  destruct (SFcompare (Prim2SF x) (Prim2SF y)) as [[]|] eqn:E; simpl; auto.
  apply compare_None in E. destruct E; congruence.
Qed.

Lemma ltb_not_nan (x y : float) :
  (x <? y) = true -> is_nan x = false /\ is_nan y = false.
Proof.
  rewrite ltb_compare. intros H.
  destruct (is_nan x) eqn:Hx, (is_nan y) eqn:Hy; auto;
    assert (SFcompare (Prim2SF x) (Prim2SF y) = None)
      by (apply compare_None; auto); congruence.
Qed.

Lemma ltb_leb (x y : float) : (x <? y) = true -> (x <=? y) = true.
Proof. rewrite ltb_compare, leb_compare. auto. Qed.

Lemma ltb_irrefl_eq (x y : float) :
  (x =? y) = true -> (x <? y) = false /\ (y <? x) = false.
Proof.
  rewrite eqb_compare. intros H. split; apply not_true_is_false.
  - rewrite ltb_compare. congruence.
  - rewrite ltb_compare, (SFcompare_swap (Prim2SF x)), H. simpl. congruence.
Qed.

Lemma ltb_nan_l (x y : float) : is_nan x = true -> (x <? y) = false.
Proof.
  intros H. apply not_true_is_false. intros C.
  apply ltb_not_nan in C. destruct C. congruence.
Qed.

Lemma ltb_nan_r (x y : float) : is_nan y = true -> (x <? y) = false.
Proof.
  intros H. apply not_true_is_false. intros C.
  apply ltb_not_nan in C. destruct C. congruence.
Qed.

Lemma leb_refl (x : float) : is_nan x = false -> (x <=? x) = true.
Proof.
  intros H. destruct (ltb_leb_total x x H H) as [C|C]; [|done].
  by apply ltb_leb.
Qed.

End FloatOrder.

(** *** Division and signs *)

Section FloatArith.

Import PyFloat.
Local Open Scope float_scope.

Lemma shr_1_nonneg mrs : (0 <= shr_m mrs)%Z -> (0 <= shr_m (shr_1 mrs))%Z.
Proof. destruct mrs as [[|[p|p|]|p] r s]; simpl; lia. Qed.

Lemma iter_shr_1_nonneg p mrs :
  (0 <= shr_m mrs)%Z -> (0 <= shr_m (SpecFloat.iter_pos shr_1 p mrs))%Z.
Proof.
  revert mrs. induction p as [p IH|p IH|]; intros mrs H; simpl.
  - apply IH, IH, shr_1_nonneg, H.
  - apply IH, IH, H.
  - apply shr_1_nonneg, H.
Qed.

Lemma shr_fexp_nonneg m e l :
  (0 <= m)%Z -> (0 <= shr_m (fst (shr_fexp prec emax m e l)))%Z.
Proof.
  intros H. unfold shr_fexp, shr.
  assert (0 <= shr_m (shr_record_of_loc m l))%Z by (destruct l as [|[]]; simpl; lia).
  destruct (_ - e)%Z; simpl; auto using iter_shr_1_nonneg.
Qed.

Lemma round_nearest_even_nonneg m l :
  (0 <= m)%Z -> (0 <= round_nearest_even m l)%Z.
Proof. destruct l as [|[]]; simpl; try lia. destruct (Z.even m); lia. Qed.

(** Rounding a non-negative mantissa never produces NaN. *)
Lemma binary_round_aux_not_nan sx mx ex lx :
  (0 <= mx)%Z -> binary_round_aux prec emax sx mx ex lx <> S754_nan.
Proof.
  intros H. unfold binary_round_aux.
  pose proof (shr_fexp_nonneg mx ex lx H) as H1.
  destruct (shr_fexp prec emax mx ex lx) as [mrs' e']. simpl in H1.
  pose proof (shr_fexp_nonneg _ e' loc_Exact
    (round_nearest_even_nonneg _ (loc_of_shr_record mrs') H1)) as H2.
  destruct (shr_fexp prec emax _ e' loc_Exact) as [mrs'' e'']. simpl in H2.
  destruct (shr_m mrs''); try lia; try discriminate.
  destruct (_ <=? _)%Z; discriminate.
Qed.

Lemma SFdiv_core_nonneg mx ex my ey :
  (0 <= fst (fst (SFdiv_core_binary prec emax (Zpos mx) ex (Zpos my) ey)))%Z.
Proof.
  unfold SFdiv_core_binary.
  set (s := (_ - _ - _)%Z).
  set (m' := match s with Z0 => _ | Zpos _ => _ | Zneg _ => _ end).
  assert (Hm : (0 <= m')%Z).
  { subst m'. destruct s; try lia. apply Z.shiftl_nonneg. lia. }
  pose proof (Z.div_pos m' (Zpos my) Hm ltac:(lia)) as Hq.
  unfold Z.div in Hq. destruct (Z.div_eucl m' (Zpos my)) as [q r]. exact Hq.
Qed.

Lemma SFdiv_finite_not_nan x sy my ey :
  x <> S754_nan -> SF64div x (S754_finite sy my ey) <> S754_nan.
Proof.
  intros Hx. destruct x as [sx|sx| |sx mx ex]; simpl; try discriminate; try congruence.
  unfold SF64div, SFdiv.
  pose proof (SFdiv_core_nonneg mx ex my ey) as H.
  destruct (SFdiv_core_binary _ _ _ _ _ _) as [[mz ez] lz]. simpl in H.
  by apply binary_round_aux_not_nan.
Qed.

Lemma is_nan_false (x : float) : is_nan x = false <-> Prim2SF x <> S754_nan.
Proof.
  rewrite <- is_nan_spec. destruct (is_nan x); split; congruence.
Qed.

(** A number divided by a finite non-zero float is a number. *)
Lemma div_not_nan (x y : float) sy my ey :
  is_nan x = false -> Prim2SF y = S754_finite sy my ey -> is_nan (x / y) = false.
Proof.
  rewrite !is_nan_false, FloatAxioms.div_spec. intros Hx ->.
  by apply SFdiv_finite_not_nan.
Qed.

Lemma pos_SF (d : float) :
  (0 <? d) = true ->
  Prim2SF d = S754_infinity false \/ exists m e, Prim2SF d = S754_finite false m e.
Proof.
  rewrite ltb_compare. change (Prim2SF 0) with (S754_zero false).
  destruct (Prim2SF d) as [[]|[]| |[] m e]; simpl; try discriminate; eauto.
Qed.

Lemma pos_real_SF (x : float) :
  is_pos_real x = true -> exists m e, Prim2SF x = S754_finite false m e.
Proof.
  unfold is_pos_real. rewrite andb_true_iff, (ltb_compare x). intros [H0 Hi].
  apply pos_SF in H0. destruct H0 as [H0|H0]; [|done].
  rewrite H0 in Hi. change (Prim2SF infinity) with (S754_infinity false) in Hi.
  discriminate.
Qed.

Lemma pos_real_not_nan (x : float) : is_pos_real x = true -> is_nan x = false.
Proof.
  intros H. apply pos_real_SF in H. destruct H as (m & e & H).
  apply is_nan_false. congruence.
Qed.

Lemma div_pos_real_not_nan (a r : float) :
  is_pos_real a = true -> is_pos_real r = true -> is_nan (a / r) = false.
Proof.
  intros Ha Hr. destruct (pos_real_SF r Hr) as (m & e & E).
  eapply div_not_nan; eauto using pos_real_not_nan.
Qed.

Lemma abs_pos (d : float) : (0 <? d) = true -> abs d = d.
Proof.
  intros H. apply Prim2SF_inj. rewrite FloatAxioms.abs_spec.
  destruct (pos_SF d H) as [->|(m & e & ->)]; reflexivity.
Qed.

Lemma abs_opp_pos (d : float) : (0 <? d) = true -> abs (- d) = d.
Proof.
  intros H. apply Prim2SF_inj. rewrite FloatAxioms.abs_spec, FloatAxioms.opp_spec.
  destruct (pos_SF d H) as [->|(m & e & ->)]; reflexivity.
Qed.

Lemma opp_pos_neg (d : float) : (0 <? d) = true -> (- d <? 0) = true.
Proof.
  intros H. rewrite ltb_compare, FloatAxioms.opp_spec.
  change (Prim2SF 0) with (S754_zero false).
  destruct (pos_SF d H) as [->|(m & e & ->)]; reflexivity.
Qed.

Lemma leb_pos_trans (c d : float) :
  (0 <? c) = true -> (c <=? d) = true -> (0 <? d) = true.
Proof.
  intros Hc. rewrite leb_compare, ltb_compare.
  change (Prim2SF 0) with (S754_zero false).
  destruct (pos_SF c Hc) as [->|(m & e & ->)];
    destruct (Prim2SF d) as [[]|[]| |[] m' e']; simpl;
    intros [?|?]; try discriminate; reflexivity.
Qed.

Lemma leb_cases (x y : float) :
  (x <=? y) = true <-> (x <? y) = true \/ (x =? y) = true.
Proof. by rewrite leb_compare, ltb_compare, eqb_compare. Qed.

Lemma eqb_sym (x y : float) : (x =? y) = true -> (y =? x) = true.
Proof.
  rewrite !eqb_compare, (SFcompare_swap (Prim2SF x)). by intros ->.
Qed.

Lemma eqb_refl (x : float) : is_nan x = false -> (x =? x) = true.
Proof. unfold is_nan. by rewrite negb_false_iff. Qed.

Lemma not_ltb_leb (x y : float) :
  is_nan x = false -> is_nan y = false -> (x <? y) = false -> (y <=? x) = true.
Proof.
  intros Hx Hy H. destruct (ltb_leb_total x y Hx Hy); congruence.
Qed.

(** The stop-loss formula [max(lo, min(r, hi))]: it lies between the
    bounds whatever [r] is, and is the clamped [r] when [r] is a number. *)
Lemma py_max_min_bounds (lo hi r : float) :
  (lo <=? hi) = true ->
  (lo <=? py_max lo (py_min r hi)) = true /\
  (py_max lo (py_min r hi) <=? hi) = true.
Proof.
  intros Hlh.
  assert (is_nan lo = false /\ is_nan hi = false) as [Hlo Hhi].
  { apply leb_cases in Hlh. destruct Hlh as [H|H].
    - by apply ltb_not_nan.
    - apply eqb_compare in H. split; apply not_true_is_false; intros C;
        assert (SFcompare (Prim2SF lo) (Prim2SF hi) = None)
          by (apply compare_None; auto); congruence. }
  unfold py_max, py_min, lt, gt.
  destruct (hi <? r) eqn:E1.
  - destruct (lo <? hi) eqn:E2; auto using leb_refl.
  - destruct (lo <? r) eqn:E3.
    + split; [by apply ltb_leb|].
      apply not_ltb_leb; auto. by apply ltb_not_nan in E3 as [_ ?].
    + auto using leb_refl.
Qed.

Lemma py_max_min_clamp (lo hi r : float) :
  (lo <=? hi) = true -> is_nan r = false ->
  (py_max lo (py_min r hi) =? clamp lo hi r) = true.
Proof.
  intros Hlh Hr.
  assert (is_nan lo = false /\ is_nan hi = false) as [Hlo Hhi].
  { apply leb_cases in Hlh. destruct Hlh as [H|H].
    - by apply ltb_not_nan.
    - apply eqb_compare in H. split; apply not_true_is_false; intros C;
        assert (SFcompare (Prim2SF lo) (Prim2SF hi) = None)
          by (apply compare_None; auto); congruence. }
  unfold py_max, py_min, clamp, lt, gt.
  destruct (hi <? r) eqn:E1.
  - destruct (lo <? hi) eqn:E2; [by apply eqb_refl|].
    apply leb_cases in Hlh. destruct Hlh; congruence.
  - destruct (lo <? r) eqn:E3.
    + destruct (r <? lo) eqn:E4; [|by apply eqb_refl].
      exfalso. eapply ltb_leb_excl; [exact E3|by apply ltb_leb].
    + destruct (r <? lo) eqn:E4; [by apply eqb_refl|].
      pose proof (not_ltb_leb _ _ Hr Hlo E4) as H.
      apply leb_cases in H. destruct H; congruence.
Qed.

Lemma eqb_nan_l (k : float) : (nan =? k) = false.
Proof.
  apply not_true_is_false. rewrite eqb_compare.
  change (Prim2SF nan) with S754_nan. simpl. discriminate.
Qed.

Lemma binary_round_not_nan sx mx ex : binary_round prec emax sx mx ex <> S754_nan.
Proof.
  unfold binary_round. destruct (shl_align _ _ _) as [mz ez].
  apply binary_round_aux_not_nan. lia.
Qed.

Lemma of_uint63_not_nan n : is_nan (of_uint63 n) = false.
Proof.
  apply is_nan_false. rewrite of_uint63_spec. unfold binary_normalize.
  destruct (to_Z n); try discriminate; apply binary_round_not_nan.
Qed.

Lemma opp_not_nan (x : float) : is_nan x = false -> is_nan (- x) = false.
Proof.
  rewrite !is_nan_false, FloatAxioms.opp_spec.
  destruct (Prim2SF x); simpl; congruence.
Qed.

(** An integer parameter is a number. *)
Lemma float_of_int_not_nan (z : Z) : is_nan (float_of_int z) = false.
Proof.
  unfold float_of_int. destruct (z <? 0)%Z;
    auto using opp_not_nan, of_uint63_not_nan.
Qed.

End FloatArith.

(** ** Reasoning about results and tables *)

Lemma bind_Ok {A B : Type} (m : result A) (k : A → result B) (v : B) :
  m ≫= k = Ok v → ∃ a, m = Ok a ∧ k a = Ok v.
Proof. destruct m as [a|e]; simpl; [eauto | discriminate]. Qed.

Section MapM.

Context {A B : Type}.

Lemma mapM_Ok (f : A → result B) (l : list A) (k : list B) :
  mapM f l = Ok k → Forall2 (λ x y, f x = Ok y) l k.
Proof.
  revert k. induction l as [|x l IH]; intros k; simpl.
  - intros [= <-]. constructor.
  - intros H. apply bind_Ok in H as (y & Hy & H).
    destruct (mapM f l) as [k'|e] eqn:E; simpl in H; [|discriminate].
    injection H as <-. constructor; auto.
Qed.

End MapM.

(** Splits a hypothesis [H : (x ← m; k) = Ok v] into the steps that ran. *)
Ltac inv_bind H :=
  let a := fresh "a" in
  let E := fresh "E" in
  apply bind_Ok in H as (a & E & H).

Module PandasFacts.

Import Pandas.
Local Open Scope float_scope.

(** The number at row [i] of column [c]; NaN stands for a cell that is
    missing or is not a number. *)
Definition num_at (s : Series) (i : nat) : float :=
  match s !! i with
  | Some (Num x) => x
  | _ => nan
  end.

Definition value (df : DataFrame) (c : string) (i : nat) : float :=
  match at_ df c i with
  | Some (Num x) => x
  | _ => nan
  end.

(** The cell a column holds at row [i] before an assignment through
    [.loc]: undefined when the table has no such column. *)
Definition prior (df : DataFrame) (c : string) (i : nat) : cell :=
  default NaN (at_ df c i).

(** A mask's entry at row [i]; rows outside the mask are not selected. *)
Definition selected (m : list bool) (i : nat) : bool := default false (m !! i).

#[global] Instance wf_dec (df : DataFrame) : Decision (wf df).
Proof.
  unfold wf.
  exact (map_Forall_dec (λ (_ : string) (s : Series), length s = index df)
           (H7 := λ _ s, Nat.eq_dec (length s) (index df)) (columns df)).
Defined.

Lemma value_getitem (df : DataFrame) (c : string) (s : Series) (i : nat) :
  getitem df c = Ok s → value df c i = num_at s i.
Proof.
  unfold getitem, value, at_, num_at.
  destruct (columns df !! c); simpl; [by intros [= ->] | discriminate].
Qed.

Lemma getitem_length (df : DataFrame) (c : string) (s : Series) :
  wf df → getitem df c = Ok s → length s = index df.
Proof.
  unfold getitem. intros Hwf. destruct (columns df !! c) eqn:E; [|discriminate].
  intros [= <-]. eauto.
Qed.

Lemma mask_and_row (m1 m2 : list bool) (i : nat) (b1 b2 : bool) :
  m1 !! i = Some b1 → m2 !! i = Some b2 → mask_and m1 m2 !! i = Some (b1 && b2).
Proof. intros H1 H2. unfold mask_and. by rewrite lookup_zip_with, H1, H2. Qed.

Lemma mask_and_length (m1 m2 : list bool) (n : nat) :
  length m1 = n → length m2 = n → length (mask_and m1 m2) = n.
Proof. intros. unfold mask_and. rewrite length_zip_with. lia. Qed.

Lemma selected_Some (m : list bool) (i : nat) (b : bool) :
  m !! i = Some b → selected m i = b.
Proof. unfold selected. by intros ->. Qed.

Lemma series_cmp_row op (a b : Series) (m : list bool) :
  series_cmp op a b = Ok m →
  length m = length a ∧ length b = length a ∧
  ∀ i, i < length a → m !! i = Some (op (num_at a i) (num_at b i)).
Proof.
  unfold series_cmp. destruct (Nat.eqb (length a) (length b)) eqn:El; [|discriminate].
  apply Nat.eqb_eq in El. simpl. intros H. apply mapM_Ok in H.
  pose proof (Forall2_length _ _ _ H) as Hl. rewrite length_zip in Hl.
  split; [lia|]. split; [lia|]. intros i Hi.
  destruct (lookup_lt_is_Some_2 a i Hi) as [x Hx].
  destruct (lookup_lt_is_Some_2 b i ltac:(lia)) as [y Hy].
  assert (zip a b !! i = Some (x, y)) as Hz.
  { by rewrite lookup_zip_with, Hx, Hy. }
  destruct (Forall2_lookup_l _ _ _ _ _ H Hz) as (r & Hr & Hc).
  unfold num_at. rewrite Hx, Hy, Hr. simpl in Hc.
  destruct x, y; simpl in Hc; congruence.
Qed.

Lemma series_cmp_scalar_row op (a : Series) (k : float) (m : list bool) :
  series_cmp_scalar op a k = Ok m →
  length m = length a ∧
  ∀ i, i < length a → m !! i = Some (op (num_at a i) k).
Proof.
  unfold series_cmp_scalar. intros H. apply mapM_Ok in H.
  pose proof (Forall2_length _ _ _ H) as Hl.
  split; [lia|]. intros i Hi.
  destruct (lookup_lt_is_Some_2 a i Hi) as [x Hx].
  destruct (Forall2_lookup_l _ _ _ _ _ H Hx) as (r & Hr & Hc).
  unfold num_at. rewrite Hx, Hr.
  destruct x; simpl in Hc; congruence.
Qed.

Lemma series_eq_scalar_row (a : Series) (k : float) (i : nat) :
  i < length a →
  series_eq_scalar a k !! i = Some (PyFloat.eq (num_at a i) k).
Proof.
  intros Hi. destruct (lookup_lt_is_Some_2 a i Hi) as [x Hx].
  unfold series_eq_scalar, num_at. rewrite list_lookup_fmap, Hx. simpl.
  destruct x; [done|]. unfold PyFloat.eq. by rewrite eqb_nan_l.
Qed.

Lemma series_arith_scalar_row op (a : Series) (k : float) (s : Series) :
  series_arith_scalar op a k = Ok s →
  length s = length a ∧
  ∀ i, i < length a → s !! i = Some (Num (op (num_at a i) k)).
Proof.
  unfold series_arith_scalar. intros H. apply mapM_Ok in H.
  pose proof (Forall2_length _ _ _ H) as Hl.
  split; [lia|]. intros i Hi.
  destruct (lookup_lt_is_Some_2 a i Hi) as [x Hx].
  destruct (Forall2_lookup_l _ _ _ _ _ H Hx) as (r & Hr & Hc).
  unfold num_at. rewrite Hx, Hr.
  destruct x; simpl in Hc; congruence.
Qed.

(** The row before: what [shift(1)] brings to row [i]. *)
Definition before (s : Series) (i : nat) : float :=
  match i with
  | O => nan
  | S j => num_at s j
  end.

Lemma num_at_shift1 (s : Series) (i : nat) :
  i < length s → num_at (shift1 s) i = before s i.
Proof.
  intros Hi. unfold num_at, shift1. rewrite lookup_take_lt by done.
  by destruct i.
Qed.

Lemma shift1_length (s : Series) : length (shift1 s) = length s.
Proof. unfold shift1. rewrite length_take. simpl. lia. Qed.

Lemma crossed_above_row (s1 s2 : Series) (m : list bool) :
  Qtpylib.crossed_above s1 s2 = Ok m →
  length m = length s1 ∧
  ∀ i, i < length s1 →
    m !! i = Some (PyFloat.gt (num_at s1 i) (num_at s2 i) &&
                   PyFloat.le (before s1 i) (before s2 i)).
Proof.
  unfold Qtpylib.crossed_above. intros H.
  apply bind_Ok in H as (above & Ha & H). apply bind_Ok in H as (bef & Hb & H).
  injection H as <-.
  apply series_cmp_row in Ha as (La & L2 & Ha).
  apply series_cmp_row in Hb as (Lb & _ & Hb).
  rewrite shift1_length in Lb, Hb.
  split; [by apply mask_and_length|]. intros i Hi.
  rewrite (mask_and_row _ _ _ _ _ (Ha i Hi) (Hb i Hi)).
  by rewrite !num_at_shift1 by lia.
Qed.

Lemma crossed_below_row (s1 s2 : Series) (m : list bool) :
  Qtpylib.crossed_below s1 s2 = Ok m →
  length m = length s1 ∧
  ∀ i, i < length s1 →
    m !! i = Some (PyFloat.lt (num_at s1 i) (num_at s2 i) &&
                   PyFloat.ge (before s1 i) (before s2 i)).
Proof.
  unfold Qtpylib.crossed_below. intros H.
  apply bind_Ok in H as (below & Ha & H). apply bind_Ok in H as (bef & Hb & H).
  injection H as <-.
  apply series_cmp_row in Ha as (La & L2 & Ha).
  apply series_cmp_row in Hb as (Lb & _ & Hb).
  rewrite shift1_length in Lb, Hb.
  split; [by apply mask_and_length|]. intros i Hi.
  rewrite (mask_and_row _ _ _ _ _ (Ha i Hi) (Hb i Hi)).
  by rewrite !num_at_shift1 by lia.
Qed.

(** The value of column [c] on the row before [i]. *)
Definition value_before (df : DataFrame) (c : string) (i : nat) : float :=
  match i with
  | O => nan
  | S j => value df c j
  end.

(** Column [a] crosses above column [b] at row [i]: it is greater there
    and was not on the row before. *)
Definition crossed_above_at (df : DataFrame) (a b : string) (i : nat) : bool :=
  PyFloat.gt (value df a i) (value df b i) &&
  PyFloat.le (value_before df a i) (value_before df b i).

(** Column [a] crosses below column [b] at row [i]. *)
Definition crossed_below_at (df : DataFrame) (a b : string) (i : nat) : bool :=
  PyFloat.lt (value df a i) (value df b i) &&
  PyFloat.ge (value_before df a i) (value_before df b i).

Lemma before_getitem (df : DataFrame) (c : string) (s : Series) (i : nat) :
  getitem df c = Ok s → value_before df c i = before s i.
Proof.
  intros H. destruct i; [done|]. simpl. by apply value_getitem.
Qed.

Lemma col_cmp_row op (df : DataFrame) (a b : string) (m : list bool) :
  wf df → col_cmp op df a b = Ok m →
  length m = index df ∧
  ∀ i, i < index df → m !! i = Some (op (value df a i) (value df b i)).
Proof.
  intros Hwf H. unfold col_cmp in H. inv_bind H. inv_bind H.
  pose proof (getitem_length _ _ _ Hwf E) as L1.
  apply series_cmp_row in H as (Lm & _ & Hrow).
  split; [lia|]. intros i Hi.
  rewrite (value_getitem _ _ _ _ E), (value_getitem _ _ _ _ E0).
  apply Hrow. lia.
Qed.

Lemma col_cmp_scalar_row op (df : DataFrame) (a : string) (k : float) (m : list bool) :
  wf df → col_cmp_scalar op df a k = Ok m →
  length m = index df ∧
  ∀ i, i < index df → m !! i = Some (op (value df a i) k).
Proof.
  intros Hwf H. unfold col_cmp_scalar in H. inv_bind H.
  pose proof (getitem_length _ _ _ Hwf E) as L1.
  apply series_cmp_scalar_row in H as (Lm & Hrow).
  split; [lia|]. intros i Hi.
  rewrite (value_getitem _ _ _ _ E). apply Hrow. lia.
Qed.

Lemma selected_mask_and (m1 m2 : list bool) (i : nat) :
  selected (mask_and m1 m2) i = selected m1 i && selected m2 i.
Proof.
  unfold selected, mask_and. rewrite lookup_zip_with.
  destruct (m1 !! i) as [b1|], (m2 !! i) as [b2|]; simpl; try done.
  by rewrite andb_false_r.
Qed.

Lemma col_cmp_selected op (df : DataFrame) (a b : string) (m : list bool) (i : nat) :
  wf df → col_cmp op df a b = Ok m → i < index df →
  selected m i = op (value df a i) (value df b i).
Proof.
  intros Hwf H Hi. apply col_cmp_row in H as [_ H]; [|done].
  by apply selected_Some, H.
Qed.

Lemma col_cmp_scalar_selected op (df : DataFrame) (a : string) (k : float)
    (m : list bool) (i : nat) :
  wf df → col_cmp_scalar op df a k = Ok m → i < index df →
  selected m i = op (value df a i) k.
Proof.
  intros Hwf H Hi. apply col_cmp_scalar_row in H as [_ H]; [|done].
  by apply selected_Some, H.
Qed.

Lemma crossed_above_selected (df : DataFrame) (a b : string) (s1 s2 : Series)
    (m : list bool) (i : nat) :
  wf df → getitem df a = Ok s1 → getitem df b = Ok s2 →
  Qtpylib.crossed_above s1 s2 = Ok m → i < index df →
  selected m i = crossed_above_at df a b i.
Proof.
  intros Hwf H1 H2 H Hi. apply crossed_above_row in H as [_ H].
  unfold crossed_above_at.
  rewrite (value_getitem _ _ _ _ H1), (value_getitem _ _ _ _ H2),
    (before_getitem _ _ _ _ H1), (before_getitem _ _ _ _ H2).
  apply selected_Some, H. by rewrite (getitem_length _ _ _ Hwf H1).
Qed.

Lemma crossed_below_selected (df : DataFrame) (a b : string) (s1 s2 : Series)
    (m : list bool) (i : nat) :
  wf df → getitem df a = Ok s1 → getitem df b = Ok s2 →
  Qtpylib.crossed_below s1 s2 = Ok m → i < index df →
  selected m i = crossed_below_at df a b i.
Proof.
  intros Hwf H1 H2 H Hi. apply crossed_below_row in H as [_ H].
  unfold crossed_below_at.
  rewrite (value_getitem _ _ _ _ H1), (value_getitem _ _ _ _ H2),
    (before_getitem _ _ _ _ H1), (before_getitem _ _ _ _ H2).
  apply selected_Some, H. by rewrite (getitem_length _ _ _ Hwf H1).
Qed.

Lemma series_eq_scalar_selected (df : DataFrame) (c : string) (s : Series)
    (k : float) (i : nat) :
  wf df → getitem df c = Ok s → i < index df →
  selected (series_eq_scalar s k) i = PyFloat.eq (value df c i) k.
Proof.
  intros Hwf H Hi. rewrite (value_getitem _ _ _ _ H).
  apply selected_Some, series_eq_scalar_row.
  by rewrite (getitem_length _ _ _ Hwf H).
Qed.

(** *** Assignment through [.loc] *)

Lemma loc_set1_index df mask c v : index (loc_set1 df mask c v) = index df.
Proof. reflexivity. Qed.

Lemma loc_set1_other df mask c v c' :
  c ≠ c' → columns (loc_set1 df mask c v) !! c' = columns df !! c'.
Proof. intros. simpl. by rewrite lookup_insert_ne. Qed.

Lemma loc_set1_wf df mask c v :
  length mask = index df → wf df → wf (loc_set1 df mask c v).
Proof.
  intros Hm Hwf c' s. simpl. destruct (decide (c = c')) as [->|Hne].
  - rewrite lookup_insert_eq. intros [= <-]. rewrite length_zip_with.
    destruct (columns df !! c') as [old|] eqn:E; simpl.
    + rewrite (Hwf _ _ E). lia.
    + rewrite length_replicate. lia.
  - rewrite lookup_insert_ne by done. apply Hwf.
Qed.

Lemma loc_set1_same df mask c v i :
  length mask = index df → wf df → i < index df →
  at_ (loc_set1 df mask c v) c i = Some (if selected mask i then v else prior df c i).
Proof.
  intros Hm Hwf Hi. unfold at_, prior, selected, at_. simpl.
  rewrite lookup_insert_eq. simpl. rewrite lookup_zip_with.
  destruct (lookup_lt_is_Some_2 mask i ltac:(lia)) as [b Hb]. rewrite Hb. simpl.
  destruct (columns df !! c) as [old|] eqn:E; simpl.
  - destruct (lookup_lt_is_Some_2 old i) as [o Ho]; [rewrite (Hwf _ _ E); lia|].
    by rewrite Ho.
  - by rewrite lookup_replicate_2 by lia.
Qed.

Lemma at_other (df df' : DataFrame) (c : string) (i : nat) :
  columns df' !! c = columns df !! c → at_ df' c i = at_ df c i.
Proof. unfold at_. by intros ->. Qed.

Lemma value_other (df df' : DataFrame) (c : string) (i : nat) :
  columns df' !! c = columns df !! c → value df' c i = value df c i.
Proof. unfold value. intros H. by rewrite (at_other _ _ _ _ H). Qed.

Lemma prior_other (df df' : DataFrame) (c : string) (i : nat) :
  columns df' !! c = columns df !! c → prior df' c i = prior df c i.
Proof. unfold prior. intros H. by rewrite (at_other _ _ _ _ H). Qed.

(** [df.loc[mask, [c; tag]] = (v, t)]: the flag and its tag. *)
Lemma loc_setitem_pair df mask c v tag t df' :
  c ≠ tag → wf df →
  loc_setitem df mask [(c, v); (tag, t)] = Ok df' →
  index df' = index df ∧ wf df' ∧
  (∀ c', c' ≠ c → c' ≠ tag → columns df' !! c' = columns df !! c') ∧
  (∀ i, i < index df →
     at_ df' c i = Some (if selected mask i then v else prior df c i)).
Proof.
  intros Hne Hwf. unfold loc_setitem.
  destruct (Nat.eqb (length mask) (index df)) eqn:El; [|discriminate].
  apply Nat.eqb_eq in El. simpl. intros [= <-].
  split; [done|]. split; [by repeat apply loc_set1_wf|].
  split.
  - intros c' H1 H2. by rewrite !loc_set1_other.
  - intros i Hi. rewrite (at_other (loc_set1 df mask c v)).
    + by apply loc_set1_same.
    + by apply loc_set1_other.
Qed.

(** [df.loc[mask, c] = v] *)
Lemma loc_setitem_single df mask c v df' :
  wf df →
  loc_setitem df mask [(c, v)] = Ok df' →
  index df' = index df ∧ wf df' ∧
  (∀ c', c' ≠ c → columns df' !! c' = columns df !! c') ∧
  (∀ i, i < index df →
     at_ df' c i = Some (if selected mask i then v else prior df c i)).
Proof.
  intros Hwf. unfold loc_setitem.
  destruct (Nat.eqb (length mask) (index df)) eqn:El; [|discriminate].
  apply Nat.eqb_eq in El. simpl. intros [= <-].
  split; [done|]. split; [by apply loc_set1_wf|].
  split.
  - intros c' H1. by rewrite loc_set1_other.
  - intros i Hi. by apply loc_set1_same.
Qed.

(** *** Column assignment *)

Lemma setitem_index df c s : index (setitem df c s) = index df.
Proof. reflexivity. Qed.

Lemma setitem_other df c s c' :
  c ≠ c' → columns (setitem df c s) !! c' = columns df !! c'.
Proof. intros. simpl. by rewrite lookup_insert_ne. Qed.

Lemma reindex_length n s : length (reindex n s) = n.
Proof. unfold reindex. rewrite length_app, length_take, length_replicate. lia. Qed.

Lemma setitem_wf df c s : wf df → wf (setitem df c s).
Proof.
  intros Hwf c' s'. simpl. destruct (decide (c = c')) as [->|Hne].
  - rewrite lookup_insert_eq. intros [= <-]. apply reindex_length.
  - rewrite lookup_insert_ne by done. apply Hwf.
Qed.

(** An undefined cell is not the flag [1]. *)
Lemma NaN_not_one : NaN ≠ Num 1.
Proof.
  unfold NaN. intros E.
  assert (is_nan nan = is_nan 1) as H by congruence.
  vm_compute in H. discriminate.
Qed.

(** A flag column written by a hook: the rows of the rule hold [1], the
    other rows keep the cell they had. *)
Definition flag_written (df df' : DataFrame) (c : string) (rule : bool) (i : nat) : Prop :=
  at_ df' c i = Some (if rule then Num 1 else prior df c i).

(** On a table that had no such column, the flag is [1] exactly on the
    rows of the rule. *)
Definition flag_exact (df df' : DataFrame) (c : string) (rule : bool) (i : nat) : Prop :=
  columns df !! c = None → (at_ df' c i = Some (Num 1) ↔ rule = true).

Lemma flag_written_exact df df' c rule i :
  flag_written df df' c rule i → flag_exact df df' c rule i.
Proof.
  unfold flag_written, flag_exact, prior, at_. intros -> Hc. rewrite Hc. simpl.
  destruct rule; (split; [|done]); [done|].
  intros E. destruct NaN_not_one. congruence.
Qed.

(** *** What a hook leaves in place *)

(** The candle columns the host supplies. *)
Definition bar_columns : list string := ["open"; "high"; "low"; "close"; "volume"].

(** [df'] has the rows of [df], and every column of [df] outside [names]
    unchanged. *)
Definition extends_by (names : list string) (df df' : DataFrame) : Prop :=
  index df' = index df ∧ ∀ c, c ∉ names → columns df' !! c = columns df !! c.

Lemma extends_by_refl names df : extends_by names df df.
Proof. by split. Qed.

Lemma extends_by_setitem names df d c s :
  c ∈ names → extends_by names df d → extends_by names df (setitem d c s).
Proof.
  intros Hc [Hi Ho]. split; [done|]. intros c' Hc'.
  rewrite setitem_other; [by apply Ho|]. intros ->. done.
Qed.

(** Membership in, and absence from, a list of column names given in full. *)
Ltac solve_elem :=
  repeat first [ by apply elem_of_cons; left | apply elem_of_cons; right ].
Ltac solve_not_elem :=
  repeat (apply not_elem_of_cons; split; [discriminate|]); apply not_elem_of_nil.

(** Well-formedness of a concrete table, by evaluation. *)
Ltac prove_wf := refine (bool_decide_unpack _ _); vm_compute; exact I.

End PandasFacts.

(** ** ShinonV1: entry and exit signals *)

Module ShinonV1Facts.

Import Pandas PandasFacts ShinonV1.
Local Open Scope float_scope.

(** The long rule at row [i]: the three comparisons on the main timeframe
    and the three on the informative one. *)
Definition long_rule (df : DataFrame) (i : nat) : bool :=
  PyFloat.gt (value df "close" i) (value df "ema13" i) &&
  PyFloat.gt (value df "close" i) (value df "ema21" i) &&
  PyFloat.gt (value df "ema13" i) (value df "ema21" i) &&
  PyFloat.gt (value df "informative_1h_close" i) (value df "informative_1h_ema13" i) &&
  PyFloat.gt (value df "informative_1h_close" i) (value df "informative_1h_ema21" i) &&
  PyFloat.gt (value df "informative_1h_ema13" i) (value df "informative_1h_ema21" i).

(** The short rule: the same six comparisons, reversed. *)
Definition short_rule (df : DataFrame) (i : nat) : bool :=
  PyFloat.lt (value df "close" i) (value df "ema13" i) &&
  PyFloat.lt (value df "close" i) (value df "ema21" i) &&
  PyFloat.lt (value df "ema13" i) (value df "ema21" i) &&
  PyFloat.lt (value df "informative_1h_close" i) (value df "informative_1h_ema13" i) &&
  PyFloat.lt (value df "informative_1h_close" i) (value df "informative_1h_ema21" i) &&
  PyFloat.lt (value df "informative_1h_ema13" i) (value df "informative_1h_ema21" i).

(** C3. [populate_entry_trend] writes [enter_long = 1] on exactly the rows
    where the six comparisons of the long rule hold, and [enter_short = 1]
    on exactly the rows where the six reversed comparisons hold; every other
    row keeps the cell it had, which is undefined on a table that had no
    such column. *)
Theorem shinonV1_entry_rows (self : ShinonV1) (df df' : DataFrame) (i : nat) :
  wf df → populate_entry_trend self df = Ok df' → i < index df →
  flag_written df df' "enter_long" (long_rule df i) i ∧
  flag_written df df' "enter_short" (short_rule df i) i ∧
  flag_exact df df' "enter_long" (long_rule df i) i ∧
  flag_exact df df' "enter_short" (short_rule df i) i.
Proof.
  intros Hwf H Hi. unfold populate_entry_trend in H.
  apply bind_Ok in H as (l1 & Hl1 & H). apply bind_Ok in H as (l2 & Hl2 & H).
  apply bind_Ok in H as (l3 & Hl3 & H). apply bind_Ok in H as (l4 & Hl4 & H).
  apply bind_Ok in H as (l5 & Hl5 & H). apply bind_Ok in H as (l6 & Hl6 & H).
  apply bind_Ok in H as (df1 & Hloc1 & H).
  apply bind_Ok in H as (s1 & Hs1 & H). apply bind_Ok in H as (s2 & Hs2 & H).
  apply bind_Ok in H as (s3 & Hs3 & H). apply bind_Ok in H as (s4 & Hs4 & H).
  apply bind_Ok in H as (s5 & Hs5 & H). apply bind_Ok in H as (s6 & Hs6 & H).
  apply loc_setitem_pair in Hloc1 as (Hi1 & Hwf1 & Hother1 & Hlong); [|done|done].
  apply loc_setitem_pair in H as (Hi2 & Hwf2 & Hother2 & Hshort); [|done|done].
  assert (Hv : ∀ c, c ≠ "enter_long" → c ≠ "enter_tag" → value df1 c i = value df c i).
  { intros c ? ?. apply value_other. by apply Hother1. }
  assert (Hlong' : flag_written df df' "enter_long" (long_rule df i) i).
  { unfold flag_written. rewrite (at_other df1) by by apply Hother2.
    rewrite Hlong by done. simpl. rewrite !selected_mask_and.
    rewrite (col_cmp_selected _ _ _ _ _ _ Hwf Hl1 Hi), (col_cmp_selected _ _ _ _ _ _ Hwf Hl2 Hi),
      (col_cmp_selected _ _ _ _ _ _ Hwf Hl3 Hi), (col_cmp_selected _ _ _ _ _ _ Hwf Hl4 Hi),
      (col_cmp_selected _ _ _ _ _ _ Hwf Hl5 Hi), (col_cmp_selected _ _ _ _ _ _ Hwf Hl6 Hi).
    reflexivity. }
  assert (Hshort' : flag_written df df' "enter_short" (short_rule df i) i).
  { unfold flag_written. rewrite Hshort by lia. simpl. rewrite !selected_mask_and.
    assert (Hi' : i < index df1) by lia.
    rewrite (col_cmp_selected _ _ _ _ _ _ Hwf1 Hs1 Hi'), (col_cmp_selected _ _ _ _ _ _ Hwf1 Hs2 Hi'),
      (col_cmp_selected _ _ _ _ _ _ Hwf1 Hs3 Hi'), (col_cmp_selected _ _ _ _ _ _ Hwf1 Hs4 Hi'),
      (col_cmp_selected _ _ _ _ _ _ Hwf1 Hs5 Hi'), (col_cmp_selected _ _ _ _ _ _ Hwf1 Hs6 Hi').
    rewrite !Hv by done.
    rewrite (prior_other df df1) by by apply Hother1.
    reflexivity. }
  auto using flag_written_exact.
Qed.

(** Three candles: an up-trend on both timeframes, a down-trend on both,
    and a close sitting on its EMA13. *)
Definition entry_table : DataFrame :=
  frame 3 [("close", [10; 7; 9]); ("ema13", [9; 8; 9]); ("ema21", [8; 9; 8.5]);
           ("informative_1h_close", [10; 7; 10]);
           ("informative_1h_ema13", [9; 8; 9]);
           ("informative_1h_ema21", [8; 9; 8])].

Definition entry_result : DataFrame :=
  returned (populate_entry_trend default entry_table) entry_table.

Example shinonV1_entry_flags :
  at_ entry_result "enter_long" <$> [0; 1; 2]%nat = [Some (Num 1); Some NaN; Some NaN] ∧
  at_ entry_result "enter_short" <$> [0; 1; 2]%nat = [Some NaN; Some (Num 1); Some NaN].
Proof. vm_compute. done. Qed.

Lemma shinonV1_entry_rows_witness :
  wf entry_table ∧
  populate_entry_trend default entry_table = Ok entry_result ∧
  flag_written entry_table entry_result "enter_long" (long_rule entry_table 0) 0 ∧
  flag_written entry_table entry_result "enter_short" (short_rule entry_table 0) 0 ∧
  flag_exact entry_table entry_result "enter_long" (long_rule entry_table 0) 0 ∧
  flag_exact entry_table entry_result "enter_short" (short_rule entry_table 0) 0.
Proof.
  assert (Hwf : wf entry_table) by (refine (bool_decide_unpack _ _); vm_compute; exact I).
  assert (Hrun : populate_entry_trend default entry_table = Ok entry_result)
    by (vm_compute; reflexivity).
  split; [exact Hwf|]. split; [exact Hrun|].
  apply (shinonV1_entry_rows default entry_table entry_result 0 Hwf Hrun).
  vm_compute. lia.
Defined.

(** C5. On every row, [populate_exit_trend] writes [exit_long = 1] exactly
    when close < ema13 and [exit_short = 1] exactly when close > ema13.  A
    row whose close equals its ema13, or whose ema13 is undefined, satisfies
    neither comparison and receives neither flag. *)
Theorem shinonV1_exit_rows (self : ShinonV1) (df df' : DataFrame) (i : nat) :
  wf df → populate_exit_trend self df = Ok df' → i < index df →
  let close := value df "close" i in
  let ema13 := value df "ema13" i in
  flag_written df df' "exit_long" (PyFloat.lt close ema13) i ∧
  flag_written df df' "exit_short" (PyFloat.gt close ema13) i ∧
  flag_exact df df' "exit_long" (PyFloat.lt close ema13) i ∧
  flag_exact df df' "exit_short" (PyFloat.gt close ema13) i ∧
  (PyFloat.eq close ema13 = true ∨ is_nan ema13 = true →
   PyFloat.lt close ema13 = false ∧ PyFloat.gt close ema13 = false ∧
   at_ df' "exit_long" i = Some (prior df "exit_long" i) ∧
   at_ df' "exit_short" i = Some (prior df "exit_short" i)).
Proof.
  intros Hwf H Hi close ema13. unfold populate_exit_trend in H.
  apply bind_Ok in H as (l & Hl & H). apply bind_Ok in H as (df1 & Hloc1 & H).
  apply bind_Ok in H as (s & Hs & H).
  apply loc_setitem_pair in Hloc1 as (Hi1 & Hwf1 & Hother1 & Hlong); [|done|done].
  apply loc_setitem_pair in H as (Hi2 & Hwf2 & Hother2 & Hshort); [|done|done].
  assert (Hi' : i < index df1) by lia.
  assert (Hlong' : flag_written df df' "exit_long" (PyFloat.lt close ema13) i).
  { unfold flag_written. rewrite (at_other df1) by by apply Hother2.
    rewrite Hlong by done.
    by rewrite (col_cmp_selected _ _ _ _ _ _ Hwf Hl Hi). }
  assert (Hshort' : flag_written df df' "exit_short" (PyFloat.gt close ema13) i).
  { unfold flag_written. rewrite Hshort by done.
    rewrite (col_cmp_selected _ _ _ _ _ _ Hwf1 Hs Hi').
    rewrite !(value_other df df1) by by apply Hother1.
    by rewrite (prior_other df df1) by by apply Hother1. }
  split; [done|]. split; [done|].
  split; [by apply flag_written_exact|]. split; [by apply flag_written_exact|].
  intros Hor.
  assert (PyFloat.lt close ema13 = false ∧ PyFloat.gt close ema13 = false)
    as [E1 E2].
  { unfold PyFloat.lt, PyFloat.gt, PyFloat.eq in *. destruct Hor as [Hor|Hor].
    - by apply ltb_irrefl_eq.
    - split; [by apply ltb_nan_r | by apply ltb_nan_l]. }
  split; [done|]. split; [done|]. unfold flag_written in Hlong', Hshort'.
  rewrite E1 in Hlong'. rewrite E2 in Hshort'. done.
Qed.

(** A falling close, a rising close, a close on its EMA13, and a candle
    whose EMA13 is not defined yet. *)
Definition exit_table : DataFrame :=
  frame 4 [("close", [7; 10; 9; 9]); ("ema13", [8; 9; 9; nan])].

Definition exit_result : DataFrame :=
  returned (populate_exit_trend default exit_table) exit_table.

Example shinonV1_exit_flags :
  at_ exit_result "exit_long" <$> [0; 1; 2; 3]%nat
    = [Some (Num 1); Some NaN; Some NaN; Some NaN] ∧
  at_ exit_result "exit_short" <$> [0; 1; 2; 3]%nat
    = [Some NaN; Some (Num 1); Some NaN; Some NaN].
Proof. vm_compute. done. Qed.

Lemma shinonV1_exit_rows_witness :
  wf exit_table ∧
  populate_exit_trend default exit_table = Ok exit_result ∧
  let close := value exit_table "close" 2 in
  let ema13 := value exit_table "ema13" 2 in
  flag_written exit_table exit_result "exit_long" (PyFloat.lt close ema13) 2 ∧
  flag_written exit_table exit_result "exit_short" (PyFloat.gt close ema13) 2 ∧
  flag_exact exit_table exit_result "exit_long" (PyFloat.lt close ema13) 2 ∧
  flag_exact exit_table exit_result "exit_short" (PyFloat.gt close ema13) 2 ∧
  (PyFloat.eq close ema13 = true ∨ is_nan ema13 = true →
   PyFloat.lt close ema13 = false ∧ PyFloat.gt close ema13 = false ∧
   at_ exit_result "exit_long" 2 = Some (prior exit_table "exit_long" 2) ∧
   at_ exit_result "exit_short" 2 = Some (prior exit_table "exit_short" 2)).
Proof.
  assert (Hwf : wf exit_table) by prove_wf.
  assert (Hrun : populate_exit_trend default exit_table = Ok exit_result)
    by (vm_compute; reflexivity).
  split; [exact Hwf|]. split; [exact Hrun|].
  apply (shinonV1_exit_rows default exit_table exit_result 2 Hwf Hrun).
  vm_compute. lia.
Defined.

End ShinonV1Facts.

(** ** ShinonV2: entry signals, stop-loss and fall-backs *)

Module ShinonV2Facts.

Import Pandas PandasFacts Host ShinonV2.
Local Open Scope float_scope.

Lemma volume_above_ma_selected (self : ShinonV2) (df : DataFrame)
    (m : list bool) (i : nat) :
  wf df → volume_above_ma self df = Ok m → i < index df →
  selected m i =
    PyFloat.gt (value df "volume" i) (value df "volume_ma" i * volume_filter self).
Proof.
  intros Hwf H Hi. unfold volume_above_ma in H.
  apply bind_Ok in H as (volume & Hv & H). apply bind_Ok in H as (ma & Hma & H).
  apply bind_Ok in H as (scaled & Hs & H).
  pose proof (getitem_length _ _ _ Hwf Hv) as Lv.
  pose proof (getitem_length _ _ _ Hwf Hma) as Lma.
  apply series_arith_scalar_row in Hs as (Ls & Hs).
  apply series_cmp_row in H as (_ & _ & H).
  rewrite (value_getitem _ _ _ _ Hv), (value_getitem _ _ _ _ Hma).
  rewrite (selected_Some _ _ _ (H i ltac:(lia))).
  assert (num_at scaled i = num_at ma i * volume_filter self) as ->; [|done].
  unfold num_at at 1. by rewrite (Hs i ltac:(lia)).
Qed.

Lemma and_trend_filter_selected (self : ShinonV2) (df : DataFrame)
    (m m' : list bool) (i : nat) :
  wf df → and_trend_filter self df m = Ok m' → i < index df →
  selected m' i =
    selected m i && (if trend_filter self then PyFloat.gt (value df "adx" i) 30 else true).
Proof.
  intros Hwf H Hi. unfold and_trend_filter in H. destruct (trend_filter self).
  - apply bind_Ok in H as (c & Hc & H). injection H as <-.
    by rewrite selected_mask_and, (col_cmp_scalar_selected _ _ _ _ _ _ Hwf Hc Hi).
  - injection H as <-. unfold selected, mask_and_scalar.
    rewrite list_lookup_fmap. by destruct (m !! i).
Qed.

(** The entry rules of the strategy object [self] at row [i]. *)
Definition long_rule_of (self : ShinonV2) (df : DataFrame) (i : nat) : bool :=
  PyFloat.lt (value df "close" i) (value df "bb_lower" i) &&
  PyFloat.gt (value df "volume" i) (value df "volume_ma" i * volume_filter self) &&
  (if trend_filter self then PyFloat.gt (value df "adx" i) 30 else true) &&
  PyFloat.gt (value df "plus_di" i) (value df "minus_di" i).

Definition short_rule_of (self : ShinonV2) (df : DataFrame) (i : nat) : bool :=
  PyFloat.gt (value df "close" i) (value df "bb_upper" i) &&
  PyFloat.gt (value df "volume" i) (value df "volume_ma" i * volume_filter self) &&
  (if trend_filter self then PyFloat.gt (value df "adx" i) 30 else true) &&
  PyFloat.gt (value df "minus_di" i) (value df "plus_di" i).

Lemma shinonV2_entry_rows_of (self : ShinonV2) (df df' : DataFrame) (i : nat) :
  wf df → populate_entry_trend self df = Ok df' → i < index df →
  flag_written df df' "enter_long" (long_rule_of self df i) i ∧
  flag_written df df' "enter_short" (short_rule_of self df i) i.
Proof.
  intros Hwf H Hi. unfold populate_entry_trend in H.
  apply bind_Ok in H as (l1 & Hl1 & H). apply bind_Ok in H as (l2 & Hl2 & H).
  apply bind_Ok in H as (l3 & Hl3 & H). apply bind_Ok in H as (l4 & Hl4 & H).
  apply bind_Ok in H as (df1 & Hloc1 & H).
  apply bind_Ok in H as (s1 & Hs1 & H). apply bind_Ok in H as (s2 & Hs2 & H).
  apply bind_Ok in H as (s3 & Hs3 & H). apply bind_Ok in H as (s4 & Hs4 & H).
  apply loc_setitem_single in Hloc1 as (Hi1 & Hwf1 & Hother1 & Hlong); [|done].
  apply loc_setitem_single in H as (Hi2 & Hwf2 & Hother2 & Hshort); [|done].
  assert (Hi' : i < index df1) by lia.
  assert (Hv : ∀ c, c ≠ "enter_long" → value df1 c i = value df c i).
  { intros c ?. apply value_other. by apply Hother1. }
  split.
  - unfold flag_written. rewrite (at_other df1) by by apply Hother2.
    rewrite Hlong by done. rewrite !selected_mask_and.
    rewrite (and_trend_filter_selected _ _ _ _ _ Hwf Hl3 Hi), selected_mask_and.
    rewrite (col_cmp_selected _ _ _ _ _ _ Hwf Hl1 Hi),
      (volume_above_ma_selected _ _ _ _ Hwf Hl2 Hi),
      (col_cmp_selected _ _ _ _ _ _ Hwf Hl4 Hi).
    reflexivity.
  - unfold flag_written. rewrite Hshort by done. rewrite !selected_mask_and.
    rewrite (and_trend_filter_selected _ _ _ _ _ Hwf1 Hs3 Hi'), selected_mask_and.
    rewrite (col_cmp_selected _ _ _ _ _ _ Hwf1 Hs1 Hi'),
      (volume_above_ma_selected _ _ _ _ Hwf1 Hs2 Hi'),
      (col_cmp_selected _ _ _ _ _ _ Hwf1 Hs4 Hi').
    rewrite !Hv by done.
    rewrite (prior_other df df1) by by apply Hother1.
    reflexivity.
Qed.

(** The rules with the hyperparameters at their defaults, as the
    specification words them. *)
Definition long_rule (df : DataFrame) (i : nat) : bool :=
  PyFloat.lt (value df "close" i) (value df "bb_lower" i) &&
  PyFloat.gt (value df "volume" i) (value df "volume_ma" i * 1.1) &&
  PyFloat.gt (value df "adx" i) 30 &&
  PyFloat.gt (value df "plus_di" i) (value df "minus_di" i).

Definition short_rule (df : DataFrame) (i : nat) : bool :=
  PyFloat.gt (value df "close" i) (value df "bb_upper" i) &&
  PyFloat.gt (value df "volume" i) (value df "volume_ma" i * 1.1) &&
  PyFloat.gt (value df "adx" i) 30 &&
  PyFloat.gt (value df "minus_di" i) (value df "plus_di" i).

(** C4. With the hyperparameters at their defaults, [populate_entry_trend]
    writes [enter_long = 1] on exactly the rows where close < bb_lower,
    volume > volume_ma * 1.1, adx > 30 and plus_di > minus_di, and
    [enter_short = 1] on exactly the rows where close > bb_upper,
    volume > volume_ma * 1.1, adx > 30 and minus_di > plus_di. *)
Theorem shinonV2_entry_rows (df df' : DataFrame) (i : nat) :
  wf df → populate_entry_trend default df = Ok df' → i < index df →
  flag_written df df' "enter_long" (long_rule df i) i ∧
  flag_written df df' "enter_short" (short_rule df i) i ∧
  flag_exact df df' "enter_long" (long_rule df i) i ∧
  flag_exact df df' "enter_short" (short_rule df i) i.
Proof.
  intros Hwf H Hi.
  destruct (shinonV2_entry_rows_of default df df' i Hwf H Hi) as [Hl Hs].
  change (long_rule_of default df i) with (long_rule df i) in Hl.
  change (short_rule_of default df i) with (short_rule df i) in Hs.
  auto using flag_written_exact.
Qed.

(** Four candles: a close under the lower band on heavy volume in a strong
    up-move, a close over the upper band on heavy volume in a strong
    down-move, the first again with a weak trend, and the first again on
    thin volume. *)
Definition entry_table : DataFrame :=
  frame 4 [("close", [9; 12; 9; 9]); ("bb_lower", [10; 10; 10; 10]);
           ("bb_upper", [11; 11; 11; 11]);
           ("volume", [120; 120; 120; 105]); ("volume_ma", [100; 100; 100; 100]);
           ("adx", [35; 35; 25; 35]);
           ("plus_di", [30; 10; 30; 30]); ("minus_di", [10; 30; 10; 10])].

Definition entry_result : DataFrame :=
  returned (populate_entry_trend default entry_table) entry_table.

Example shinonV2_entry_flags :
  at_ entry_result "enter_long" <$> [0; 1; 2; 3]%nat
    = [Some (Num 1); Some NaN; Some NaN; Some NaN] ∧
  at_ entry_result "enter_short" <$> [0; 1; 2; 3]%nat
    = [Some NaN; Some (Num 1); Some NaN; Some NaN].
Proof. vm_compute. done. Qed.

Lemma shinonV2_entry_rows_witness :
  wf entry_table ∧
  populate_entry_trend default entry_table = Ok entry_result ∧
  flag_written entry_table entry_result "enter_long" (long_rule entry_table 0) 0 ∧
  flag_written entry_table entry_result "enter_short" (short_rule entry_table 0) 0 ∧
  flag_exact entry_table entry_result "enter_long" (long_rule entry_table 0) 0 ∧
  flag_exact entry_table entry_result "enter_short" (short_rule entry_table 0) 0.
Proof.
  assert (Hwf : wf entry_table) by prove_wf.
  assert (Hrun : populate_entry_trend default entry_table = Ok entry_result)
    by (vm_compute; reflexivity).
  split; [exact Hwf|]. split; [exact Hrun|].
  apply (shinonV2_entry_rows entry_table entry_result 0 Hwf Hrun).
  vm_compute. lia.
Defined.

(** *** The stop-loss *)

(** The last value of column [c]: the cell of its last row. *)
Definition last_value (df : DataFrame) (c : string) : option cell :=
  at_ df c (index df - 1).

Lemma last_row_getitem (df : DataFrame) (c : string) (v : cell) :
  empty df = false → last_value df c = Some v →
  ∃ row, iloc_last_row df = Ok row ∧ row_getitem row c = Ok v.
Proof.
  unfold empty, last_value, at_, iloc_last_row, row_getitem.
  intros He Hv. apply orb_false_iff in He as [-> _].
  eexists. split; [reflexivity|]. rewrite lookup_fmap.
  destruct (columns df !! c) as [s|]; simpl in *; [|discriminate].
  by rewrite Hv.
Qed.

Lemma dynamic_sl_bounds (r : float) :
  (0.03 <=? dynamic_sl r) = true ∧ (dynamic_sl r <=? 0.07) = true ∧
  (0 <? dynamic_sl r) = true.
Proof.
  destruct (py_max_min_bounds 0.03 0.07 r) as [H1 H2]; [reflexivity|].
  split; [exact H1|]. split; [exact H2|].
  by apply (leb_pos_trans 0.03).
Qed.

(** What [custom_stoploss] computes once it has read the last ATR. *)
Lemma custom_stoploss_run (self : ShinonV2) (pair : string) (trade : Trade)
    (current_rate current_profit : float) (dp : DataProvider)
    (df : DataFrame) (a : float) :
  cache dp !! (pair, timeframe self) = Some df →
  empty df = false →
  last_value df "atr" = Some (Num a) →
  custom_stoploss self pair trade current_rate current_profit dp =
    (Ok (if is_short trade then dynamic_sl (a / current_rate)
         else - dynamic_sl (a / current_rate)), dp).
Proof.
  intros Hdp He Ha.
  destruct (last_row_getitem df "atr" (Num a) He Ha) as (row & Hrow & Hget).
  unfold custom_stoploss, get_analyzed_dataframe, mbind, hook_bind, lift.
  rewrite Hdp. simpl. rewrite He, Hrow, Hget. simpl.
  by destruct (is_short trade).
Qed.

(** C8. With a non-empty analyzed table whose last ATR and the current rate
    are positive reals, [custom_stoploss] returns a value whose magnitude is
    ATR / rate clamped to [0.03, 0.07], hence between 0.03 and 0.07; the
    value is positive for a short trade and negative otherwise.  The host's
    tables are left as they were. *)
Theorem custom_stoploss_clamped (self : ShinonV2) (pair : string) (trade : Trade)
    (current_rate current_profit : float) (dp : DataProvider)
    (df : DataFrame) (atr : float) :
  cache dp !! (pair, timeframe self) = Some df →
  empty df = false →
  last_value df "atr" = Some (Num atr) →
  PyFloat.is_pos_real atr = true →
  PyFloat.is_pos_real current_rate = true →
  ∃ v, custom_stoploss self pair trade current_rate current_profit dp = (Ok v, dp) ∧
       (abs v =? PyFloat.clamp 0.03 0.07 (atr / current_rate)) = true ∧
       (0.03 <=? abs v) = true ∧ (abs v <=? 0.07) = true ∧
       (if is_short trade then (0 <? v) = true else (v <? 0) = true).
Proof.
  intros Hdp He Ha Hatr Hrate.
  rewrite (custom_stoploss_run _ _ _ _ _ _ _ _ Hdp He Ha).
  destruct (dynamic_sl_bounds (atr / current_rate)) as (Hlo & Hhi & Hpos).
  assert (Hclamp : (dynamic_sl (atr / current_rate)
                    =? PyFloat.clamp 0.03 0.07 (atr / current_rate)) = true).
  { apply py_max_min_clamp; [reflexivity|]. by apply div_pos_real_not_nan. }
  eexists. split; [reflexivity|].
  destruct (is_short trade).
  - rewrite (abs_pos _ Hpos). auto.
  - rewrite (abs_opp_pos _ Hpos). auto using opp_pos_neg.
Qed.

(** The host holds one analyzed table for BTC/USDT on the strategy's
    timeframe; its last ATR is 500. *)
Definition analyzed_table : DataFrame :=
  frame 2 [("close", [30000; 30100]); ("atr", [480; 500])].

Definition provider : DataProvider :=
  {| cache := {[ ("BTC/USDT", "15m") := analyzed_table ]} |}.

Definition long_trade : Trade := {|
  trade_pair := "BTC/USDT"; is_short := false; entry_side := "buy";
  nr_of_successful_exits := 0; stake_amount := 100
|}.

Definition short_trade : Trade := {|
  trade_pair := "BTC/USDT"; is_short := true; entry_side := "sell";
  nr_of_successful_exits := 0; stake_amount := 100
|}.

(** ATR / rate is 500 / 10000 = 0.05, inside the bounds; at a rate of
    30000 it is below 0.03 and the stop sits at 3%. *)
Example custom_stoploss_values :
  fst (custom_stoploss default "BTC/USDT" long_trade 10000 0 provider) = Ok (-0.05) ∧
  fst (custom_stoploss default "BTC/USDT" short_trade 10000 0 provider) = Ok 0.05 ∧
  fst (custom_stoploss default "BTC/USDT" long_trade 30000 0 provider) = Ok (-0.03) ∧
  fst (custom_stoploss default "BTC/USDT" long_trade 1000 0 provider) = Ok (-0.07).
Proof. vm_compute. done. Qed.

Lemma custom_stoploss_clamped_witness :
  ∃ v, custom_stoploss default "BTC/USDT" long_trade 10000 0 provider = (Ok v, provider) ∧
       (abs v =? PyFloat.clamp 0.03 0.07 (500 / 10000)) = true ∧
       (0.03 <=? abs v) = true ∧ (abs v <=? 0.07) = true ∧
       (if is_short long_trade then (0 <? v) = true else (v <? 0) = true).
Proof.
  apply (custom_stoploss_clamped default "BTC/USDT" long_trade 10000 0 provider
           analyzed_table 500); vm_compute; reflexivity.
Defined.

(** *** Missing or empty data *)

(** [custom_stoploss] answers the static stop-loss, and [custom_exit]
    answers [False], when the host has no table or an empty one. *)
Lemma custom_stoploss_fallback (self : ShinonV2) (pair : string) (trade : Trade)
    (current_rate current_profit : float) (dp : DataProvider) :
  match cache dp !! (pair, timeframe self) with
  | None => True
  | Some df => empty df = true
  end →
  custom_stoploss self pair trade current_rate current_profit dp
    = (Ok (stoploss self), dp).
Proof.
  unfold custom_stoploss, get_analyzed_dataframe, mbind, hook_bind.
  destruct (cache dp !! (pair, timeframe self)) as [df|]; simpl; [|done].
  by intros ->.
Qed.

Lemma custom_exit_fallback (self : ShinonV2) (pair : string) (trade : Trade)
    (current_rate current_profit : float) (dp : DataProvider) :
  match cache dp !! (pair, timeframe self) with
  | None => True
  | Some df => empty df = true
  end →
  custom_exit self pair trade current_rate current_profit dp = (Ok false, dp).
Proof.
  unfold custom_exit, get_analyzed_dataframe, mbind, hook_bind.
  destruct (cache dp !! (pair, timeframe self)) as [df|]; simpl; [|done].
  by intros ->.
Qed.

End ShinonV2Facts.

(** ** ZaratustraV2: entry and exit signals, stake and position hooks *)

Module ZaratustraV2Facts.

Import Pandas PandasFacts Host ZaratustraV2.
Local Open Scope float_scope.

(** The entry rules of the strategy object [self] at row [i]. *)
Definition long_rule_of (self : ZaratustraV2) (df : DataFrame) (i : nat) : bool :=
  PyFloat.eq (value df "market_trend" i) 1 &&
  crossed_above_at df "dx" "pdi" i &&
  PyFloat.gt (value df "adx" i) (PyFloat.float_of_int (adx_threshold self)) &&
  PyFloat.gt (value df "pdi" i) (value df "mdi" i) &&
  PyFloat.gt (value df "rsi" i) (PyFloat.float_of_int (rsi_threshold self)) &&
  PyFloat.lt (value df "volatility" i) 0.05.

Definition short_rule_of (self : ZaratustraV2) (df : DataFrame) (i : nat) : bool :=
  PyFloat.eq (value df "market_trend" i) (-1) &&
  crossed_above_at df "dx" "mdi" i &&
  PyFloat.gt (value df "adx" i) (PyFloat.float_of_int (adx_threshold self)) &&
  PyFloat.gt (value df "mdi" i) (value df "pdi" i) &&
  PyFloat.lt (value df "rsi" i) (PyFloat.float_of_int (100 - rsi_threshold self)) &&
  PyFloat.lt (value df "volatility" i) 0.05.

Lemma zaratustraV2_entry_rows_of (self : ZaratustraV2) (df df' : DataFrame) (i : nat) :
  wf df → populate_entry_trend self df = Ok df' → i < index df →
  flag_written df df' "enter_long" (long_rule_of self df i) i ∧
  flag_written df df' "enter_short" (short_rule_of self df i) i.
Proof.
  intros Hwf H Hi. unfold populate_entry_trend in H.
  apply bind_Ok in H as (mt & Hmt & H).
  apply bind_Ok in H as (dx & Hdx & H). apply bind_Ok in H as (pdi & Hpdi & H).
  apply bind_Ok in H as (l2 & Hl2 & H). apply bind_Ok in H as (l3 & Hl3 & H).
  apply bind_Ok in H as (l4 & Hl4 & H). apply bind_Ok in H as (l5 & Hl5 & H).
  apply bind_Ok in H as (l6 & Hl6 & H).
  apply bind_Ok in H as (df1 & Hloc1 & H).
  apply bind_Ok in H as (mt' & Hmt' & H).
  apply bind_Ok in H as (dx' & Hdx' & H). apply bind_Ok in H as (mdi & Hmdi & H).
  apply bind_Ok in H as (s2 & Hs2 & H). apply bind_Ok in H as (s3 & Hs3 & H).
  apply bind_Ok in H as (s4 & Hs4 & H). apply bind_Ok in H as (s5 & Hs5 & H).
  apply bind_Ok in H as (s6 & Hs6 & H).
  apply loc_setitem_pair in Hloc1 as (Hi1 & Hwf1 & Hother1 & Hlong); [|done|done].
  apply loc_setitem_pair in H as (Hi2 & Hwf2 & Hother2 & Hshort); [|done|done].
  assert (Hi' : i < index df1) by lia.
  assert (Hv : ∀ c j, c ≠ "enter_long" → c ≠ "enter_tag" → value df1 c j = value df c j).
  { intros c j ? ?. apply value_other. by apply Hother1. }
  split.
  - unfold flag_written. rewrite (at_other df1) by by apply Hother2.
    rewrite Hlong by done. rewrite !selected_mask_and.
    rewrite (series_eq_scalar_selected _ _ _ _ _ Hwf Hmt Hi),
      (crossed_above_selected _ _ _ _ _ _ _ Hwf Hdx Hpdi Hl2 Hi),
      (col_cmp_scalar_selected _ _ _ _ _ _ Hwf Hl3 Hi),
      (col_cmp_selected _ _ _ _ _ _ Hwf Hl4 Hi),
      (col_cmp_scalar_selected _ _ _ _ _ _ Hwf Hl5 Hi),
      (col_cmp_scalar_selected _ _ _ _ _ _ Hwf Hl6 Hi).
    reflexivity.
  - unfold flag_written. rewrite Hshort by done. rewrite !selected_mask_and.
    rewrite (series_eq_scalar_selected _ _ _ _ _ Hwf1 Hmt' Hi'),
      (crossed_above_selected _ _ _ _ _ _ _ Hwf1 Hdx' Hmdi Hs2 Hi'),
      (col_cmp_scalar_selected _ _ _ _ _ _ Hwf1 Hs3 Hi'),
      (col_cmp_selected _ _ _ _ _ _ Hwf1 Hs4 Hi'),
      (col_cmp_scalar_selected _ _ _ _ _ _ Hwf1 Hs5 Hi'),
      (col_cmp_scalar_selected _ _ _ _ _ _ Hwf1 Hs6 Hi').
    unfold short_rule_of, crossed_above_at.
    assert (Hb : ∀ c, c ≠ "enter_long" → c ≠ "enter_tag" →
                 value_before df1 c i = value_before df c i).
    { intros c ? ?. destruct i; [done|]. simpl. by apply Hv. }
    rewrite !Hv, !Hb by done.
    rewrite (prior_other df df1) by by apply Hother1.
    reflexivity.
Qed.

(** The rules at the default parameters ([adx_threshold = 21],
    [rsi_threshold = 64]). *)
Definition long_rule (df : DataFrame) (i : nat) : bool :=
  PyFloat.eq (value df "market_trend" i) 1 &&
  crossed_above_at df "dx" "pdi" i &&
  PyFloat.gt (value df "adx" i) 21 &&
  PyFloat.gt (value df "pdi" i) (value df "mdi" i) &&
  PyFloat.gt (value df "rsi" i) 64 &&
  PyFloat.lt (value df "volatility" i) 0.05.

Definition short_rule (df : DataFrame) (i : nat) : bool :=
  PyFloat.eq (value df "market_trend" i) (-1) &&
  crossed_above_at df "dx" "mdi" i &&
  PyFloat.gt (value df "adx" i) 21 &&
  PyFloat.gt (value df "mdi" i) (value df "pdi" i) &&
  PyFloat.lt (value df "rsi" i) 36 &&
  PyFloat.lt (value df "volatility" i) 0.05.

(** The short rule as the specification words it: without the ADX
    threshold. *)
Definition short_rule_as_stated (df : DataFrame) (i : nat) : bool :=
  PyFloat.eq (value df "market_trend" i) (-1) &&
  crossed_above_at df "dx" "mdi" i &&
  PyFloat.gt (value df "mdi" i) (value df "pdi" i) &&
  PyFloat.lt (value df "rsi" i) 36 &&
  PyFloat.lt (value df "volatility" i) 0.05.

(** C6, as amended.  With the default parameters, [populate_entry_trend]
    writes [enter_long = 1] on exactly the rows where dx crossed above pdi
    while market_trend == 1, adx > 21, pdi > mdi, rsi > 64 and
    volatility < 0.05, and [enter_short = 1] on exactly the rows where dx
    crossed above mdi while market_trend == -1, adx > 21, mdi > pdi,
    rsi < 36 and volatility < 0.05. *)
Theorem zaratustraV2_entry_rows (df df' : DataFrame) (i : nat) :
  wf df → populate_entry_trend default df = Ok df' → i < index df →
  flag_written df df' "enter_long" (long_rule df i) i ∧
  flag_written df df' "enter_short" (short_rule df i) i ∧
  flag_exact df df' "enter_long" (long_rule df i) i ∧
  flag_exact df df' "enter_short" (short_rule df i) i.
Proof.
  intros Hwf H Hi.
  destruct (zaratustraV2_entry_rows_of default df df' i Hwf H Hi) as [Hl Hs].
  change (long_rule_of default df i) with (long_rule df i) in Hl.
  change (short_rule_of default df i) with (short_rule df i) in Hs.
  auto using flag_written_exact.
Qed.

(** Two candles in a down-trend.  On the second, dx crosses above mdi with
    mdi > pdi, a low RSI and low volatility; the ADX is 15 on the first
    table and 25 on the second. *)
Definition weak_trend_table : DataFrame :=
  frame 2 [("market_trend", [-1; -1]); ("dx", [10; 30]); ("pdi", [5; 5]);
           ("mdi", [20; 20]); ("adx", [15; 15]); ("rsi", [30; 30]);
           ("volatility", [0.01; 0.01])].

Definition strong_trend_table : DataFrame :=
  frame 2 [("market_trend", [-1; -1]); ("dx", [10; 30]); ("pdi", [5; 5]);
           ("mdi", [20; 20]); ("adx", [25; 25]); ("rsi", [30; 30]);
           ("volatility", [0.01; 0.01])].

Definition weak_trend_result : DataFrame :=
  returned (populate_entry_trend default weak_trend_table) weak_trend_table.

Definition strong_trend_result : DataFrame :=
  returned (populate_entry_trend default strong_trend_table) strong_trend_table.

Example strong_trend_flags :
  at_ strong_trend_result "enter_short" <$> [0; 1]%nat = [Some NaN; Some (Num 1)] ∧
  at_ strong_trend_result "enter_long" <$> [0; 1]%nat = [Some NaN; Some NaN].
Proof. vm_compute. done. Qed.

Lemma zaratustraV2_entry_rows_witness :
  wf strong_trend_table ∧
  populate_entry_trend default strong_trend_table = Ok strong_trend_result ∧
  flag_written strong_trend_table strong_trend_result "enter_long"
    (long_rule strong_trend_table 1) 1 ∧
  flag_written strong_trend_table strong_trend_result "enter_short"
    (short_rule strong_trend_table 1) 1 ∧
  flag_exact strong_trend_table strong_trend_result "enter_long"
    (long_rule strong_trend_table 1) 1 ∧
  flag_exact strong_trend_table strong_trend_result "enter_short"
    (short_rule strong_trend_table 1) 1.
Proof.
  assert (Hwf : wf strong_trend_table) by prove_wf.
  assert (Hrun : populate_entry_trend default strong_trend_table = Ok strong_trend_result)
    by (vm_compute; reflexivity).
  split; [exact Hwf|]. split; [exact Hrun|].
  apply (zaratustraV2_entry_rows strong_trend_table strong_trend_result 1 Hwf Hrun).
  vm_compute. lia.
Defined.

(** C6 as the specification states it: the short flag on exactly the rows
    of the rule without the ADX threshold. *)
Definition entry_rows_as_stated : Prop :=
  ∀ (df df' : DataFrame) (i : nat),
    wf df → populate_entry_trend default df = Ok df' → i < index df →
    flag_exact df df' "enter_long" (long_rule df i) i ∧
    flag_exact df df' "enter_short" (short_rule_as_stated df i) i.

(** On the weak-trend table the second candle satisfies every condition the
    specification lists for a short entry, and receives no flag: its ADX
    of 15 is not above 21. *)
Lemma entry_rows_as_stated_fails : ¬ entry_rows_as_stated.
Proof.
  intros Hclaim.
  assert (Hwf : wf weak_trend_table) by prove_wf.
  assert (Hrun : populate_entry_trend default weak_trend_table = Ok weak_trend_result)
    by (vm_compute; reflexivity).
  destruct (Hclaim weak_trend_table weak_trend_result 1%nat Hwf Hrun) as [_ Hs].
  { vm_compute. lia. }
  assert (Hrule : short_rule_as_stated weak_trend_table 1 = true)
    by (vm_compute; reflexivity).
  apply Hs in Hrule; [|vm_compute; reflexivity].
  assert (Hcell : at_ weak_trend_result "enter_short" 1 = Some NaN)
    by (vm_compute; reflexivity).
  rewrite Hcell in Hrule. destruct NaN_not_one. congruence.
Qed.

(** *** Exit signals *)

Definition exit_long_rule (self : ZaratustraV2) (df : DataFrame) (i : nat) : bool :=
  crossed_below_at df "dx" "adx" i &&
  PyFloat.gt (value df "adx" i) (PyFloat.float_of_int (adx_threshold self)).

Definition exit_short_rule (self : ZaratustraV2) (df : DataFrame) (i : nat) : bool :=
  crossed_below_at df "dx" "adx" i &&
  PyFloat.le (value df "adx" i) (PyFloat.float_of_int (adx_threshold self)).

Lemma zaratustraV2_exit_written (self : ZaratustraV2) (df df' : DataFrame) (i : nat) :
  wf df → populate_exit_trend self df = Ok df' → i < index df →
  flag_written df df' "exit_long" (exit_long_rule self df i) i ∧
  flag_written df df' "exit_short" (exit_short_rule self df i) i.
Proof.
  intros Hwf H Hi. unfold populate_exit_trend in H.
  apply bind_Ok in H as (atr & Hatr & H). apply bind_Ok in H as (sl & Hsl & H).
  cbv zeta in H. set (df0 := setitem df "stoploss" sl) in *.
  apply bind_Ok in H as (dx & Hdx & H). apply bind_Ok in H as (adx & Hadx & H).
  apply bind_Ok in H as (l1 & Hl1 & H). apply bind_Ok in H as (l2 & Hl2 & H).
  apply bind_Ok in H as (df1 & Hloc1 & H).
  apply bind_Ok in H as (dx' & Hdx' & H). apply bind_Ok in H as (adx' & Hadx' & H).
  apply bind_Ok in H as (s1 & Hs1 & H). apply bind_Ok in H as (s2 & Hs2 & H).
  assert (Hwf0 : wf df0) by by apply setitem_wf.
  assert (Hi0 : i < index df0) by done.
  apply loc_setitem_pair in Hloc1 as (Hi1 & Hwf1 & Hother1 & Hlong); [|done|done].
  apply loc_setitem_pair in H as (Hi2 & Hwf2 & Hother2 & Hshort); [|done|done].
  assert (Hi' : i < index df1) by lia.
  assert (Hv0 : ∀ c j, c ≠ "stoploss" → value df0 c j = value df c j).
  { intros c j ?. apply value_other. by apply setitem_other. }
  assert (Hv1 : ∀ c j, c ≠ "exit_long" → c ≠ "exit_tag" → value df1 c j = value df0 c j).
  { intros c j ? ?. apply value_other. by apply Hother1. }
  assert (Hb0 : ∀ c, c ≠ "stoploss" → value_before df0 c i = value_before df c i).
  { intros c ?. destruct i; [done|]. simpl. by apply Hv0. }
  assert (Hb1 : ∀ c, c ≠ "exit_long" → c ≠ "exit_tag" →
                value_before df1 c i = value_before df0 c i).
  { intros c ? ?. destruct i; [done|]. simpl. by apply Hv1. }
  split.
  - unfold flag_written. rewrite (at_other df1) by by apply Hother2.
    rewrite Hlong by done. rewrite selected_mask_and.
    rewrite (crossed_below_selected _ _ _ _ _ _ _ Hwf0 Hdx Hadx Hl1 Hi0),
      (col_cmp_scalar_selected _ _ _ _ _ _ Hwf0 Hl2 Hi0).
    unfold exit_long_rule, crossed_below_at.
    rewrite !Hv0, !Hb0 by done.
    rewrite (prior_other df df0) by by apply setitem_other.
    reflexivity.
  - unfold flag_written. rewrite Hshort by done. rewrite selected_mask_and.
    rewrite (crossed_below_selected _ _ _ _ _ _ _ Hwf1 Hdx' Hadx' Hs1 Hi'),
      (col_cmp_scalar_selected _ _ _ _ _ _ Hwf1 Hs2 Hi').
    unfold exit_short_rule, crossed_below_at.
    rewrite !Hv1, !Hb1, !Hv0, !Hb0 by done.
    rewrite (prior_other df0 df1) by by apply Hother1.
    rewrite (prior_other df df0) by by apply setitem_other.
    reflexivity.
Qed.

(** The two exit rules never hold together, and where dx crossed below adx
    one of them holds. *)
Lemma exit_rules_exclusive (self : ZaratustraV2) (df : DataFrame) (i : nat) :
  exit_long_rule self df i && exit_short_rule self df i = false.
Proof.
  unfold exit_long_rule, exit_short_rule, PyFloat.gt, PyFloat.le.
  destruct (crossed_below_at df "dx" "adx" i); [simpl|done].
  destruct (_ <? _) eqn:E1; [simpl|done].
  destruct (_ <=? _) eqn:E2; [|done].
  destruct (ltb_leb_excl _ _ E1 E2).
Qed.

Lemma exit_rules_at_cross (self : ZaratustraV2) (df : DataFrame) (i : nat) :
  crossed_below_at df "dx" "adx" i = true →
  exit_long_rule self df i =
    PyFloat.gt (value df "adx" i) (PyFloat.float_of_int (adx_threshold self)) ∧
  exit_short_rule self df i =
    PyFloat.le (value df "adx" i) (PyFloat.float_of_int (adx_threshold self)) ∧
  xorb (exit_long_rule self df i) (exit_short_rule self df i) = true.
Proof.
  intros Hc. unfold exit_long_rule, exit_short_rule. rewrite Hc. simpl.
  split; [done|]. split; [done|].
  unfold crossed_below_at, PyFloat.lt in Hc. apply andb_true_iff in Hc as [Hlt _].
  apply ltb_not_nan in Hlt as [_ Hadx].
  pose proof (float_of_int_not_nan (adx_threshold self)) as Hthr.
  unfold PyFloat.gt, PyFloat.le.
  destruct (ltb_leb_total _ _ Hthr Hadx) as [E|E]; rewrite E.
  - destruct (_ <=? _) eqn:E2; [|done]. destruct (ltb_leb_excl _ _ E E2).
  - destruct (_ <? _) eqn:E1; [|done]. destruct (ltb_leb_excl _ _ E1 E).
Qed.

(** C9. In [populate_exit_trend] no row is given both [exit_long] and
    [exit_short]: the two rules never hold together, so on a table that
    carried neither column no row ends with both flags at [1].  At every
    row where dx crossed below adx exactly one of the two is written:
    [exit_long] when adx > adx_threshold, [exit_short] when
    adx <= adx_threshold. *)
Theorem zaratustraV2_exit_exclusive (self : ZaratustraV2) (df df' : DataFrame)
    (i : nat) :
  wf df → populate_exit_trend self df = Ok df' → i < index df →
  let adx := value df "adx" i in
  let threshold := PyFloat.float_of_int (adx_threshold self) in
  flag_written df df' "exit_long" (exit_long_rule self df i) i ∧
  flag_written df df' "exit_short" (exit_short_rule self df i) i ∧
  exit_long_rule self df i && exit_short_rule self df i = false ∧
  (columns df !! "exit_long" = None → columns df !! "exit_short" = None →
   ¬ (at_ df' "exit_long" i = Some (Num 1) ∧ at_ df' "exit_short" i = Some (Num 1))) ∧
  (crossed_below_at df "dx" "adx" i = true →
   exit_long_rule self df i = PyFloat.gt adx threshold ∧
   exit_short_rule self df i = PyFloat.le adx threshold ∧
   xorb (exit_long_rule self df i) (exit_short_rule self df i) = true).
Proof.
  intros Hwf H Hi adx threshold.
  destruct (zaratustraV2_exit_written self df df' i Hwf H Hi) as [Hl Hs].
  split; [done|]. split; [done|].
  split; [apply exit_rules_exclusive|].
  split; [|apply exit_rules_at_cross].
  intros Fl Fs [Cl Cs].
  apply (flag_written_exact _ _ _ _ _ Hl Fl) in Cl.
  apply (flag_written_exact _ _ _ _ _ Hs Fs) in Cs.
  pose proof (exit_rules_exclusive self df i) as Hex.
  rewrite Cl, Cs in Hex. discriminate.
Qed.

(** Four candles; dx falls below adx on the second with a strong trend
    (adx = 25) and, after rising again, on the fourth with a weak one
    (adx = 20). *)
Definition exit_table : DataFrame :=
  frame 4 [("atr", [1; 1; 1; 1]); ("dx", [30; 20; 30; 10]); ("adx", [25; 25; 20; 20])].

Definition exit_result : DataFrame :=
  returned (populate_exit_trend default exit_table) exit_table.

Example zaratustraV2_exit_flags :
  at_ exit_result "exit_long" <$> [0; 1; 2; 3]%nat
    = [Some NaN; Some (Num 1); Some NaN; Some NaN] ∧
  at_ exit_result "exit_short" <$> [0; 1; 2; 3]%nat
    = [Some NaN; Some NaN; Some NaN; Some (Num 1)].
Proof. vm_compute. done. Qed.

Lemma zaratustraV2_exit_exclusive_witness :
  wf exit_table ∧
  populate_exit_trend default exit_table = Ok exit_result ∧
  let adx := value exit_table "adx" 3 in
  let threshold := PyFloat.float_of_int (adx_threshold default) in
  flag_written exit_table exit_result "exit_long" (exit_long_rule default exit_table 3) 3 ∧
  flag_written exit_table exit_result "exit_short" (exit_short_rule default exit_table 3) 3 ∧
  exit_long_rule default exit_table 3 && exit_short_rule default exit_table 3 = false ∧
  (columns exit_table !! "exit_long" = None → columns exit_table !! "exit_short" = None →
   ¬ (at_ exit_result "exit_long" 3 = Some (Num 1) ∧
      at_ exit_result "exit_short" 3 = Some (Num 1))) ∧
  (crossed_below_at exit_table "dx" "adx" 3 = true →
   exit_long_rule default exit_table 3 = PyFloat.gt adx threshold ∧
   exit_short_rule default exit_table 3 = PyFloat.le adx threshold ∧
   xorb (exit_long_rule default exit_table 3) (exit_short_rule default exit_table 3) = true).
Proof.
  assert (Hwf : wf exit_table) by prove_wf.
  assert (Hrun : populate_exit_trend default exit_table = Ok exit_result)
    by (vm_compute; reflexivity).
  split; [exact Hwf|]. split; [exact Hrun|].
  apply (zaratustraV2_exit_exclusive default exit_table exit_result 3 Hwf Hrun).
  vm_compute. lia.
Defined.

Example exit_table_cross :
  crossed_below_at exit_table "dx" "adx" <$> [0; 1; 2; 3]%nat = [false; true; false; true].
Proof. vm_compute. done. Qed.

(** *** The stake *)

(** C10, as amended.  When [min_stake] is a number and the proposed stake
    is a number too (not NaN), [custom_stake_amount] returns
    [max(proposed_stake / 1.5, min_stake)], which is at least [min_stake];
    when the host passes [min_stake = None] the comparison inside [max] is
    ill-typed and the call raises [TypeError]. *)
Theorem custom_stake_amount_floor (self : ZaratustraV2) (pair : string)
    (current_rate proposed_stake min_stake max_stake leverage : float) :
  max_dca_multiplier self = 1.5 →
  is_nan proposed_stake = false →
  is_nan min_stake = false →
  (∃ v, custom_stake_amount self pair current_rate proposed_stake (Some min_stake)
          max_stake leverage = Ok v ∧
        v = PyFloat.py_max (proposed_stake / 1.5) min_stake ∧
        (min_stake <=? v) = true) ∧
  custom_stake_amount self pair current_rate proposed_stake None max_stake leverage
    = Raise TypeError.
Proof.
  intros Hmul Hp Hm. unfold custom_stake_amount. rewrite Hmul.
  split; [|done]. eexists. split; [reflexivity|]. split; [reflexivity|].
  assert (Ha : is_nan (proposed_stake / 1.5) = false).
  { eapply div_not_nan; [done|]. vm_compute. reflexivity. }
  unfold PyFloat.py_max, PyFloat.gt.
  destruct (proposed_stake / 1.5 <? min_stake) eqn:E.
  - by apply leb_refl.
  - by apply not_ltb_leb.
Qed.

Example custom_stake_amount_values :
  custom_stake_amount default "BTC/USDT" 30000 150 (Some 20) 1000 1 = Ok 100 ∧
  custom_stake_amount default "BTC/USDT" 30000 15 (Some 20) 1000 1 = Ok 20 ∧
  custom_stake_amount default "BTC/USDT" 30000 150 None 1000 1 = Raise TypeError.
Proof. vm_compute. done. Qed.

Lemma custom_stake_amount_floor_witness :
  (∃ v, custom_stake_amount default "BTC/USDT" 30000 15 (Some 20) 1000 1 = Ok v ∧
        v = PyFloat.py_max (15 / 1.5) 20 ∧
        (20 <=? v) = true) ∧
  custom_stake_amount default "BTC/USDT" 30000 15 None 1000 1 = Raise TypeError.
Proof.
  apply (custom_stake_amount_floor default "BTC/USDT" 30000 15 20 1000 1);
    vm_compute; reflexivity.
Defined.

(** C10 as the specification states it: with [min_stake] a number, the
    stake returned is [max(proposed_stake / 1.5, min_stake)] and at least
    [min_stake], whatever the proposed stake is. *)
Definition stake_floor_as_stated : Prop :=
  ∀ (self : ZaratustraV2) (pair : string)
    (current_rate proposed_stake min_stake max_stake leverage : float),
    max_dca_multiplier self = 1.5 →
    is_nan min_stake = false →
    ∃ v, custom_stake_amount self pair current_rate proposed_stake (Some min_stake)
           max_stake leverage = Ok v ∧
         v = PyFloat.py_max (proposed_stake / 1.5) min_stake ∧
         (min_stake <=? v) = true.

(** A proposed stake that is NaN comes back as NaN: the division yields NaN,
    and [max] keeps its first argument because no comparison with NaN
    holds. *)
Example custom_stake_amount_undefined :
  custom_stake_amount default "BTC/USDT" 30000 nan (Some 20) 1000 1 = Ok nan ∧
  (20 <=? nan) = false.
Proof. vm_compute. done. Qed.

Lemma stake_floor_as_stated_fails : ¬ stake_floor_as_stated.
Proof.
  intros Hclaim.
  destruct (Hclaim default "BTC/USDT" 30000 nan 20 1000 1) as (v & Hv & _ & Hfloor);
    [reflexivity | reflexivity |].
  vm_compute in Hv. injection Hv as <-.
  vm_compute in Hfloor. discriminate.
Qed.

(** *** Missing or empty data in [adjust_trade_position] *)

(** What the host's data provider answers for a pair it holds no analyzed
    candles of: a table without rows or columns. *)
Definition no_candles : DataFrame := {| index := 0; columns := ∅ |}.

(** C1, on the code.  [adjust_trade_position] reads the ATR column before
    any check: with an empty table it raises [KeyError], with [None]
    it raises [TypeError], where the sibling hooks of ShinonV2 return their
    fall-back. *)
Theorem adjust_trade_position_unguarded (self : ZaratustraV2) (trade : Trade)
    (current_rate current_profit : float) (min_stake : option float)
    (max_stake : float) :
  let key := (trade_pair trade, timeframe self) in
  let holds_empty := {| cache := {[ key := no_candles ]} |} in
  let holds_nothing := {| cache := ∅ |} in
  empty no_candles = true ∧
  adjust_trade_position self trade current_rate current_profit min_stake max_stake
    holds_empty = (Raise (KeyError "atr"), holds_empty) ∧
  adjust_trade_position self trade current_rate current_profit min_stake max_stake
    holds_nothing = (Raise TypeError, holds_nothing).
Proof.
  intros key holds_empty holds_nothing. split; [reflexivity|].
  unfold adjust_trade_position, get_analyzed_dataframe, mbind, hook_bind, lift.
  split.
  - simpl. unfold key. rewrite lookup_singleton_eq. reflexivity.
  - simpl. rewrite lookup_empty. reflexivity.
Qed.

(** When the table has candles and an ATR, the hook returns without
    raising. *)
Definition position_table : DataFrame :=
  frame 2 [("close", [30000; 30100]); ("atr", [480; 500])].

Definition position_provider : DataProvider :=
  {| cache := {[ ("BTC/USDT", "5m") := position_table ]} |}.

Definition open_trade : Trade := {|
  trade_pair := "BTC/USDT"; is_short := false; entry_side := "buy";
  nr_of_successful_exits := 0; stake_amount := 100
|}.

Example adjust_trade_position_values :
  fst (adjust_trade_position default open_trade 30000 0.2 (Some 10) 1000
         position_provider) = Ok (Some (-50)) ∧
  fst (adjust_trade_position default open_trade 30000 (-0.01) (Some 10) 1000
         position_provider) = Ok (Some 60) ∧
  fst (adjust_trade_position default open_trade 30000 0.01 (Some 10) 1000
         position_provider) = Ok None.
Proof. vm_compute. done. Qed.

End ZaratustraV2Facts.

(** ** What the hooks leave in place *)

Module Frames.

Import Pandas PandasFacts TA Host.
Local Open Scope float_scope.

(** *** Indicator columns are appended *)

(** The columns [populate_indicators] assigns. *)
Definition shinonV2_indicators : list string :=
  ["bb_lower"; "bb_middle"; "bb_upper"; "atr"; "volume_ma"; "adx"; "plus_di"; "minus_di"].

Definition zaratustraV2_indicators : list string :=
  ["atr"; "rsi"; "ema_200"; "market_trend"; "dx"; "adx"; "pdi"; "mdi"; "volatility"].

(** The table a hook returned has the rows of the table it was given, the
    columns outside [names] unchanged, and the candle columns unchanged. *)
Definition appends_only (names : list string) (df : DataFrame)
    (r : result DataFrame) : Prop :=
  match r with
  | Ok df' =>
      index df' = index df ∧
      (∀ c, c ∉ names → columns df' !! c = columns df !! c) ∧
      (∀ c, c ∈ bar_columns → columns df' !! c = columns df !! c)
  | Raise _ => True
  end.

Lemma extends_by_bars (names : list string) (df df' : DataFrame) :
  (∀ c, c ∈ bar_columns → c ∉ names) →
  extends_by names df df' → appends_only names df (Ok df').
Proof. intros Hb [Hi Ho]. simpl. auto. Qed.

Ltac bar_cases H :=
  unfold bar_columns in H; rewrite !elem_of_cons, elem_of_nil in H;
  destruct H as [->|[->|[->|[->|[->|[]]]]]].

(** Runs through the statements of a hook that returned [df']. *)
Ltac run_hook H :=
  repeat (apply bind_Ok in H as (? & ? & H); cbv zeta in H);
  injection H as <-.

Section WithIndicators.

Context `{Indicators}.

Lemma shinonV2_appends (self : ShinonV2.ShinonV2) (df : DataFrame) :
  appends_only shinonV2_indicators df (ShinonV2.populate_indicators self df).
Proof.
  destruct (ShinonV2.populate_indicators self df) as [df'|] eqn:Hrun; [|done].
  apply extends_by_bars.
  { intros c Hc. bar_cases Hc; unfold shinonV2_indicators; solve_not_elem. }
  unfold ShinonV2.populate_indicators in Hrun. cbv zeta in Hrun. run_hook Hrun.
  unfold shinonV2_indicators.
  repeat (apply extends_by_setitem; [solve_elem|]). apply extends_by_refl.
Qed.

Lemma zaratustraV2_appends (self : ZaratustraV2.ZaratustraV2) (df : DataFrame) :
  appends_only zaratustraV2_indicators df (ZaratustraV2.populate_indicators self df).
Proof.
  destruct (ZaratustraV2.populate_indicators self df) as [df'|] eqn:Hrun; [|done].
  apply extends_by_bars.
  { intros c Hc. bar_cases Hc; unfold zaratustraV2_indicators; solve_not_elem. }
  unfold ZaratustraV2.populate_indicators in Hrun. cbv zeta in Hrun. run_hook Hrun.
  unfold zaratustraV2_indicators.
  repeat (apply extends_by_setitem; [solve_elem|]). apply extends_by_refl.
Qed.

(** C7. Whatever table it is given and whatever the indicator library
    computes, the table [populate_indicators] returns has the same rows in
    the same order and the same open, high, low, close and volume columns:
    only the indicator columns are assigned.  This holds for ShinonV2 and
    for ZaratustraV2. *)
Theorem populate_indicators_appends (shinon : ShinonV2.ShinonV2)
    (zaratustra : ZaratustraV2.ZaratustraV2) (df : DataFrame) :
  appends_only shinonV2_indicators df (ShinonV2.populate_indicators shinon df) ∧
  appends_only zaratustraV2_indicators df (ZaratustraV2.populate_indicators zaratustra df).
Proof. split; [apply shinonV2_appends | apply zaratustraV2_appends]. Qed.

End WithIndicators.

(** Two candles, as the host supplies them. *)
Definition candles : DataFrame :=
  frame 2 [("open", [100; 102]); ("high", [103; 104]); ("low", [99; 101]);
           ("close", [102; 103]); ("volume", [1500; 1800])].

Example populate_indicators_return :
  is_ok (ShinonV2.populate_indicators (H := short_table_indicators)
           ShinonV2.default candles) = true ∧
  is_ok (ZaratustraV2.populate_indicators (H := short_table_indicators)
           ZaratustraV2.default candles) = true.
Proof. vm_compute. done. Qed.

End Frames.

(** ** The hooks and the host's tables *)

Module HostFrames.

Import Pandas PandasFacts TA Host.
Local Open Scope float_scope.

(** A hook that leaves the host's tables as it found them. *)
Definition reads_only {A} (h : Hook A) : Prop := ∀ dp, snd (h dp) = dp.

(** A hook whose result is decided by the table the host holds under
    [key], and by nothing else of the host. *)
Definition decided_by {A} (key : ref) (h : Hook A) : Prop :=
  ∀ dp1 dp2, cache dp1 !! key = cache dp2 !! key → fst (h dp1) = fst (h dp2).

Lemma reads_only_ret {A} (a : A) : reads_only (mret a).
Proof. by intros dp. Qed.

Lemma reads_only_lift {A} (r : result A) : reads_only (lift r).
Proof. by intros dp. Qed.

Lemma reads_only_get (pair timeframe : string) :
  reads_only (get_analyzed_dataframe pair timeframe).
Proof. by intros dp. Qed.

Lemma reads_only_bind {A B} (m : Hook A) (k : A → Hook B) :
  reads_only m → (∀ a, reads_only (k a)) → reads_only (m ≫= k).
Proof.
  intros Hm Hk dp. unfold mbind, hook_bind.
  specialize (Hm dp). destruct (m dp) as [[a|e] dp']; simpl in *; subst; [apply Hk|done].
Qed.

(** The result of a hook that consults the host once, for [key], and then
    computes without it. *)
Lemma decided_by_get {B} (pair timeframe : string)
    (k : option (ref * DataFrame) → result B) :
  decided_by (pair, timeframe)
    (got ← get_analyzed_dataframe pair timeframe; lift (k got)).
Proof.
  intros dp1 dp2 Heq. unfold mbind, hook_bind, get_analyzed_dataframe, lift.
  simpl. by rewrite Heq.
Qed.

Lemma custom_stoploss_reads_only self pair trade current_rate current_profit :
  reads_only (ShinonV2.custom_stoploss self pair trade current_rate current_profit).
Proof.
  unfold ShinonV2.custom_stoploss. apply reads_only_bind; [apply reads_only_get|].
  intros [[r df]|]; [|apply reads_only_ret].
  destruct (empty df); [apply reads_only_ret|].
  repeat (apply reads_only_bind; [apply reads_only_lift|]; intros ?).
  destruct (is_short trade); apply reads_only_ret.
Qed.

Lemma custom_exit_reads_only self pair trade current_rate current_profit :
  reads_only (ShinonV2.custom_exit self pair trade current_rate current_profit).
Proof.
  unfold ShinonV2.custom_exit. apply reads_only_bind; [apply reads_only_get|].
  intros [[r df]|]; [|apply reads_only_ret].
  destruct (empty df); [apply reads_only_ret|].
  repeat (apply reads_only_bind; [apply reads_only_lift|]; intros ?).
  destruct (PyFloat.ge _ _); apply reads_only_ret.
Qed.

Lemma adjust_trade_position_reads_only self trade current_rate current_profit
    min_stake max_stake :
  reads_only (ZaratustraV2.adjust_trade_position self trade current_rate
                current_profit min_stake max_stake).
Proof.
  unfold ZaratustraV2.adjust_trade_position.
  apply reads_only_bind; [apply reads_only_get|].
  intros [[r df]|]; [|apply reads_only_lift].
  repeat (apply reads_only_bind; [apply reads_only_lift|]; intros ?).
  destruct (String.eqb _ _); apply reads_only_lift.
Qed.

Lemma custom_stoploss_decided self pair trade current_rate current_profit :
  decided_by (pair, ShinonV2.timeframe self)
    (ShinonV2.custom_stoploss self pair trade current_rate current_profit).
Proof.
  intros dp1 dp2 Heq.
  unfold ShinonV2.custom_stoploss, mbind, hook_bind, get_analyzed_dataframe, lift.
  rewrite Heq. destruct (cache dp2 !! _) as [df|]; simpl; [|done].
  destruct (empty df); [done|].
  destruct (iloc_last_row df) as [row|]; simpl; [|done].
  destruct (row_getitem row "atr") as [c|]; simpl; [|done].
  destruct (cell_float c); simpl; [|done].
  by destruct (is_short trade).
Qed.

Lemma custom_exit_decided self pair trade current_rate current_profit :
  decided_by (pair, ShinonV2.timeframe self)
    (ShinonV2.custom_exit self pair trade current_rate current_profit).
Proof.
  intros dp1 dp2 Heq.
  unfold ShinonV2.custom_exit, mbind, hook_bind, get_analyzed_dataframe, lift.
  rewrite Heq. destruct (cache dp2 !! _) as [df|]; simpl; [|done].
  destruct (empty df); [done|].
  destruct (iloc_last_row df) as [row|]; simpl; [|done].
  destruct (row_getitem row "atr") as [c|]; simpl; [|done].
  destruct (cell_float c); simpl; [|done].
  by destruct (PyFloat.ge _ _).
Qed.

Lemma adjust_trade_position_decided self trade current_rate current_profit
    min_stake max_stake :
  decided_by (trade_pair trade, ZaratustraV2.timeframe self)
    (ZaratustraV2.adjust_trade_position self trade current_rate
       current_profit min_stake max_stake).
Proof.
  intros dp1 dp2 Heq.
  unfold ZaratustraV2.adjust_trade_position, mbind, hook_bind,
    get_analyzed_dataframe, lift.
  rewrite Heq. destruct (cache dp2 !! _) as [df|]; simpl; [|done].
  destruct (getitem df "atr") as [s|]; simpl; [|done].
  destruct (iloc_last s); simpl; [|done].
  by destruct (String.eqb _ _).
Qed.

(** *** ShinonV1.populate_indicators writes into the informative table *)

(** The informative table once the hook has made sure it has a [close]
    column. *)
Definition with_close (informative : DataFrame) : option DataFrame :=
  if bool_decide ("close" ∈ dom (columns informative)) then Some informative
  else lower_columns informative.

(** *** Invocations *)

(** What a hook can reach besides its arguments: the strategy object it is
    a method of, which carries the parameter values, and, through
    [self.dp], the host's tables. *)
Record World (S : Type) := {
  object : S;
  host : DataProvider
}.
Arguments object {S} w.
Arguments host {S} w.

(** What a hook hands back to the host. *)
Inductive value :=
| Table (df : DataFrame)
| Number (x : float)
| Flag (b : bool)
| Amount (a : option float).

(** The hooks of the three strategies with their arguments, each under the
    class of the object it is called on. *)
Inductive call : Type → Type :=
| ShinonV1_populate_indicators (dataframe : DataFrame) (metadata : gmap string string)
    : call ShinonV1.ShinonV1
| ShinonV1_populate_entry_trend (dataframe : DataFrame) : call ShinonV1.ShinonV1
| ShinonV1_populate_exit_trend (dataframe : DataFrame) : call ShinonV1.ShinonV1
| ShinonV2_populate_indicators (dataframe : DataFrame) : call ShinonV2.ShinonV2
| ShinonV2_populate_entry_trend (dataframe : DataFrame) : call ShinonV2.ShinonV2
| ShinonV2_populate_exit_trend (dataframe : DataFrame) : call ShinonV2.ShinonV2
| ShinonV2_custom_stoploss (pair : string) (trade : Trade)
    (current_rate current_profit : float) : call ShinonV2.ShinonV2
| ShinonV2_custom_exit (pair : string) (trade : Trade)
    (current_rate current_profit : float) : call ShinonV2.ShinonV2
| ZaratustraV2_custom_stake_amount (pair : string)
    (current_rate proposed_stake : float) (min_stake : option float)
    (max_stake leverage : float) : call ZaratustraV2.ZaratustraV2
| ZaratustraV2_adjust_trade_position (trade : Trade)
    (current_rate current_profit : float) (min_stake : option float)
    (max_stake : float) : call ZaratustraV2.ZaratustraV2
| ZaratustraV2_populate_indicators (dataframe : DataFrame) : call ZaratustraV2.ZaratustraV2
| ZaratustraV2_populate_entry_trend (dataframe : DataFrame) : call ZaratustraV2.ZaratustraV2
| ZaratustraV2_populate_exit_trend (dataframe : DataFrame) : call ZaratustraV2.ZaratustraV2.

(** A method call.  The body reads the object and runs against the host's
    tables; no hook of the three modules assigns an attribute of [self], so
    the object the call leaves is the one it was made on. *)
Definition invoke {S A} (ret : A → value) (body : S → Hook A) (w : World S)
    : result value * World S :=
  let run := body (object w) (host w) in
  (ret <$> fst run, {| object := object w; host := snd run |}).

(** The tables of the host a call asks the data provider for. *)
Definition consulted {S} (c : call S) : S → list ref :=
  match c in call S return S → list ref with
  | ShinonV1_populate_indicators _ metadata => λ self,
      match metadata !! "pair" with
      | Some traded => [(traded, ShinonV1.informative_timeframe self)]
      | None => []
      end
  | ShinonV2_custom_stoploss traded _ _ _ => λ self, [(traded, ShinonV2.timeframe self)]
  | ShinonV2_custom_exit traded _ _ _ => λ self, [(traded, ShinonV2.timeframe self)]
  | ZaratustraV2_adjust_trade_position trade _ _ _ _ => λ self,
      [(trade_pair trade, ZaratustraV2.timeframe self)]
  | _ => λ _, []
  end.

(** The tables of the host a call may write into. *)
Definition written {S} (c : call S) : S → list ref :=
  match c in call S return S → list ref with
  | ShinonV1_populate_indicators _ metadata => λ self,
      match metadata !! "pair" with
      | Some traded => [(traded, ShinonV1.informative_timeframe self)]
      | None => []
      end
  | _ => λ _, []
  end.

Section WithIndicators.

Context `{Indicators}.

(** Running a call in a world: what the hook returns or raises, and the
    world it leaves. *)
Definition run {S} (c : call S) : World S → result value * World S :=
  match c in call S return World S → result value * World S with
  | ShinonV1_populate_indicators dataframe metadata =>
      invoke Table (λ self, ShinonV1.populate_indicators self dataframe metadata)
  | ShinonV1_populate_entry_trend dataframe =>
      invoke Table (λ self, lift (ShinonV1.populate_entry_trend self dataframe))
  | ShinonV1_populate_exit_trend dataframe =>
      invoke Table (λ self, lift (ShinonV1.populate_exit_trend self dataframe))
  | ShinonV2_populate_indicators dataframe =>
      invoke Table (λ self, lift (ShinonV2.populate_indicators self dataframe))
  | ShinonV2_populate_entry_trend dataframe =>
      invoke Table (λ self, lift (ShinonV2.populate_entry_trend self dataframe))
  | ShinonV2_populate_exit_trend dataframe =>
      invoke Table (λ self, lift (ShinonV2.populate_exit_trend self dataframe))
  | ShinonV2_custom_stoploss traded trade current_rate current_profit =>
      invoke Number
        (λ self, ShinonV2.custom_stoploss self traded trade current_rate current_profit)
  | ShinonV2_custom_exit traded trade current_rate current_profit =>
      invoke Flag
        (λ self, ShinonV2.custom_exit self traded trade current_rate current_profit)
  | ZaratustraV2_custom_stake_amount traded current_rate proposed_stake min_stake
      max_stake leverage =>
      invoke Number
        (λ self, lift (ZaratustraV2.custom_stake_amount self traded current_rate
                         proposed_stake min_stake max_stake leverage))
  | ZaratustraV2_adjust_trade_position trade current_rate current_profit min_stake
      max_stake =>
      invoke Amount
        (λ self, ZaratustraV2.adjust_trade_position self trade current_rate
                   current_profit min_stake max_stake)
  | ZaratustraV2_populate_indicators dataframe =>
      invoke Table (λ self, lift (ZaratustraV2.populate_indicators self dataframe))
  | ZaratustraV2_populate_entry_trend dataframe =>
      invoke Table (λ self, lift (ZaratustraV2.populate_entry_trend self dataframe))
  | ZaratustraV2_populate_exit_trend dataframe =>
      invoke Table (λ self, lift (ZaratustraV2.populate_exit_trend self dataframe))
  end.

(** When [populate_indicators] returns, the host's informative table has
    become the table it was, lower-cased if it had no [close] column, with
    the two EMA columns assigned; the host's other tables are as before. *)
Lemma populate_indicators_writes (self : ShinonV1.ShinonV1) (df out : DataFrame)
    (metadata : gmap string string) (dp dp' : DataProvider) :
  ShinonV1.populate_indicators self df metadata dp = (Ok out, dp') →
  ∃ pair informative table ema13 ema21,
    metadata !! "pair" = Some pair ∧
    cache dp !! (pair, ShinonV1.informative_timeframe self) = Some informative ∧
    with_close informative = Some table ∧
    dp' = {| cache :=
               <[(pair, ShinonV1.informative_timeframe self) :=
                   setitem (setitem table "ema13" ema13) "ema21" ema21]>
                 (cache dp) |}.
Proof.
  unfold ShinonV1.populate_indicators, mbind, hook_bind, lift, get_analyzed_dataframe,
    mret, hook_ret, store, dict_getitem.
  destruct (getitem df "close") as [close|]; simpl; [|discriminate].
  destruct (EMA (InSeries close) 13) as [e13|]; simpl; [|discriminate].
  destruct (getitem (setitem df "ema13" e13) "close") as [close'|]; simpl; [|discriminate].
  destruct (EMA (InSeries close') 21) as [e21|]; simpl; [|discriminate].
  destruct (metadata !! "pair") as [pair|]; simpl; [|discriminate].
  destruct (cache dp !! (pair, ShinonV1.informative_timeframe self))
    as [informative|] eqn:Hinf; simpl; [|discriminate].
  intros Hrun. exists pair, informative.
  unfold with_close.
  destruct (bool_decide ("close" ∈ dom (columns informative))); simpl in Hrun.
  - destruct (getitem informative "close") as [c|]; simpl in Hrun; [|discriminate].
    destruct (EMA (InSeries c) 13) as [i13|]; simpl in Hrun; [|discriminate].
    destruct (getitem (setitem informative "ema13" i13) "close") as [c'|];
      simpl in Hrun; [|discriminate].
    destruct (EMA (InSeries c') 21) as [i21|]; simpl in Hrun; [|discriminate].
    destruct (merge_informative_pair _ _ _ _ _); simpl in Hrun; [|discriminate].
    injection Hrun as _ <-. exists informative, i13, i21.
    by rewrite insert_insert_eq.
  - destruct (lower_columns informative) as [table|]; simpl in Hrun; [|discriminate].
    destruct (getitem table "close") as [c|]; simpl in Hrun; [|discriminate].
    destruct (EMA (InSeries c) 13) as [i13|]; simpl in Hrun; [|discriminate].
    destruct (getitem (setitem table "ema13" i13) "close")
      as [c'|]; simpl in Hrun; [|discriminate].
    destruct (EMA (InSeries c') 21) as [i21|]; simpl in Hrun; [|discriminate].
    destruct (merge_informative_pair _ _ _ _ _); simpl in Hrun; [|discriminate].
    injection Hrun as _ <-. exists table, i13, i21.
    by rewrite !insert_insert_eq.
Qed.

(** Whatever the outcome, the hook writes under no other key than the
    informative table's. *)
Lemma populate_indicators_other_tables (self : ShinonV1.ShinonV1) (df : DataFrame)
    (metadata : gmap string string) (dp : DataProvider) (pair : string) (k : ref) :
  metadata !! "pair" = Some pair →
  k ≠ (pair, ShinonV1.informative_timeframe self) →
  cache (snd (ShinonV1.populate_indicators self df metadata dp)) !! k = cache dp !! k.
Proof.
  intros Hpair Hk.
  unfold ShinonV1.populate_indicators, mbind, hook_bind, lift, get_analyzed_dataframe,
    mret, hook_ret, store, dict_getitem.
  destruct (getitem df "close") as [close|]; simpl; [|done].
  destruct (EMA (InSeries close) 13) as [e13|]; simpl; [|done].
  destruct (getitem (setitem df "ema13" e13) "close") as [close'|]; simpl; [|done].
  destruct (EMA (InSeries close') 21) as [e21|]; simpl; [|done].
  rewrite Hpair. simpl.
  destruct (cache dp !! (pair, ShinonV1.informative_timeframe self))
    as [informative|]; simpl; [|done].
  destruct (bool_decide ("close" ∈ dom (columns informative))); simpl.
  - destruct (getitem informative "close") as [c|]; simpl; [|done].
    destruct (EMA (InSeries c) 13) as [i13|]; simpl; [|done].
    destruct (getitem (setitem informative "ema13" i13) "close") as [c'|];
      simpl; [|by rewrite lookup_insert_ne].
    destruct (EMA (InSeries c') 21) as [i21|]; simpl; [|by rewrite lookup_insert_ne].
    by rewrite !lookup_insert_ne.
  - destruct (lower_columns informative) as [table|]; simpl; [|done].
    destruct (getitem table "close") as [c|];
      simpl; [|by rewrite lookup_insert_ne].
    destruct (EMA (InSeries c) 13) as [i13|]; simpl; [|by rewrite lookup_insert_ne].
    destruct (getitem (setitem table "ema13" i13) "close")
      as [c'|]; simpl; [|by rewrite !lookup_insert_ne].
    destruct (EMA (InSeries c') 21) as [i21|]; simpl; [|by rewrite !lookup_insert_ne].
    by rewrite !lookup_insert_ne.
Qed.

(** Without a ['pair'] entry in the metadata the hook fails before it
    reaches the host. *)
Lemma populate_indicators_no_pair (self : ShinonV1.ShinonV1) (df : DataFrame)
    (metadata : gmap string string) (dp : DataProvider) :
  metadata !! "pair" = None →
  snd (ShinonV1.populate_indicators self df metadata dp) = dp.
Proof.
  intros Hpair.
  unfold ShinonV1.populate_indicators, mbind, hook_bind, lift, dict_getitem.
  destruct (getitem df "close") as [close|]; simpl; [|done].
  destruct (EMA (InSeries close) 13) as [e13|]; simpl; [|done].
  destruct (getitem (setitem df "ema13" e13) "close") as [close'|]; simpl; [|done].
  destruct (EMA (InSeries close') 21) as [e21|]; simpl; [|done].
  by rewrite Hpair.
Qed.

(** What the hook returns or raises is decided by its arguments, the
    object, and the informative table the host holds for the pair. *)
Lemma populate_indicators_decided (self : ShinonV1.ShinonV1) (df : DataFrame)
    (metadata : gmap string string) (dp1 dp2 : DataProvider) :
  (∀ pair, metadata !! "pair" = Some pair →
     cache dp1 !! (pair, ShinonV1.informative_timeframe self)
       = cache dp2 !! (pair, ShinonV1.informative_timeframe self)) →
  fst (ShinonV1.populate_indicators self df metadata dp1)
    = fst (ShinonV1.populate_indicators self df metadata dp2).
Proof.
  intros Heq.
  unfold ShinonV1.populate_indicators, mbind, hook_bind, lift, get_analyzed_dataframe,
    mret, hook_ret, store, dict_getitem.
  destruct (getitem df "close") as [close|]; simpl; [|done].
  destruct (EMA (InSeries close) 13) as [e13|]; simpl; [|done].
  destruct (getitem (setitem df "ema13" e13) "close") as [close'|]; simpl; [|done].
  destruct (EMA (InSeries close') 21) as [e21|]; simpl; [|done].
  destruct (metadata !! "pair") as [pair|]; simpl; [|done].
  rewrite (Heq pair eq_refl).
  destruct (cache dp2 !! (pair, ShinonV1.informative_timeframe self))
    as [informative|]; simpl; [|done].
  destruct (bool_decide ("close" ∈ dom (columns informative))); simpl.
  - destruct (getitem informative "close") as [c|]; simpl; [|done].
    destruct (EMA (InSeries c) 13) as [i13|]; simpl; [|done].
    destruct (getitem (setitem informative "ema13" i13) "close") as [c'|];
      simpl; [|done].
    by destruct (EMA (InSeries c') 21) as [i21|].
  - destruct (lower_columns informative) as [table|]; simpl; [|done].
    destruct (getitem table "close") as [c|]; simpl; [|done].
    destruct (EMA (InSeries c) 13) as [i13|]; simpl; [|done].
    destruct (getitem (setitem table "ema13" i13) "close") as [c'|]; simpl; [|done].
    by destruct (EMA (InSeries c') 21) as [i21|].
Qed.

(** A call whose body computes without the host. *)
Lemma invoke_lift_result {S A} (ret : A → value) (body : S → result A)
    (w1 w2 : World S) :
  object w1 = object w2 →
  fst (invoke ret (λ self, lift (body self)) w1)
    = fst (invoke ret (λ self, lift (body self)) w2).
Proof. unfold invoke, lift. simpl. by intros ->. Qed.

(** What a call returns or raises is decided by its arguments, the object
    it is made on and the tables it consults. *)
Lemma run_decided {S} (c : call S) (w1 w2 : World S) :
  object w1 = object w2 →
  (∀ k, k ∈ consulted c (object w1) → cache (host w1) !! k = cache (host w2) !! k) →
  fst (run c w1) = fst (run c w2).
Proof.
  intros Hobj Hhost.
  destruct c; simpl in *; try (by apply invoke_lift_result);
    unfold invoke; simpl; rewrite <- Hobj; f_equal.
  - apply populate_indicators_decided. intros pair Hpair. apply Hhost.
    rewrite Hpair. by left.
  - apply custom_stoploss_decided, Hhost. by left.
  - apply custom_exit_decided, Hhost. by left.
  - apply adjust_trade_position_decided, Hhost. by left.
Qed.

(** A call that may write nowhere leaves the host's tables as they were. *)
Lemma run_reads_only {S} (c : call S) (w : World S) :
  written c (object w) = [] → host (snd (run c w)) = host w.
Proof.
  destruct c; simpl; try done.
  - destruct (metadata !! "pair") eqn:Hpair; [done|]. intros _.
    by apply populate_indicators_no_pair.
  - intros _. apply custom_stoploss_reads_only.
  - intros _. apply custom_exit_reads_only.
  - intros _. apply adjust_trade_position_reads_only.
Qed.

(** A call writes into none of the host's tables but those it may write. *)
Lemma run_other_tables {S} (c : call S) (w : World S) (k : ref) :
  k ∉ written c (object w) →
  cache (host (snd (run c w))) !! k = cache (host w) !! k.
Proof.
  intros Hk. destruct (written c (object w)) eqn:Hw.
  { by rewrite run_reads_only. }
  destruct c; simpl in Hw; try discriminate.
  destruct (metadata !! "pair") as [pair|] eqn:Hpair; [|discriminate].
  injection Hw as <- <-. simpl.
  apply (populate_indicators_other_tables _ _ _ _ pair); [done|].
  intros ->. apply Hk. by left.
Qed.

(** C2, as amended.  Every hook of the three strategies is a function of
    its arguments, the parameter values of its strategy object and the
    tables it obtains from the host: run in two worlds that agree on the
    object and on the tables the call consults, it returns or raises the
    same.  No call changes the strategy object.  Every call other than
    [populate_indicators] of ShinonV1, so in particular [custom_stoploss]
    and [custom_exit] of ShinonV2 and [adjust_trade_position] of
    ZaratustraV2, which consult the data provider, leaves the host's tables
    as it found them.  [populate_indicators] of ShinonV1 does write into the
    host: when it returns, the informative table it obtained from the data
    provider has the columns [ema13] and [ema21] assigned (and its column
    names lower-cased first, if it had no [close] column); it writes into no
    other table of the host. *)
Theorem hooks_and_host_tables :
  (∀ S (c : call S) (w1 w2 : World S),
     object w1 = object w2 →
     (∀ k, k ∈ consulted c (object w1) → cache (host w1) !! k = cache (host w2) !! k) →
     fst (run c w1) = fst (run c w2)) ∧
  (∀ S (c : call S) (w : World S), object (snd (run c w)) = object w) ∧
  (∀ S (c : call S) (w : World S),
     written c (object w) = [] → host (snd (run c w)) = host w) ∧
  (∀ S (c : call S) (w : World S) (k : ref),
     k ∉ written c (object w) →
     cache (host (snd (run c w))) !! k = cache (host w) !! k) ∧
  (∀ dataframe metadata (w : World ShinonV1.ShinonV1) out w',
     run (ShinonV1_populate_indicators dataframe metadata) w = (Ok out, w') →
     ∃ pair informative table ema13 ema21,
       metadata !! "pair" = Some pair ∧
       written (ShinonV1_populate_indicators dataframe metadata) (object w)
         = [(pair, ShinonV1.informative_timeframe (object w))] ∧
       cache (host w) !! (pair, ShinonV1.informative_timeframe (object w))
         = Some informative ∧
       with_close informative = Some table ∧
       cache (host w') !! (pair, ShinonV1.informative_timeframe (object w))
         = Some (setitem (setitem table "ema13" ema13) "ema21" ema21)).
Proof.
  split; [|split; [|split; [|split]]].
  - intros. by apply run_decided.
  - intros S c w. by destruct c.
  - intros. by apply run_reads_only.
  - intros. by apply run_other_tables.
  - intros dataframe metadata w out w'. simpl. unfold invoke. intros Hrun.
    destruct (ShinonV1.populate_indicators (object w) dataframe metadata (host w))
      as [[df|e] dp'] eqn:Hhook; simpl in Hrun; [|discriminate].
    injection Hrun as _ <-. simpl.
    destruct (populate_indicators_writes _ _ _ _ _ _ Hhook)
      as (pair & informative & table & ema13 & ema21 & Hpair & Hinf & Hclose & ->).
    exists pair, informative, table, ema13, ema21.
    rewrite Hpair. simpl. by rewrite lookup_insert_eq.
Qed.

End WithIndicators.

(** The host holds the hourly candles of BTC/USDT; the strategy is asked
    for the indicators of the five-minute table. *)
Definition hourly : DataFrame := frame 2 [("close", [30000; 30100])].

Definition five_minutes : DataFrame := frame 2 [("close", [30090; 30100])].

Definition hourly_provider : DataProvider :=
  {| cache := {[ ("BTC/USDT", "1h") := hourly ]} |}.

Definition btc : gmap string string := {[ "pair" := "BTC/USDT" ]}.

(** The host's hourly table after the call, when it still holds one. *)
Definition hourly_after : option DataFrame :=
  cache (snd (ShinonV1.populate_indicators (H := short_table_indicators)
                ShinonV1.default five_minutes btc hourly_provider))
    !! ("BTC/USDT", "1h").

Example hourly_gains_columns :
  is_ok (fst (ShinonV1.populate_indicators (H := short_table_indicators)
                ShinonV1.default five_minutes btc hourly_provider)) = true ∧
  columns hourly !! "ema13" = None ∧
  (hourly_after ≫= λ df, columns df !! "ema13") = Some [NaN; NaN] ∧
  (hourly_after ≫= λ df, columns df !! "ema21") = Some [NaN; NaN].
Proof. vm_compute. done. Qed.

(** C2 as the specification states it for [populate_indicators] of
    ShinonV1: the informative table obtained from the data provider is not
    modified. *)
Definition informative_untouched_as_stated : Prop :=
  ∀ (lib : Indicators) self df metadata,
    reads_only (ShinonV1.populate_indicators (H := lib) self df metadata).

Lemma informative_untouched_as_stated_fails : ¬ informative_untouched_as_stated.
Proof.
  intros Hclaim.
  pose proof (Hclaim short_table_indicators ShinonV1.default five_minutes btc
                hourly_provider) as Hsame.
  assert (Hafter : (hourly_after ≫= λ df, columns df !! "ema13") = Some [NaN; NaN])
    by (vm_compute; reflexivity).
  unfold hourly_after in Hafter. rewrite Hsame in Hafter.
  vm_compute in Hafter. discriminate.
Qed.

End HostFrames.

(** ** More on the order and the signs of floats *)

(** The comparison of two finite magnitudes: exponent first, then mantissa. *)
Definition magnitude_compare (e1 : Z) (m1 : positive) (e2 : Z) (m2 : positive)
  : comparison :=
  match (e1 ?= e2)%Z with
  | Lt => Lt
  | Gt => Gt
  | Eq => Pos.compare_cont Eq m1 m2
  end.

(** The order of [SFcompare] as a proposition: [x] is below or equal to [y]
    ([strict = false]), or strictly below it ([strict = true]). *)
Definition SFbelow (strict : bool) (x y : spec_float) : Prop :=
  match SFcompare x y with
  | Some Lt => True
  | Some Eq => strict = false
  | _ => False
  end.

(** A float that is not NaN and carries the sign [s]. *)
Definition SFsigned (s : bool) (x : spec_float) : Prop :=
  match x with
  | S754_zero s' | S754_infinity s' | S754_finite s' _ _ => s' = s
  | S754_nan => False
  end.

Section FloatOrderMore.

Import PyFloat.
Local Open Scope float_scope.

Lemma magnitude_compare_spec e1 m1 e2 m2 :
  match magnitude_compare e1 m1 e2 m2 with
  | Lt => (e1 < e2)%Z ∨ (e1 = e2 ∧ (m1 < m2)%positive)
  | Eq => e1 = e2 ∧ m1 = m2
  | Gt => (e2 < e1)%Z ∨ (e1 = e2 ∧ (m2 < m1)%positive)
  end.
Proof.
  unfold magnitude_compare. destruct (Z.compare_spec e1 e2); auto.
  change (Pos.compare_cont Eq m1 m2) with (m1 ?= m2)%positive.
  destruct (Pos.compare_spec m1 m2); auto.
Qed.

Lemma magnitude_compare_opp e1 m1 e2 m2 :
  match (e1 ?= e2)%Z with
  | Lt => Gt
  | Gt => Lt
  | Eq => CompOpp (Pos.compare_cont Eq m1 m2)
  end = CompOpp (magnitude_compare e1 m1 e2 m2).
Proof. unfold magnitude_compare. by destruct (e1 ?= e2)%Z. Qed.

Lemma SFbelow_trans (s1 s2 : bool) (x y z : spec_float) :
  SFbelow s1 x y → SFbelow s2 y z → SFbelow (s1 || s2) x z.
Proof.
  unfold SFbelow.
  destruct x as [[]|[]| |[] mx ex], y as [[]|[]| |[] my ey], z as [[]|[]| |[] mz ez];
    simpl; try tauto; try (destruct s1, s2; simpl; intuition congruence).
  all: rewrite ?magnitude_compare_opp;
    fold (magnitude_compare ex mx ey my); fold (magnitude_compare ey my ez mz);
    fold (magnitude_compare ex mx ez mz).
  all: pose proof (magnitude_compare_spec ex mx ey my) as H1;
    pose proof (magnitude_compare_spec ey my ez mz) as H2;
    pose proof (magnitude_compare_spec ex mx ez mz) as H3.
  all: destruct (magnitude_compare ex mx ey my), (magnitude_compare ey my ez mz),
    (magnitude_compare ex mx ez mz); destruct s1, s2; simpl; intros;
    try done; exfalso; lia.
Qed.

Lemma leb_below (x y : float) :
  (x <=? y) = true ↔ SFbelow false (Prim2SF x) (Prim2SF y).
Proof.
  rewrite leb_compare. unfold SFbelow.
  destruct (SFcompare _ _) as [[]|]; intuition congruence.
Qed.

Lemma ltb_below (x y : float) :
  (x <? y) = true ↔ SFbelow true (Prim2SF x) (Prim2SF y).
Proof.
  rewrite ltb_compare. unfold SFbelow.
  destruct (SFcompare _ _) as [[]|]; intuition congruence.
Qed.

Lemma leb_trans (x y z : float) :
  (x <=? y) = true → (y <=? z) = true → (x <=? z) = true.
Proof. rewrite !leb_below. apply (SFbelow_trans false false). Qed.

Lemma ltb_leb_trans (x y z : float) :
  (x <? y) = true → (y <=? z) = true → (x <? z) = true.
Proof. rewrite !ltb_below, leb_below. apply (SFbelow_trans true false). Qed.

Lemma leb_ltb_trans (x y z : float) :
  (x <=? y) = true → (y <? z) = true → (x <? z) = true.
Proof. rewrite !ltb_below, leb_below. apply (SFbelow_trans false true). Qed.

Lemma leb_nan_l (x y : float) : is_nan x = true → (x <=? y) = false.
Proof.
  intros Hx. apply not_true_is_false. rewrite leb_compare.
  assert (SFcompare (Prim2SF x) (Prim2SF y) = None) as -> by (apply compare_None; auto).
  intros [?|?]; discriminate.
Qed.

Lemma leb_nan_r (x y : float) : is_nan y = true → (x <=? y) = false.
Proof.
  intros Hy. apply not_true_is_false. rewrite leb_compare.
  assert (SFcompare (Prim2SF x) (Prim2SF y) = None) as -> by (apply compare_None; auto).
  intros [?|?]; discriminate.
Qed.

(** *** Signs of quotients and products *)

Lemma binary_round_aux_signed sx mx ex lx :
  (0 <= mx)%Z → SFsigned sx (binary_round_aux prec emax sx mx ex lx).
Proof.
  intros H. unfold binary_round_aux.
  pose proof (shr_fexp_nonneg mx ex lx H) as H1.
  destruct (shr_fexp prec emax mx ex lx) as [mrs' e']. simpl in H1.
  pose proof (shr_fexp_nonneg _ e' loc_Exact
    (round_nearest_even_nonneg _ (loc_of_shr_record mrs') H1)) as H2.
  destruct (shr_fexp prec emax _ e' loc_Exact) as [mrs'' e'']. simpl in H2.
  destruct (shr_m mrs''); try lia; try done.
  by destruct (_ <=? _)%Z.
Qed.

(** The quotient of two positive reals is a number that is not negative. *)
Lemma div_pos_real_signed (a r : float) :
  is_pos_real a = true → is_pos_real r = true → SFsigned false (Prim2SF (a / r)).
Proof.
  intros Ha Hr.
  destruct (pos_real_SF a Ha) as (ma & ea & Ea).
  destruct (pos_real_SF r Hr) as (mr & er & Er).
  rewrite FloatAxioms.div_spec, Ea, Er. unfold SF64div, SFdiv.
  pose proof (SFdiv_core_nonneg ma ea mr er) as H.
  destruct (SFdiv_core_binary _ _ _ _ _ _) as [[mz ez] lz]. simpl in H.
  by apply (binary_round_aux_signed false).
Qed.

(** A negative real times a non-negative number is a number with the
    negative sign. *)
Lemma mul_neg_signed (k q : float) mk ek :
  Prim2SF k = S754_finite true mk ek → SFsigned false (Prim2SF q) →
  SFsigned true (Prim2SF (k * q)).
Proof.
  intros Ek Hq. rewrite FloatAxioms.mul_spec, Ek. unfold SF64mul, SFmul.
  destruct (Prim2SF q) as [s|s| |s mq eq]; simpl in Hq; subst; try done.
  apply (binary_round_aux_signed true). lia.
Qed.

(** Nothing that is at least zero lies below a number with the negative
    sign. *)
Lemma nonneg_not_below_negative (p t : float) :
  (0 <=? p) = true → SFsigned true (Prim2SF t) → (p <? t) = false.
Proof.
  rewrite leb_compare. change (Prim2SF 0) with (S754_zero false).
  intros Hp Ht. apply not_true_is_false. rewrite ltb_compare.
  destruct (Prim2SF p) as [[]|[]| |[] mp ep], (Prim2SF t) as [s|s| |s mt et];
    simpl in *; subst; try discriminate; destruct Hp; discriminate.
Qed.

End FloatOrderMore.

(** *** Four times a stop-loss distance

   Multiplying a float between 0.03 and 0.07 by four is exact: the mantissa
   stays and the exponent grows by two. *)

Section Quadruple.
Import PyFloat.
Local Open Scope float_scope.

Lemma quadruple_round (m : positive) (e : Z) :
  digits2_pos m = 53%positive → (-58 <= e <= -56)%Z →
  SFmul prec emax (S754_finite false 4503599627370496 (-50)) (S754_finite false m e)
    = S754_finite false m (e + 2).
Proof.
  intros Hd He.
  assert (Hdig : digits2_pos (4503599627370496 * m) = 105%positive).
  { change (digits2_pos (4503599627370496 * m))
      with (Pos.iter Pos.succ (digits2_pos m) 52).
    rewrite Hd. reflexivity. }
  assert (H1 : shr_fexp prec emax (Z.pos (4503599627370496 * m)) (-50 + e) loc_Exact
               = ({| shr_m := Z.pos m; shr_r := false; shr_s := false |}, (e + 2)%Z)).
  { unfold shr_fexp, Zdigits2. rewrite Hdig.
    assert (e = -58 ∨ e = -57 ∨ e = -56)%Z as [->|[->| ->]] by lia;
      vm_compute; reflexivity. }
  assert (H2 : shr_fexp prec emax (Z.pos m) (e + 2) loc_Exact
               = ({| shr_m := Z.pos m; shr_r := false; shr_s := false |}, (e + 2)%Z)).
  { unfold shr_fexp, Zdigits2. rewrite Hd.
    assert (e = -58 ∨ e = -57 ∨ e = -56)%Z as [->|[->| ->]] by lia;
      vm_compute; reflexivity. }
  unfold SFmul, binary_round_aux. simpl xorb. rewrite H1.
  change (round_nearest_even _ _) with (Z.pos m). rewrite H2. simpl shr_m.
  assert (e = -58 ∨ e = -57 ∨ e = -56)%Z as [->|[->| ->]] by lia; reflexivity.
Qed.

(** The order of two positive finite floats. *)
Lemma SFcompare_finite (m1 m2 : positive) (e1 e2 : Z) :
  SFcompare (S754_finite false m1 e1) (S754_finite false m2 e2) =
  Some match (e1 ?= e2)%Z with
       | Lt => Lt
       | Gt => Gt
       | Eq => Pos.compare_cont Eq m1 m2
       end.
Proof. unfold SFcompare. by destruct (e1 ?= e2)%Z. Qed.

Lemma SFcompare_finite_shift (m1 m2 : positive) (e1 e2 k : Z) :
  SFcompare (S754_finite false m1 (e1 + k)) (S754_finite false m2 (e2 + k)) =
  SFcompare (S754_finite false m1 e1) (S754_finite false m2 e2).
Proof.
  rewrite !SFcompare_finite, !(Z.add_comm _ k). by rewrite Z.add_compare_mono_l.
Qed.

Lemma quadruple_bounds (x : float) :
  (0.03 <=? x) = true → (x <=? 0.07) = true →
  (0.12 <=? 4 * x) = true ∧ (4 * x <=? 0.28) = true.
Proof.
  intros Hlo Hhi.
  rewrite leb_compare in Hlo, Hhi. rewrite !leb_compare, FloatAxioms.mul_spec.
  change (Prim2SF 4) with (S754_finite false 4503599627370496 (-50)).
  change (Prim2SF 0.03) with (S754_finite false 8646911284551352 (-58)) in Hlo.
  change (Prim2SF 0.07) with (S754_finite false 5044031582654956 (-56)) in Hhi.
  change (Prim2SF 0.12) with (S754_finite false 8646911284551352 (-58 + 2)).
  change (Prim2SF 0.28) with (S754_finite false 5044031582654956 (-56 + 2)).
  pose proof (Prim2SF_valid x) as Hv.
  destruct (Prim2SF x) as [[]|[]| |[] m e];
    try (unfold SFcompare in Hlo; destruct Hlo; discriminate);
    try (unfold SFcompare in Hhi; destruct Hhi; discriminate).
  assert (He : (-58 <= e <= -56)%Z).
  { rewrite SFcompare_finite in Hlo, Hhi. split.
    - destruct (Z.compare_spec (-58) e); try lia. destruct Hlo; discriminate.
    - destruct (Z.compare_spec e (-56)); try lia. destruct Hhi; discriminate. }
  assert (Hd : digits2_pos m = 53%positive).
  { unfold SpecFloat.valid_binary, bounded, canonical_mantissa, fexp, SpecFloat.emin in Hv.
    apply andb_true_iff in Hv as [Hv _]. apply Z.eqb_eq in Hv.
    change prec with 53%Z in Hv. change emax with 1024%Z in Hv.
    assert (Z.pos (digits2_pos m) = 53%Z) by lia. congruence. }
  unfold SF64mul. rewrite (quadruple_round m e Hd He).
  by rewrite !SFcompare_finite_shift.
Qed.
End Quadruple.

(** ** More on tables: arithmetic, assignment, and calls that return *)

Module PandasMore.

Import Pandas PandasFacts.
Local Open Scope float_scope.

Lemma series_arith_row op (a b s : Series) :
  series_arith op a b = Ok s →
  length s = length a ∧ length b = length a ∧
  ∀ i, i < length a → s !! i = Some (Num (op (num_at a i) (num_at b i))).
Proof.
  unfold series_arith. destruct (Nat.eqb (length a) (length b)) eqn:El; [|discriminate].
  apply Nat.eqb_eq in El. simpl. intros H. apply mapM_Ok in H.
  pose proof (Forall2_length _ _ _ H) as Hl. rewrite length_zip in Hl.
  split; [lia|]. split; [lia|]. intros i Hi.
  destruct (lookup_lt_is_Some_2 a i Hi) as [x Hx].
  destruct (lookup_lt_is_Some_2 b i ltac:(lia)) as [y Hy].
  assert (zip a b !! i = Some (x, y)) as Hz by by rewrite lookup_zip_with, Hx, Hy.
  destruct (Forall2_lookup_l _ _ _ _ _ H Hz) as (r & Hr & Hc).
  unfold num_at. rewrite Hx, Hy, Hr. simpl in Hc.
  destruct x, y; simpl in Hc; congruence.
Qed.

Lemma reindex_lookup (n : nat) (s : Series) (i : nat) :
  i < n → i < length s → reindex n s !! i = s !! i.
Proof.
  intros Hn Hs. unfold reindex.
  rewrite lookup_app_l by (rewrite length_take; lia).
  by apply lookup_take_lt.
Qed.

Lemma reindex_id (n : nat) (s : Series) : length s = n → reindex n s = s.
Proof.
  intros <-. unfold reindex. rewrite Nat.sub_diag, firstn_all. apply app_nil_r.
Qed.

Lemma setitem_same (df : DataFrame) (c : string) (s : Series) (i : nat) :
  at_ (setitem df c s) c i = reindex (index df) s !! i.
Proof. unfold at_. simpl. by rewrite lookup_insert_eq. Qed.

(** *** Assignment through [.loc], for any list of columns *)

Lemma loc_set_fold_index (mask : list bool) (cvs : list (string * cell)) (df : DataFrame) :
  index (foldl (λ d cv, loc_set1 d mask cv.1 cv.2) df cvs) = index df.
Proof. revert df. induction cvs as [|cv cvs IH]; intros df; simpl; [done|]. by rewrite IH. Qed.

Lemma loc_set_fold_other (mask : list bool) (cvs : list (string * cell))
    (df : DataFrame) (c : string) :
  c ∉ cvs.*1 →
  columns (foldl (λ d cv, loc_set1 d mask cv.1 cv.2) df cvs) !! c = columns df !! c.
Proof.
  revert df. induction cvs as [|cv cvs IH]; intros df Hc; simpl; [done|].
  simpl in Hc. apply not_elem_of_cons in Hc as [Hne Hc].
  rewrite IH by done. by apply loc_set1_other.
Qed.

Lemma loc_set_fold_wf (mask : list bool) (cvs : list (string * cell)) (df : DataFrame) :
  length mask = index df → wf df →
  wf (foldl (λ d cv, loc_set1 d mask cv.1 cv.2) df cvs).
Proof.
  revert df. induction cvs as [|cv cvs IH]; intros df Hm Hwf; simpl; [done|].
  apply IH; [done|]. by apply loc_set1_wf.
Qed.

Lemma loc_setitem_extends (df df' : DataFrame) (mask : list bool)
    (cvs : list (string * cell)) :
  loc_setitem df mask cvs = Ok df' → extends_by (cvs.*1) df df'.
Proof.
  unfold loc_setitem. destruct (negb _); [discriminate|]. intros [= <-].
  split; [apply loc_set_fold_index|]. intros c Hc. by apply loc_set_fold_other.
Qed.

Lemma loc_setitem_wf (df df' : DataFrame) (mask : list bool)
    (cvs : list (string * cell)) :
  wf df → loc_setitem df mask cvs = Ok df' → wf df'.
Proof.
  intros Hwf. unfold loc_setitem.
  destruct (Nat.eqb (length mask) (index df)) eqn:El; [|discriminate].
  apply Nat.eqb_eq in El. simpl. intros [= <-]. by apply loc_set_fold_wf.
Qed.

Lemma loc_setitem_returns (df : DataFrame) (mask : list bool)
    (cvs : list (string * cell)) :
  length mask = index df → ∃ df', loc_setitem df mask cvs = Ok df'.
Proof.
  intros Hm. unfold loc_setitem. apply Nat.eqb_eq in Hm. rewrite Hm. simpl. eauto.
Qed.

(** The tag written beside a flag. *)
Lemma loc_setitem_pair_tag df mask c v tag t df' :
  c ≠ tag → wf df →
  loc_setitem df mask [(c, v); (tag, t)] = Ok df' →
  ∀ i, i < index df →
    at_ df' tag i = Some (if selected mask i then t else prior df tag i).
Proof.
  intros Hne Hwf. unfold loc_setitem.
  destruct (Nat.eqb (length mask) (index df)) eqn:El; [|discriminate].
  apply Nat.eqb_eq in El. simpl. intros [= <-] i Hi.
  rewrite loc_set1_same; [|done|by apply loc_set1_wf|done].
  destruct (selected mask i); [done|]. f_equal.
  apply prior_other. by apply loc_set1_other.
Qed.

(** *** Chaining what assignments leave in place *)

Lemma extends_by_step (names l : list string) (df d d' : DataFrame) :
  extends_by names df d → extends_by l d d' → (∀ c, c ∈ l → c ∈ names) →
  extends_by names df d'.
Proof.
  intros [Hi Ho] [Hi' Ho'] Hsub. split; [congruence|].
  intros c Hc. rewrite Ho' by (intros Hl; by apply Hc, Hsub). by apply Ho.
Qed.

Lemma extends_by_index (names : list string) (df df' : DataFrame) :
  extends_by names df df' → index df' = index df.
Proof. by intros [? _]. Qed.

Lemma extends_by_column (names : list string) (df df' : DataFrame) (c : string) :
  extends_by names df df' → c ∉ names → columns df' !! c = columns df !! c.
Proof. intros [_ Ho]. apply Ho. Qed.

(** Every name of a list given in full belongs to another such list. *)
Ltac solve_sublist :=
  let c := fresh "c" in
  let Hc := fresh "Hc" in
  intros c Hc; rewrite ?elem_of_cons, elem_of_nil in Hc;
  repeat (destruct Hc as [->|Hc]; [solve_elem|]); destruct Hc.

(** A column read through assignments to other columns. *)
Ltac through_setitems :=
  simpl; repeat (rewrite lookup_insert_ne by done); reflexivity.

End PandasMore.

(** ** ShinonV2: exit signals, and the risk hooks on any input *)

Module ShinonV2More.

Import Pandas PandasFacts Host ShinonV2 ShinonV2Facts.
Local Open Scope float_scope.

(** Two strict comparisons in opposite directions never hold together. *)
Lemma gt_lt_exclusive (x y : float) : PyFloat.gt x y && PyFloat.lt x y = false.
Proof.
  unfold PyFloat.gt, PyFloat.lt.
  destruct (y <? x) eqn:E1; [simpl|done]. destruct (x <? y) eqn:E2; [|done].
  destruct (ltb_leb_excl _ _ E1 (ltb_leb _ _ E2)).
Qed.

(** *** Exit signals *)

Definition exit_long_rule (df : DataFrame) (i : nat) : bool :=
  PyFloat.gt (value df "close" i) (value df "bb_middle" i) &&
  crossed_above_at df "minus_di" "plus_di" i.

Definition exit_short_rule (df : DataFrame) (i : nat) : bool :=
  PyFloat.lt (value df "close" i) (value df "bb_middle" i) &&
  crossed_above_at df "plus_di" "minus_di" i.

Lemma shinonV2_exit_rules_exclusive (df : DataFrame) (i : nat) :
  exit_long_rule df i && exit_short_rule df i = false.
Proof.
  unfold exit_long_rule, exit_short_rule.
  pose proof (gt_lt_exclusive (value df "close" i) (value df "bb_middle" i)) as H.
  destruct (PyFloat.gt _ _), (PyFloat.lt _ _); simpl in *; try done.
  all: by rewrite ?andb_false_r.
Qed.

(** X1. [populate_exit_trend] of ShinonV2 writes [exit_long = 1] on exactly
    the rows where close > bb_middle and minus_di crossed above plus_di, and
    [exit_short = 1] on exactly the rows where close < bb_middle and plus_di
    crossed above minus_di; the two rules never hold on the same row. *)
Theorem shinonV2_exit_rows (self : ShinonV2) (df df' : DataFrame) (i : nat) :
  wf df → populate_exit_trend self df = Ok df' → i < index df →
  flag_written df df' "exit_long" (exit_long_rule df i) i ∧
  flag_written df df' "exit_short" (exit_short_rule df i) i ∧
  flag_exact df df' "exit_long" (exit_long_rule df i) i ∧
  flag_exact df df' "exit_short" (exit_short_rule df i) i ∧
  exit_long_rule df i && exit_short_rule df i = false.
Proof.
  intros Hwf H Hi. unfold populate_exit_trend in H.
  apply bind_Ok in H as (l1 & Hl1 & H).
  apply bind_Ok in H as (mdi & Hmdi & H). apply bind_Ok in H as (pdi & Hpdi & H).
  apply bind_Ok in H as (l2 & Hl2 & H). apply bind_Ok in H as (df1 & Hloc1 & H).
  apply bind_Ok in H as (s1 & Hs1 & H).
  apply bind_Ok in H as (pdi' & Hpdi' & H). apply bind_Ok in H as (mdi' & Hmdi' & H).
  apply bind_Ok in H as (s2 & Hs2 & H).
  apply loc_setitem_single in Hloc1 as (Hi1 & Hwf1 & Hother1 & Hlong); [|done].
  apply loc_setitem_single in H as (Hi2 & Hwf2 & Hother2 & Hshort); [|done].
  assert (Hi' : i < index df1) by lia.
  assert (Hv : ∀ c j, c ≠ "exit_long" → value df1 c j = value df c j).
  { intros c j ?. apply value_other. by apply Hother1. }
  assert (Hb : ∀ c, c ≠ "exit_long" → value_before df1 c i = value_before df c i).
  { intros c ?. destruct i; [done|]. simpl. by apply Hv. }
  assert (Hlong' : flag_written df df' "exit_long" (exit_long_rule df i) i).
  { unfold flag_written. rewrite (at_other df1) by by apply Hother2.
    rewrite Hlong by done. rewrite selected_mask_and.
    by rewrite (col_cmp_selected _ _ _ _ _ _ Hwf Hl1 Hi),
      (crossed_above_selected _ _ _ _ _ _ _ Hwf Hmdi Hpdi Hl2 Hi). }
  assert (Hshort' : flag_written df df' "exit_short" (exit_short_rule df i) i).
  { unfold flag_written. rewrite Hshort by done. rewrite selected_mask_and.
    rewrite (col_cmp_selected _ _ _ _ _ _ Hwf1 Hs1 Hi'),
      (crossed_above_selected _ _ _ _ _ _ _ Hwf1 Hpdi' Hmdi' Hs2 Hi').
    unfold exit_short_rule, crossed_above_at.
    rewrite !Hv, !Hb by done.
    by rewrite (prior_other df df1) by by apply Hother1. }
  split; [done|]. split; [done|].
  split; [by apply flag_written_exact|]. split; [by apply flag_written_exact|].
  apply shinonV2_exit_rules_exclusive.
Qed.

(** Momentum turns down above the middle band on the second candle, and up
    below it on the fourth. *)
Definition exit_table : DataFrame :=
  frame 4 [("close", [12; 12; 8; 8]); ("bb_middle", [10; 10; 10; 10]);
           ("plus_di", [30; 10; 10; 30]); ("minus_di", [10; 30; 30; 10])].

Definition exit_result : DataFrame :=
  returned (populate_exit_trend default exit_table) exit_table.

Example shinonV2_exit_flags :
  at_ exit_result "exit_long" <$> [0; 1; 2; 3]%nat
    = [Some NaN; Some (Num 1); Some NaN; Some NaN] ∧
  at_ exit_result "exit_short" <$> [0; 1; 2; 3]%nat
    = [Some NaN; Some NaN; Some NaN; Some (Num 1)].
Proof. vm_compute. done. Qed.

Lemma shinonV2_exit_rows_witness :
  wf exit_table ∧
  populate_exit_trend default exit_table = Ok exit_result ∧
  flag_written exit_table exit_result "exit_long" (exit_long_rule exit_table 1) 1 ∧
  flag_written exit_table exit_result "exit_short" (exit_short_rule exit_table 1) 1 ∧
  flag_exact exit_table exit_result "exit_long" (exit_long_rule exit_table 1) 1 ∧
  flag_exact exit_table exit_result "exit_short" (exit_short_rule exit_table 1) 1 ∧
  exit_long_rule exit_table 1 && exit_short_rule exit_table 1 = false.
Proof.
  assert (Hwf : wf exit_table) by prove_wf.
  assert (Hrun : populate_exit_trend default exit_table = Ok exit_result)
    by (vm_compute; reflexivity).
  split; [exact Hwf|]. split; [exact Hrun|].
  apply (shinonV2_exit_rows default exit_table exit_result 1 Hwf Hrun).
  vm_compute. lia.
Defined.

(** *** Entry signals never point both ways *)

Lemma shinonV2_entry_rules_exclusive (self : ShinonV2) (df : DataFrame) (i : nat) :
  long_rule_of self df i && short_rule_of self df i = false.
Proof.
  unfold long_rule_of, short_rule_of.
  pose proof (gt_lt_exclusive (value df "plus_di" i) (value df "minus_di" i)) as H.
  change (PyFloat.lt (value df "plus_di" i) (value df "minus_di" i))
    with (PyFloat.gt (value df "minus_di" i) (value df "plus_di" i)) in H.
  revert H.
  repeat match goal with
         | |- context [PyFloat.gt ?x ?y] => destruct (PyFloat.gt x y)
         | |- context [PyFloat.lt ?x ?y] => destruct (PyFloat.lt x y)
         | |- context [trend_filter ?s] => destruct (trend_filter s)
         end; simpl; done.
Qed.

(** X2. Whatever the hyperparameters, [populate_entry_trend] of ShinonV2
    gives no row both flags: the long rule needs plus_di > minus_di and the
    short rule minus_di > plus_di.  On a table that had neither column, no
    row ends with [enter_long = 1] and [enter_short = 1]. *)
Theorem shinonV2_entry_one_side (self : ShinonV2) (df df' : DataFrame) (i : nat) :
  wf df → populate_entry_trend self df = Ok df' → i < index df →
  columns df !! "enter_long" = None → columns df !! "enter_short" = None →
  long_rule_of self df i && short_rule_of self df i = false ∧
  ¬ (at_ df' "enter_long" i = Some (Num 1) ∧ at_ df' "enter_short" i = Some (Num 1)).
Proof.
  intros Hwf H Hi Fl Fs.
  destruct (shinonV2_entry_rows_of self df df' i Hwf H Hi) as [Hl Hs].
  pose proof (shinonV2_entry_rules_exclusive self df i) as Hex.
  split; [done|]. intros [Cl Cs].
  apply (flag_written_exact _ _ _ _ _ Hl Fl) in Cl.
  apply (flag_written_exact _ _ _ _ _ Hs Fs) in Cs.
  rewrite Cl, Cs in Hex. discriminate.
Qed.

Lemma shinonV2_entry_one_side_witness :
  long_rule_of default entry_table 0 && short_rule_of default entry_table 0 = false ∧
  ¬ (at_ entry_result "enter_long" 0 = Some (Num 1) ∧
     at_ entry_result "enter_short" 0 = Some (Num 1)).
Proof.
  apply (shinonV2_entry_one_side default entry_table entry_result 0).
  - prove_wf.
  - vm_compute. reflexivity.
  - vm_compute. lia.
  - vm_compute. reflexivity.
  - vm_compute. reflexivity.
Defined.

(** *** The stop-loss on any input *)

(** X3. Whatever number the last ATR is and whatever the current rate is
    (zero and NaN included), [custom_stoploss] on a non-empty table returns
    a number whose magnitude lies between 0.03 and 0.07, positive for a
    short trade and negative otherwise; when ATR / rate is undefined the
    magnitude is the 3% floor.  The host's tables are left as they were. *)
Theorem custom_stoploss_always_bounded (self : ShinonV2) (pair : string)
    (trade : Trade) (current_rate current_profit : float) (dp : DataProvider)
    (df : DataFrame) (atr : float) :
  cache dp !! (pair, timeframe self) = Some df →
  empty df = false →
  last_value df "atr" = Some (Num atr) →
  ∃ v, custom_stoploss self pair trade current_rate current_profit dp = (Ok v, dp) ∧
       (0.03 <=? abs v) = true ∧ (abs v <=? 0.07) = true ∧
       is_nan v = false ∧
       (if is_short trade then (0 <? v) = true else (v <? 0) = true) ∧
       (is_nan (atr / current_rate) = true → abs v = 0.03).
Proof.
  intros Hdp He Ha.
  rewrite (custom_stoploss_run _ _ _ _ _ _ _ _ Hdp He Ha).
  destruct (dynamic_sl_bounds (atr / current_rate)) as (Hlo & Hhi & Hpos).
  assert (Hnan : is_nan (atr / current_rate) = true →
                 dynamic_sl (atr / current_rate) = 0.03).
  { intros Hr. unfold dynamic_sl, PyFloat.py_max, PyFloat.py_min, PyFloat.lt, PyFloat.gt.
    rewrite (ltb_nan_r 0.07 _ Hr). by rewrite (ltb_nan_r 0.03 _ Hr). }
  eexists. split; [reflexivity|].
  destruct (is_short trade).
  - rewrite (abs_pos _ Hpos). repeat split; auto.
    by apply ltb_not_nan in Hpos as [_ ?].
  - rewrite (abs_opp_pos _ Hpos). repeat split; auto using opp_pos_neg.
    apply opp_not_nan. by apply ltb_not_nan in Hpos as [_ ?].
Qed.

(** A rate of zero makes ATR / rate infinite: the stop sits at the 7% cap. *)
Example custom_stoploss_zero_rate :
  fst (custom_stoploss default "BTC/USDT" long_trade 0 0 provider) = Ok (-0.07).
Proof. vm_compute. done. Qed.

Lemma custom_stoploss_always_bounded_witness :
  ∃ v, custom_stoploss default "BTC/USDT" long_trade 0 0 provider = (Ok v, provider) ∧
       (0.03 <=? abs v) = true ∧ (abs v <=? 0.07) = true ∧
       is_nan v = false ∧
       (if is_short long_trade then (0 <? v) = true else (v <? 0) = true) ∧
       (is_nan (500 / 0) = true → abs v = 0.03).
Proof.
  apply (custom_stoploss_always_bounded default "BTC/USDT" long_trade 0 0 provider
           analyzed_table 500); vm_compute; reflexivity.
Defined.

(** *** The take-profit *)

(** The profit target of [custom_exit] for a given ATR / rate. *)
Definition target_profit (risk_pct : float) : float :=
  PyFloat.py_max 0.05
    (PyFloat.py_min (4 * PyFloat.py_max 0.03 (PyFloat.py_min risk_pct 0.07)) 0.15).

Lemma custom_exit_run (self : ShinonV2) (pair : string) (trade : Trade)
    (current_rate current_profit : float) (dp : DataProvider)
    (df : DataFrame) (a : float) :
  cache dp !! (pair, timeframe self) = Some df →
  empty df = false →
  last_value df "atr" = Some (Num a) →
  custom_exit self pair trade current_rate current_profit dp =
    (Ok (PyFloat.ge current_profit (target_profit (a / current_rate))), dp).
Proof.
  intros Hdp He Ha.
  destruct (last_row_getitem df "atr" (Num a) He Ha) as (row & Hrow & Hget).
  unfold custom_exit, get_analyzed_dataframe, mbind, hook_bind, lift.
  rewrite Hdp. simpl. rewrite He, Hrow, Hget. simpl.
  fold (target_profit (a / current_rate)).
  by destruct (PyFloat.ge _ _).
Qed.

(** Four times the dynamic stop-loss is at least 12%, so the 5% floor of
    the target never applies. *)
Lemma target_profit_bounds (r : float) :
  (0.12 <=? target_profit r) = true ∧ (target_profit r <=? 0.15) = true.
Proof.
  unfold target_profit.
  destruct (py_max_min_bounds 0.03 0.07 r) as [Hlo Hhi]; [reflexivity|].
  destruct (quadruple_bounds _ Hlo Hhi) as [Hq _].
  set (q := 4 * PyFloat.py_max 0.03 (PyFloat.py_min r 0.07)) in *.
  assert (Hnan : is_nan q = false).
  { destruct (is_nan q) eqn:E; [|done]. by rewrite (leb_nan_r _ _ E) in Hq. }
  assert (Hy : (0.12 <=? PyFloat.py_min q 0.15) = true ∧
               (PyFloat.py_min q 0.15 <=? 0.15) = true).
  { unfold PyFloat.py_min, PyFloat.lt. destruct (0.15 <? q) eqn:E.
    - split; reflexivity.
    - split; [done|]. by apply not_ltb_leb. }
  destruct Hy as [Hy1 Hy2].
  assert (PyFloat.py_max 0.05 (PyFloat.py_min q 0.15) = PyFloat.py_min q 0.15) as ->.
  { unfold PyFloat.py_max at 1. unfold PyFloat.gt.
    by rewrite (ltb_leb_trans 0.05 0.12 _ eq_refl Hy1). }
  by split.
Qed.

(** X4. On a non-empty table with a numeric last ATR, whatever the ATR and
    the rate are, [custom_exit] answers [True] whenever the current profit
    is at least 15%, and [False] whenever it is below 12% or is NaN: the
    target is four times a stop-loss of at least 3%, so it lies between 12%
    and 15% and its floor of 5% never applies. *)
Theorem custom_exit_thresholds (self : ShinonV2) (pair : string) (trade : Trade)
    (current_rate current_profit : float) (dp : DataProvider)
    (df : DataFrame) (atr : float) :
  cache dp !! (pair, timeframe self) = Some df →
  empty df = false →
  last_value df "atr" = Some (Num atr) →
  let answer := custom_exit self pair trade current_rate current_profit dp in
  ((0.15 <=? current_profit) = true → answer = (Ok true, dp)) ∧
  ((current_profit <? 0.12) = true → answer = (Ok false, dp)) ∧
  (is_nan current_profit = true → answer = (Ok false, dp)).
Proof.
  intros Hdp He Ha answer. unfold answer.
  rewrite (custom_exit_run _ _ _ _ _ _ _ _ Hdp He Ha).
  destruct (target_profit_bounds (atr / current_rate)) as [Hlo Hhi].
  unfold PyFloat.ge. repeat split.
  - intros Hp. by rewrite (leb_trans _ _ _ Hhi Hp).
  - intros Hp. destruct (_ <=? current_profit) eqn:E; [|done].
    destruct (ltb_leb_excl _ _ (ltb_leb_trans _ _ _ Hp Hlo) E).
  - intros Hp. by rewrite (leb_nan_r _ _ Hp).
Qed.

Example custom_exit_values :
  fst (custom_exit default "BTC/USDT" long_trade 10000 0.2 provider) = Ok true ∧
  fst (custom_exit default "BTC/USDT" long_trade 10000 0.14 provider) = Ok false ∧
  fst (custom_exit default "BTC/USDT" long_trade 30000 0.12 provider) = Ok true ∧
  fst (custom_exit default "BTC/USDT" long_trade 30000 0.04 provider) = Ok false.
Proof. vm_compute. done. Qed.

Lemma custom_exit_thresholds_witness :
  let answer := custom_exit default "BTC/USDT" long_trade 10000 0.2 provider in
  ((0.15 <=? 0.2) = true → answer = (Ok true, provider)) ∧
  ((0.2 <? 0.12) = true → answer = (Ok false, provider)) ∧
  (is_nan 0.2 = true → answer = (Ok false, provider)).
Proof.
  apply (custom_exit_thresholds default "BTC/USDT" long_trade 10000 0.2 provider
           analyzed_table 500); vm_compute; reflexivity.
Defined.

(** *** A table without ATR *)

(** X5. On a table that has rows and columns but no [atr] column,
    [custom_stoploss] and [custom_exit] raise [KeyError('atr')]: the guard
    at their head covers only a missing or empty table. *)
Theorem risk_hooks_need_atr (self : ShinonV2) (pair : string) (trade : Trade)
    (current_rate current_profit : float) (dp : DataProvider) (df : DataFrame) :
  cache dp !! (pair, timeframe self) = Some df →
  empty df = false →
  columns df !! "atr" = None →
  custom_stoploss self pair trade current_rate current_profit dp
    = (Raise (KeyError "atr"), dp) ∧
  custom_exit self pair trade current_rate current_profit dp
    = (Raise (KeyError "atr"), dp).
Proof.
  intros Hdp He Hatr.
  unfold custom_stoploss, custom_exit, get_analyzed_dataframe, mbind, hook_bind, lift.
  rewrite Hdp. simpl. rewrite He.
  unfold iloc_last_row. unfold empty in He. apply orb_false_iff in He as [-> _].
  simpl. unfold row_getitem. by rewrite lookup_fmap, Hatr.
Qed.

(** The host holds candles that were never given their indicators. *)
Definition bare_provider : DataProvider :=
  {| cache := {[ ("BTC/USDT", "15m") := frame 2 [("close", [30000; 30100])] ]} |}.

Lemma risk_hooks_need_atr_witness :
  custom_stoploss default "BTC/USDT" long_trade 30000 0 bare_provider
    = (Raise (KeyError "atr"), bare_provider) ∧
  custom_exit default "BTC/USDT" long_trade 30000 0 bare_provider
    = (Raise (KeyError "atr"), bare_provider).
Proof.
  apply (risk_hooks_need_atr default "BTC/USDT" long_trade 30000 0 bare_provider
           (frame 2 [("close", [30000; 30100])])); vm_compute; reflexivity.
Defined.

End ShinonV2More.

(** ** ZaratustraV2: position adjustment, entry sides, derived columns *)

Module ZaratustraV2More.

Import Pandas PandasFacts PandasMore TA Host ZaratustraV2 ZaratustraV2Facts.
Local Open Scope float_scope.

(** *** Position adjustment *)

(** The last cell of column [c], as [df[c].iloc[-1]] reads it. *)
Definition last_of (df : DataFrame) (c : string) : option cell :=
  columns df !! c ≫= last.

Lemma adjust_trade_position_run (self : ZaratustraV2) (trade : Trade)
    (current_rate current_profit : float) (min_stake : option float)
    (max_stake : float) (dp : DataProvider) (df : DataFrame) (atr : cell) :
  cache dp !! (trade_pair trade, timeframe self) = Some df →
  last_of df "atr" = Some atr →
  adjust_trade_position self trade current_rate current_profit min_stake max_stake dp
    = (adjust_by_profit trade atr current_rate current_profit, dp).
Proof.
  intros Hdp Ha. unfold last_of in Ha.
  unfold adjust_trade_position, get_analyzed_dataframe, mbind, hook_bind, lift.
  rewrite Hdp. simpl. unfold getitem, iloc_last.
  destruct (columns df !! "atr") as [s|]; simpl in *; [|discriminate].
  rewrite Ha. simpl. by destruct (String.eqb _ _).
Qed.

(** X6. With a positive ATR and a positive rate, [adjust_trade_position]
    never adds to a position that is not at a loss: when the current profit
    is at least zero the hook returns the half exit (profit above 10% and no
    exit taken yet) or [None], never the 60% increase.  The host's tables
    are left as they were. *)
Theorem adjust_trade_position_no_increase (self : ZaratustraV2) (trade : Trade)
    (current_rate current_profit : float) (min_stake : option float)
    (max_stake : float) (dp : DataProvider) (df : DataFrame) (atr : float) :
  cache dp !! (trade_pair trade, timeframe self) = Some df →
  last_of df "atr" = Some (Num atr) →
  PyFloat.is_pos_real atr = true →
  PyFloat.is_pos_real current_rate = true →
  (0 <=? current_profit) = true →
  adjust_trade_position self trade current_rate current_profit min_stake max_stake dp
    = (Ok (if PyFloat.gt current_profit 0.10 && (nr_of_successful_exits trade =? 0)%Z
           then Some (- (stake_amount trade / 2)) else None), dp).
Proof.
  intros Hdp Ha Hatr Hrate Hp.
  rewrite (adjust_trade_position_run _ _ _ _ _ _ _ _ _ Hdp Ha).
  unfold adjust_by_profit.
  destruct (PyFloat.gt current_profit 0.10 && _); [done|]. simpl.
  assert (Hneg : SFsigned true (Prim2SF (-0.05 * (atr / current_rate)))).
  { eapply mul_neg_signed; [vm_compute; reflexivity|].
    by apply div_pos_real_signed. }
  unfold PyFloat.lt. by rewrite (nonneg_not_below_negative _ _ Hp Hneg).
Qed.

Lemma adjust_trade_position_no_increase_witness :
  adjust_trade_position default open_trade 30000 0.01 (Some 10) 1000 position_provider
    = (Ok (if PyFloat.gt 0.01 0.10 && (nr_of_successful_exits open_trade =? 0)%Z
           then Some (- (stake_amount open_trade / 2)) else None), position_provider).
Proof.
  apply (adjust_trade_position_no_increase default open_trade 30000 0.01 (Some 10) 1000
           position_provider position_table 500); vm_compute; reflexivity.
Defined.

(** *** Entry signals never point both ways *)

Lemma zaratustraV2_entry_rules_exclusive (self : ZaratustraV2) (df : DataFrame) (i : nat) :
  long_rule_of self df i && short_rule_of self df i = false.
Proof.
  unfold long_rule_of, short_rule_of.
  assert (H : PyFloat.gt (value df "pdi" i) (value df "mdi" i) &&
              PyFloat.gt (value df "mdi" i) (value df "pdi" i) = false).
  { unfold PyFloat.gt. destruct (value df "mdi" i <? _) eqn:E1; [simpl|done].
    destruct (value df "pdi" i <? _) eqn:E2; [|done].
    destruct (ltb_leb_excl _ _ E1 (ltb_leb _ _ E2)). }
  revert H.
  repeat match goal with
         | |- context [PyFloat.gt ?x ?y] => destruct (PyFloat.gt x y)
         | |- context [PyFloat.lt ?x ?y] => destruct (PyFloat.lt x y)
         | |- context [PyFloat.eq ?x ?y] => destruct (PyFloat.eq x y)
         | |- context [crossed_above_at ?d ?a ?b ?j] => destruct (crossed_above_at d a b j)
         end; simpl; done.
Qed.

(** X7. Whatever the thresholds, [populate_entry_trend] of ZaratustraV2
    gives no row both flags: the long rule needs pdi > mdi and the short
    rule mdi > pdi.  On a table that had neither column, no row ends with
    [enter_long = 1] and [enter_short = 1]. *)
Theorem zaratustraV2_entry_one_side (self : ZaratustraV2) (df df' : DataFrame)
    (i : nat) :
  wf df → populate_entry_trend self df = Ok df' → i < index df →
  columns df !! "enter_long" = None → columns df !! "enter_short" = None →
  long_rule_of self df i && short_rule_of self df i = false ∧
  ¬ (at_ df' "enter_long" i = Some (Num 1) ∧ at_ df' "enter_short" i = Some (Num 1)).
Proof.
  intros Hwf H Hi Fl Fs.
  destruct (zaratustraV2_entry_rows_of self df df' i Hwf H Hi) as [Hl Hs].
  pose proof (zaratustraV2_entry_rules_exclusive self df i) as Hex.
  split; [done|]. intros [Cl Cs].
  apply (flag_written_exact _ _ _ _ _ Hl Fl) in Cl.
  apply (flag_written_exact _ _ _ _ _ Hs Fs) in Cs.
  rewrite Cl, Cs in Hex. discriminate.
Qed.

Lemma zaratustraV2_entry_one_side_witness :
  long_rule_of default strong_trend_table 1 && short_rule_of default strong_trend_table 1
    = false ∧
  ¬ (at_ strong_trend_result "enter_long" 1 = Some (Num 1) ∧
     at_ strong_trend_result "enter_short" 1 = Some (Num 1)).
Proof.
  apply (zaratustraV2_entry_one_side default strong_trend_table strong_trend_result 1).
  - prove_wf.
  - vm_compute. reflexivity.
  - vm_compute. lia.
  - vm_compute. reflexivity.
  - vm_compute. reflexivity.
Defined.

(** *** Derived columns *)

Section WithIndicators.

Context `{Indicators}.

(** X8. In the table [populate_indicators] of ZaratustraV2 returns, on every
    row [market_trend] is 1 where close > ema_200 and -1 elsewhere, so a row
    whose ema_200 is still undefined counts as a down-trend; and
    [volatility] is atr / close. *)
Theorem zaratustraV2_derived_columns (self : ZaratustraV2) (df df' : DataFrame)
    (i : nat) :
  wf df → populate_indicators self df = Ok df' → i < index df →
  at_ df' "market_trend" i =
    Some (Num (if PyFloat.gt (value df' "close" i) (value df' "ema_200" i)
               then 1 else -1)) ∧
  at_ df' "volatility" i = Some (Num (value df' "atr" i / value df' "close" i)) ∧
  (is_nan (value df' "ema_200" i) = true → at_ df' "market_trend" i = Some (Num (-1))).
Proof.
  intros Hwf Hrun Hi. unfold populate_indicators in Hrun. cbv zeta in Hrun.
  apply bind_Ok in Hrun as (atr & _ & Hrun).
  set (d1 := setitem df "atr" atr) in *.
  apply bind_Ok in Hrun as (rsi & _ & Hrun).
  set (d2 := setitem d1 "rsi" rsi) in *.
  apply bind_Ok in Hrun as (ema & _ & Hrun).
  set (d3 := setitem d2 "ema_200" ema) in *.
  apply bind_Ok in Hrun as (above & Habove & Hrun).
  set (d4 := setitem d3 "market_trend" (np_where above (Num 1) (Num (-1)))) in *.
  apply bind_Ok in Hrun as (x1 & _ & Hrun). apply bind_Ok in Hrun as (dx & _ & Hrun).
  set (d5 := setitem d4 "dx" dx) in *.
  apply bind_Ok in Hrun as (x2 & _ & Hrun). apply bind_Ok in Hrun as (adx & _ & Hrun).
  set (d6 := setitem d5 "adx" adx) in *.
  apply bind_Ok in Hrun as (x3 & _ & Hrun). apply bind_Ok in Hrun as (pdi & _ & Hrun).
  set (d7 := setitem d6 "pdi" pdi) in *.
  apply bind_Ok in Hrun as (x4 & _ & Hrun). apply bind_Ok in Hrun as (mdi & _ & Hrun).
  set (d8 := setitem d7 "mdi" mdi) in *.
  apply bind_Ok in Hrun as (atr' & Hatr' & Hrun).
  apply bind_Ok in Hrun as (close' & Hclose' & Hrun).
  apply bind_Ok in Hrun as (vol & Hvol & Hrun).
  injection Hrun as <-.
  assert (Hwf3 : wf d3) by (repeat apply setitem_wf; done).
  assert (Hwf8 : wf d8) by (repeat apply setitem_wf; done).
  assert (Hi3 : i < index d3) by done.
  apply col_cmp_row in Habove as [Labove Habove]; [|done].
  assert (Hmt : at_ (setitem d8 "volatility" vol) "market_trend" i =
                Some (Num (if PyFloat.gt (value d3 "close" i) (value d3 "ema_200" i)
                           then 1 else -1))).
  { rewrite (at_other d4) by (unfold d8, d7, d6, d5; through_setitems).
    unfold d4. rewrite setitem_same.
    rewrite reindex_lookup; [|done|by unfold np_where; rewrite length_fmap, Labove].
    unfold np_where. rewrite list_lookup_fmap, (Habove i Hi3). simpl.
    by destruct (PyFloat.gt _ _). }
  assert (Hc : value (setitem d8 "volatility" vol) "close" i = value d3 "close" i)
    by (apply value_other; unfold d8, d7, d6, d5, d4; through_setitems).
  assert (He : value (setitem d8 "volatility" vol) "ema_200" i = value d3 "ema_200" i)
    by (apply value_other; unfold d8, d7, d6, d5, d4; through_setitems).
  rewrite Hc, He. split; [exact Hmt|]. split.
  - apply series_arith_row in Hvol as (Lvol & _ & Hvol).
    pose proof (getitem_length _ _ _ Hwf8 Hatr') as La.
    rewrite setitem_same. rewrite reindex_lookup; [|done|by rewrite Lvol, La].
    rewrite (Hvol i) by by rewrite La.
    rewrite (value_other d8) by through_setitems.
    rewrite (value_getitem _ _ _ _ Hatr').
    assert (value d3 "close" i = num_at close' i) as ->; [|done].
    rewrite <- (value_getitem _ _ _ _ Hclose'). symmetry.
    apply value_other. unfold d8, d7, d6, d5, d4. through_setitems.
  - intros Hnan. rewrite Hmt. unfold PyFloat.gt. by rewrite (ltb_nan_l _ _ Hnan).
Qed.

End WithIndicators.

Definition indicators_result : DataFrame :=
  returned (populate_indicators (H := short_table_indicators) default Frames.candles)
    Frames.candles.

(** On two candles the EMA200 is undefined, and both count as down-trend. *)
Example derived_columns_values :
  at_ indicators_result "market_trend" <$> [0; 1]%nat
    = [Some (Num (-1)); Some (Num (-1))] ∧
  at_ indicators_result "ema_200" <$> [0; 1]%nat = [Some NaN; Some NaN].
Proof. vm_compute. done. Qed.

Lemma zaratustraV2_derived_columns_witness :
  at_ indicators_result "market_trend" 0 =
    Some (Num (if PyFloat.gt (value indicators_result "close" 0)
                             (value indicators_result "ema_200" 0)
               then 1 else -1)) ∧
  at_ indicators_result "volatility" 0 =
    Some (Num (value indicators_result "atr" 0 / value indicators_result "close" 0)) ∧
  (is_nan (value indicators_result "ema_200" 0) = true →
   at_ indicators_result "market_trend" 0 = Some (Num (-1))).
Proof.
  apply (zaratustraV2_derived_columns (H := short_table_indicators) default
           Frames.candles indicators_result 0).
  - prove_wf.
  - vm_compute. reflexivity.
  - vm_compute. lia.
Defined.

End ZaratustraV2More.

(** ** ShinonV1: sides, tags, and entry followed by exit *)

Module ShinonV1More.

Import Pandas PandasFacts PandasMore ShinonV1 ShinonV1Facts.
Local Open Scope float_scope.

Definition long_tag : cell := Str "Long: EMA trend confirmed on main & 1h".
Definition short_tag : cell := Str "Short: EMA trend confirmed on main & 1h".

Definition entry_columns : list string := ["enter_long"; "enter_tag"; "enter_short"].
Definition exit_columns : list string := ["exit_long"; "exit_tag"; "exit_short"].

(** Two strict comparisons in opposite directions never hold together. *)
Lemma above_below_exclusive (x y : float) : PyFloat.gt x y && PyFloat.lt x y = false.
Proof.
  unfold PyFloat.gt, PyFloat.lt.
  destruct (y <? x) eqn:E1; [simpl|done]. destruct (x <? y) eqn:E2; [|done].
  destruct (ltb_leb_excl _ _ E1 (ltb_leb _ _ E2)).
Qed.

Lemma shinonV1_entry_rules_exclusive (df : DataFrame) (i : nat) :
  long_rule df i && short_rule df i = false.
Proof.
  unfold long_rule, short_rule.
  pose proof (above_below_exclusive (value df "close" i) (value df "ema13" i)) as H.
  revert H.
  repeat match goal with
         | |- context [PyFloat.gt ?x ?y] => destruct (PyFloat.gt x y)
         | |- context [PyFloat.lt ?x ?y] => destruct (PyFloat.lt x y)
         end; simpl; done.
Qed.

(** What [populate_entry_trend] writes on row [i], and what it leaves. *)
Lemma entry_written (self : ShinonV1) (df df' : DataFrame) (i : nat) :
  wf df → populate_entry_trend self df = Ok df' → i < index df →
  wf df' ∧ extends_by entry_columns df df' ∧
  at_ df' "enter_long" i = Some (if long_rule df i then Num 1 else prior df "enter_long" i) ∧
  at_ df' "enter_short" i = Some (if short_rule df i then Num 1 else prior df "enter_short" i) ∧
  at_ df' "enter_tag" i =
    Some (if short_rule df i then short_tag
          else if long_rule df i then long_tag else prior df "enter_tag" i).
Proof.
  intros Hwf H Hi. unfold populate_entry_trend in H.
  apply bind_Ok in H as (l1 & Hl1 & H). apply bind_Ok in H as (l2 & Hl2 & H).
  apply bind_Ok in H as (l3 & Hl3 & H). apply bind_Ok in H as (l4 & Hl4 & H).
  apply bind_Ok in H as (l5 & Hl5 & H). apply bind_Ok in H as (l6 & Hl6 & H).
  apply bind_Ok in H as (df1 & Hloc1 & H).
  apply bind_Ok in H as (s1 & Hs1 & H). apply bind_Ok in H as (s2 & Hs2 & H).
  apply bind_Ok in H as (s3 & Hs3 & H). apply bind_Ok in H as (s4 & Hs4 & H).
  apply bind_Ok in H as (s5 & Hs5 & H). apply bind_Ok in H as (s6 & Hs6 & H).
  pose proof (loc_setitem_extends _ _ _ _ Hloc1) as Hext1.
  pose proof (loc_setitem_extends _ _ _ _ H) as Hext2.
  pose proof (loc_setitem_pair_tag df _ "enter_long" _ "enter_tag" _ _
                ltac:(done) Hwf Hloc1) as Htag1.
  apply loc_setitem_pair in Hloc1 as (Hi1 & Hwf1 & Hother1 & Hlong); [|done|done].
  pose proof (loc_setitem_pair_tag df1 _ "enter_short" _ "enter_tag" _ _
                ltac:(done) Hwf1 H) as Htag2.
  apply loc_setitem_pair in H as (Hi2 & Hwf2 & Hother2 & Hshort); [|done|done].
  assert (Hi' : i < index df1) by lia.
  assert (Hv : ∀ c, c ≠ "enter_long" → c ≠ "enter_tag" → value df1 c i = value df c i).
  { intros c ? ?. apply value_other. by apply Hother1. }
  assert (Hml : selected (np_all [l1; l2; l3; l4; l5; l6]) i = long_rule df i).
  { simpl. rewrite !selected_mask_and.
    by rewrite (col_cmp_selected _ _ _ _ _ _ Hwf Hl1 Hi), (col_cmp_selected _ _ _ _ _ _ Hwf Hl2 Hi),
      (col_cmp_selected _ _ _ _ _ _ Hwf Hl3 Hi), (col_cmp_selected _ _ _ _ _ _ Hwf Hl4 Hi),
      (col_cmp_selected _ _ _ _ _ _ Hwf Hl5 Hi), (col_cmp_selected _ _ _ _ _ _ Hwf Hl6 Hi). }
  assert (Hms : selected (np_all [s1; s2; s3; s4; s5; s6]) i = short_rule df i).
  { simpl. rewrite !selected_mask_and.
    rewrite (col_cmp_selected _ _ _ _ _ _ Hwf1 Hs1 Hi'), (col_cmp_selected _ _ _ _ _ _ Hwf1 Hs2 Hi'),
      (col_cmp_selected _ _ _ _ _ _ Hwf1 Hs3 Hi'), (col_cmp_selected _ _ _ _ _ _ Hwf1 Hs4 Hi'),
      (col_cmp_selected _ _ _ _ _ _ Hwf1 Hs5 Hi'), (col_cmp_selected _ _ _ _ _ _ Hwf1 Hs6 Hi').
    by rewrite !Hv. }
  split; [done|]. split.
  { eapply extends_by_step; [eapply extends_by_step; [apply extends_by_refl|exact Hext1|]
                            |exact Hext2|]; unfold entry_columns; simpl; solve_sublist. }
  split; [|split].
  - rewrite (at_other df1) by by apply Hother2. rewrite Hlong by done. by rewrite Hml.
  - rewrite Hshort by done. rewrite Hms.
    by rewrite (prior_other df df1) by by apply Hother1.
  - rewrite Htag2 by done. rewrite Hms. destruct (short_rule df i); [done|].
    unfold prior. rewrite Htag1 by done. by rewrite Hml.
Qed.

(** X9. [populate_entry_trend] of ShinonV1 gives no row both flags, and the
    tag of a row names the flag it received: on a row of the long rule
    [enter_tag] is the long tag, on a row of the short rule it is the short
    tag, and on any other row it is what it was. *)
Theorem shinonV1_entry_sides (self : ShinonV1) (df df' : DataFrame) (i : nat) :
  wf df → populate_entry_trend self df = Ok df' → i < index df →
  long_rule df i && short_rule df i = false ∧
  (columns df !! "enter_long" = None → columns df !! "enter_short" = None →
   ¬ (at_ df' "enter_long" i = Some (Num 1) ∧ at_ df' "enter_short" i = Some (Num 1))) ∧
  (long_rule df i = true → at_ df' "enter_tag" i = Some long_tag) ∧
  (short_rule df i = true → at_ df' "enter_tag" i = Some short_tag) ∧
  (long_rule df i = false → short_rule df i = false →
   at_ df' "enter_tag" i = Some (prior df "enter_tag" i)).
Proof.
  intros Hwf H Hi.
  destruct (entry_written self df df' i Hwf H Hi) as (_ & _ & Hl & Hs & Ht).
  pose proof (shinonV1_entry_rules_exclusive df i) as Hex.
  split; [done|]. split; [|split; [|split]].
  - intros Fl Fs [Cl Cs].
    apply (flag_written_exact _ _ _ _ _ Hl Fl) in Cl.
    apply (flag_written_exact _ _ _ _ _ Hs Fs) in Cs.
    rewrite Cl, Cs in Hex. discriminate.
  - intros Hlong. rewrite Hlong in *. simpl in Hex. by rewrite Hex in Ht.
  - intros Hshort. by rewrite Hshort in Ht.
  - intros Hlong Hshort. by rewrite Hlong, Hshort in Ht.
Qed.

Example shinonV1_entry_tags :
  at_ entry_result "enter_tag" <$> [0; 1; 2]%nat
    = [Some long_tag; Some short_tag; Some NaN].
Proof. vm_compute. done. Qed.

Lemma shinonV1_entry_sides_witness :
  long_rule entry_table 0 && short_rule entry_table 0 = false ∧
  (columns entry_table !! "enter_long" = None →
   columns entry_table !! "enter_short" = None →
   ¬ (at_ entry_result "enter_long" 0 = Some (Num 1) ∧
      at_ entry_result "enter_short" 0 = Some (Num 1))) ∧
  (long_rule entry_table 0 = true → at_ entry_result "enter_tag" 0 = Some long_tag) ∧
  (short_rule entry_table 0 = true → at_ entry_result "enter_tag" 0 = Some short_tag) ∧
  (long_rule entry_table 0 = false → short_rule entry_table 0 = false →
   at_ entry_result "enter_tag" 0 = Some (prior entry_table "enter_tag" 0)).
Proof.
  apply (shinonV1_entry_sides default entry_table entry_result 0).
  - prove_wf.
  - vm_compute. reflexivity.
  - vm_compute. lia.
Defined.

(** What [populate_exit_trend] writes on row [i], and what it leaves. *)
Lemma exit_written (self : ShinonV1) (df df' : DataFrame) (i : nat) :
  wf df → populate_exit_trend self df = Ok df' → i < index df →
  wf df' ∧ extends_by exit_columns df df' ∧
  at_ df' "exit_long" i =
    Some (if PyFloat.lt (value df "close" i) (value df "ema13" i)
          then Num 1 else prior df "exit_long" i) ∧
  at_ df' "exit_short" i =
    Some (if PyFloat.gt (value df "close" i) (value df "ema13" i)
          then Num 1 else prior df "exit_short" i).
Proof.
  intros Hwf H Hi. unfold populate_exit_trend in H.
  apply bind_Ok in H as (l & Hl & H). apply bind_Ok in H as (df1 & Hloc1 & H).
  apply bind_Ok in H as (s & Hs & H).
  pose proof (loc_setitem_extends _ _ _ _ Hloc1) as Hext1.
  pose proof (loc_setitem_extends _ _ _ _ H) as Hext2.
  apply loc_setitem_pair in Hloc1 as (Hi1 & Hwf1 & Hother1 & Hlong); [|done|done].
  apply loc_setitem_pair in H as (Hi2 & Hwf2 & Hother2 & Hshort); [|done|done].
  assert (Hi' : i < index df1) by lia.
  split; [done|]. split.
  { eapply extends_by_step; [eapply extends_by_step; [apply extends_by_refl|exact Hext1|]
                            |exact Hext2|]; unfold exit_columns; simpl; solve_sublist. }
  split.
  - rewrite (at_other df1) by by apply Hother2. rewrite Hlong by done.
    by rewrite (col_cmp_selected _ _ _ _ _ _ Hwf Hl Hi).
  - rewrite Hshort by done. rewrite (col_cmp_selected _ _ _ _ _ _ Hwf1 Hs Hi').
    rewrite !(value_other df df1) by by apply Hother1.
    by rewrite (prior_other df df1) by by apply Hother1.
Qed.

(** X10. Entry followed by exit, as the host runs them on a table that
    carries no signal column yet: no row ends with [enter_long] and
    [exit_long] together, nor with [enter_short] and [exit_short]; and a
    row that enters long carries [exit_short], a row that enters short
    carries [exit_long]. *)
Theorem shinonV1_entry_then_exit (self : ShinonV1) (df d1 d2 : DataFrame) (i : nat) :
  wf df →
  populate_entry_trend self df = Ok d1 →
  populate_exit_trend self d1 = Ok d2 →
  i < index df →
  (∀ c, c ∈ ["enter_long"; "enter_short"; "exit_long"; "exit_short"] →
        columns df !! c = None) →
  let flagged c := at_ d2 c i = Some (Num 1) in
  ¬ (flagged "enter_long" ∧ flagged "exit_long") ∧
  ¬ (flagged "enter_short" ∧ flagged "exit_short") ∧
  (flagged "enter_long" → flagged "exit_short") ∧
  (flagged "enter_short" → flagged "exit_long").
Proof.
  intros Hwf Hentry Hexit Hi Hfresh flagged. unfold flagged.
  destruct (entry_written self df d1 i Hwf Hentry Hi) as (Hwf1 & Hext1 & Hl & Hs & _).
  assert (Hi1 : i < index d1) by by rewrite (extends_by_index _ _ _ Hext1).
  destruct (exit_written self d1 d2 i Hwf1 Hexit Hi1) as (_ & Hext2 & Hxl & Hxs).
  assert (Hc : value d1 "close" i = value df "close" i).
  { apply value_other, (extends_by_column _ _ _ _ Hext1).
    unfold entry_columns. solve_not_elem. }
  assert (He : value d1 "ema13" i = value df "ema13" i).
  { apply value_other, (extends_by_column _ _ _ _ Hext1).
    unfold entry_columns. solve_not_elem. }
  rewrite Hc, He in Hxl, Hxs.
  assert (Fl : columns df !! "enter_long" = None) by (apply Hfresh; solve_elem).
  assert (Fs : columns df !! "enter_short" = None) by (apply Hfresh; solve_elem).
  assert (Fxl : columns d1 !! "exit_long" = None).
  { rewrite (extends_by_column _ _ _ _ Hext1) by (unfold entry_columns; solve_not_elem).
    apply Hfresh. solve_elem. }
  assert (Fxs : columns d1 !! "exit_short" = None).
  { rewrite (extends_by_column _ _ _ _ Hext1) by (unfold entry_columns; solve_not_elem).
    apply Hfresh. solve_elem. }
  assert (El : at_ d2 "enter_long" i = Some (Num 1) ↔ long_rule df i = true).
  { rewrite (at_other d1)
      by (apply (extends_by_column _ _ _ _ Hext2); unfold exit_columns; solve_not_elem).
    by apply (flag_written_exact df d1 "enter_long"). }
  assert (Es : at_ d2 "enter_short" i = Some (Num 1) ↔ short_rule df i = true).
  { rewrite (at_other d1)
      by (apply (extends_by_column _ _ _ _ Hext2); unfold exit_columns; solve_not_elem).
    by apply (flag_written_exact df d1 "enter_short"). }
  pose proof (flag_written_exact d1 d2 "exit_long" _ i Hxl Fxl) as Exl.
  pose proof (flag_written_exact d1 d2 "exit_short" _ i Hxs Fxs) as Exs.
  rewrite El, Es, Exl, Exs.
  pose proof (above_below_exclusive (value df "close" i) (value df "ema13" i)) as Hex.
  unfold long_rule, short_rule.
  destruct (PyFloat.gt (value df "close" i) (value df "ema13" i)),
    (PyFloat.lt (value df "close" i) (value df "ema13" i));
    simpl in *; try discriminate; repeat split; try tauto; intros; try done;
    intuition discriminate.
Qed.

Definition signals_result : DataFrame :=
  returned (populate_exit_trend default entry_result) entry_result.

Example shinonV1_signals :
  at_ signals_result "enter_long" <$> [0; 1; 2]%nat = [Some (Num 1); Some NaN; Some NaN] ∧
  at_ signals_result "exit_short" <$> [0; 1; 2]%nat = [Some (Num 1); Some NaN; Some NaN] ∧
  at_ signals_result "enter_short" <$> [0; 1; 2]%nat = [Some NaN; Some (Num 1); Some NaN] ∧
  at_ signals_result "exit_long" <$> [0; 1; 2]%nat = [Some NaN; Some (Num 1); Some NaN].
Proof. vm_compute. done. Qed.

Lemma shinonV1_entry_then_exit_witness :
  let flagged c := at_ signals_result c 0 = Some (Num 1) in
  ¬ (flagged "enter_long" ∧ flagged "exit_long") ∧
  ¬ (flagged "enter_short" ∧ flagged "exit_short") ∧
  (flagged "enter_long" → flagged "exit_short") ∧
  (flagged "enter_short" → flagged "exit_long").
Proof.
  apply (shinonV1_entry_then_exit default entry_table entry_result signals_result 0).
  - prove_wf.
  - vm_compute. reflexivity.
  - vm_compute. reflexivity.
  - vm_compute. lia.
  - intros c Hc. rewrite !elem_of_cons, elem_of_nil in Hc.
    destruct Hc as [->|[->|[->|[->|[]]]]]; vm_compute; reflexivity.
Defined.

End ShinonV1More.

(** ** What the signal hooks leave in place, and what they keep *)

Module SignalFrames.

Import Pandas PandasFacts PandasMore TA Host Frames.
Local Open Scope float_scope.

(** The columns each signal hook assigns. *)
Definition shinonV1_entry_columns : list string := ["enter_long"; "enter_tag"; "enter_short"].
Definition shinonV1_exit_columns : list string := ["exit_long"; "exit_tag"; "exit_short"].
Definition shinonV2_entry_columns : list string := ["enter_long"; "enter_short"].
Definition shinonV2_exit_columns : list string := ["exit_long"; "exit_short"].
Definition zaratustraV2_entry_columns : list string :=
  ["enter_long"; "enter_tag"; "enter_short"].
Definition zaratustraV2_exit_columns : list string :=
  ["stoploss"; "exit_long"; "exit_tag"; "exit_short"].


(** Follows the assignments of a hook back to the table it was given. *)
Ltac chain_extends :=
  lazymatch goal with
  | |- extends_by _ ?d ?d => apply extends_by_refl
  | |- extends_by _ _ (setitem _ _ _) =>
      apply extends_by_setitem; [solve_elem | chain_extends]
  | Hl : loc_setitem ?d ?m ?cvs = Ok ?d' |- extends_by ?names ?df ?d' =>
      apply (extends_by_step names (cvs.*1) df d d');
      [ chain_extends | exact (loc_setitem_extends _ _ _ _ Hl) | simpl; solve_sublist ]
  end.


(** Runs through the statements of a signal hook that returned. *)
Ltac run_signal_hook H :=
  repeat (apply bind_Ok in H as (? & ? & H); cbv zeta in H).

Ltac signal_frame hook names :=
  let H := fresh "Hrun" in
  match goal with
  | |- appends_only _ ?df ?r =>
      destruct r as [df'|] eqn:H; [|done];
      apply extends_by_bars;
      [ let c := fresh "c" in let Hc := fresh "Hc" in
        intros c Hc; bar_cases Hc; unfold names; solve_not_elem
      | unfold hook in H; run_signal_hook H; unfold names; chain_extends ]
  end.


(** X11. The signal hooks write signals only: whatever table it is given,
    each of [populate_entry_trend] and [populate_exit_trend] of the three
    strategies returns a table with the same rows, the candle columns
    unchanged, and every column unchanged other than the flag and tag
    columns it assigns (and [stoploss], for the exit hook of ZaratustraV2):
    no indicator column is touched. *)
Theorem signal_hooks_write_signals_only (shinon1 : ShinonV1.ShinonV1)
    (shinon2 : ShinonV2.ShinonV2) (zaratustra : ZaratustraV2.ZaratustraV2)
    (df : DataFrame) :
  appends_only shinonV1_entry_columns df (ShinonV1.populate_entry_trend shinon1 df) ∧
  appends_only shinonV1_exit_columns df (ShinonV1.populate_exit_trend shinon1 df) ∧
  appends_only shinonV2_entry_columns df (ShinonV2.populate_entry_trend shinon2 df) ∧
  appends_only shinonV2_exit_columns df (ShinonV2.populate_exit_trend shinon2 df) ∧
  appends_only zaratustraV2_entry_columns df
    (ZaratustraV2.populate_entry_trend zaratustra df) ∧
  appends_only zaratustraV2_exit_columns df
    (ZaratustraV2.populate_exit_trend zaratustra df).
Proof.
  split; [|split; [|split; [|split; [|split]]]].
  - signal_frame ShinonV1.populate_entry_trend shinonV1_entry_columns.
  - signal_frame ShinonV1.populate_exit_trend shinonV1_exit_columns.
  - signal_frame ShinonV2.populate_entry_trend shinonV2_entry_columns.
  - signal_frame ShinonV2.populate_exit_trend shinonV2_exit_columns.
  - signal_frame ZaratustraV2.populate_entry_trend zaratustraV2_entry_columns.
  - signal_frame ZaratustraV2.populate_exit_trend zaratustraV2_exit_columns.
Qed.

Section WithIndicators.

Context `{Indicators}.


End WithIndicators.


End SignalFrames.

(** ** ShinonV1.populate_indicators when the informative table is unusable *)

Module HostMore.

Import Pandas PandasFacts PandasMore TA Host HostFrames.
Local Open Scope float_scope.

Section WithIndicators.

Context `{Indicators}.

(** X13. Once the EMAs of the main table are computed,
    [populate_indicators] of ShinonV1 fails in three ways on the informative
    side.  Without a ['pair'] entry in the metadata it raises
    [KeyError('pair')], and when the host answers [None] it raises
    [AttributeError]; in both cases the host's tables are untouched.  When
    the informative table has no close column under any capitalisation
    (its names being ASCII and distinct once lower-cased) it raises
    [KeyError('close')], but only after it has replaced the column names of
    the host's table by their lower-case forms: that write stays. *)
Theorem shinonV1_indicators_failures (self : ShinonV1.ShinonV1) (df : DataFrame)
    (metadata : gmap string string) (dp : DataProvider)
    (close ema13 ema21 : Series) :
  getitem df "close" = Ok close →
  EMA (InSeries close) 13 = Ok ema13 →
  EMA (InSeries close) 21 = Ok ema21 →
  let run := ShinonV1.populate_indicators self df metadata dp in
  (metadata !! "pair" = None → run = (Raise (KeyError "pair"), dp)) ∧
  (∀ pair, metadata !! "pair" = Some pair →
     cache dp !! (pair, ShinonV1.informative_timeframe self) = None →
     run = (Raise AttributeError, dp)) ∧
  (∀ pair informative renamed, metadata !! "pair" = Some pair →
     cache dp !! (pair, ShinonV1.informative_timeframe self) = Some informative →
     columns informative !! "close" = None →
     lower_columns informative = Some renamed →
     columns renamed !! "close" = None →
     run = (Raise (KeyError "close"),
            {| cache := <[(pair, ShinonV1.informative_timeframe self) := renamed]>
                          (cache dp) |})).
Proof.
  intros Hclose H13 H21 run. unfold run.
  assert (Hclose' : getitem (setitem df "ema13" ema13) "close" = Ok close).
  { unfold getitem in *. simpl. by rewrite lookup_insert_ne. }
  unfold ShinonV1.populate_indicators, mbind, hook_bind, lift, get_analyzed_dataframe,
    mret, hook_ret, store, dict_getitem.
  rewrite Hclose. simpl. rewrite H13. simpl. rewrite Hclose'. simpl. rewrite H21. simpl.
  split; [|split].
  - by intros ->.
  - intros pair -> Hnone. simpl. by rewrite Hnone.
  - intros pair informative renamed -> Hinf Hno Hren Hlow. simpl. rewrite Hinf. simpl.
    assert (bool_decide ("close" ∈ dom (columns informative)) = false) as ->.
    { apply bool_decide_eq_false. by rewrite not_elem_of_dom. }
    simpl. rewrite Hren. simpl. unfold getitem. by rewrite Hlow.
Qed.

End WithIndicators.

(** The host holds hourly candles whose columns are capitalised and lack a
    close. *)
Definition hourly_without_close : DataFrame :=
  frame 2 [("Open", [30000; 30100]); ("High", [30200; 30300])].

Definition unusable_provider : DataProvider :=
  {| cache := {[ ("BTC/USDT", "1h") := hourly_without_close ]} |}.

Example unusable_table_is_renamed :
  let after := snd (ShinonV1.populate_indicators (H := short_table_indicators)
                      ShinonV1.default five_minutes btc unusable_provider) in
  (cache after !! ("BTC/USDT", "1h") ≫= λ df, columns df !! "open")
    = Some [Num 30000; Num 30100] ∧
  (cache after !! ("BTC/USDT", "1h") ≫= λ df, columns df !! "Open") = None.
Proof. vm_compute. done. Qed.

Lemma shinonV1_indicators_failures_witness :
  let run := ShinonV1.populate_indicators (H := short_table_indicators)
               ShinonV1.default five_minutes btc unusable_provider in
  (btc !! "pair" = None → run = (Raise (KeyError "pair"), unusable_provider)) ∧
  (∀ pair, btc !! "pair" = Some pair →
     cache unusable_provider !! (pair, ShinonV1.informative_timeframe ShinonV1.default)
       = None →
     run = (Raise AttributeError, unusable_provider)) ∧
  (∀ pair informative renamed, btc !! "pair" = Some pair →
     cache unusable_provider !! (pair, ShinonV1.informative_timeframe ShinonV1.default)
       = Some informative →
     columns informative !! "close" = None →
     lower_columns informative = Some renamed →
     columns renamed !! "close" = None →
     run = (Raise (KeyError "close"),
            {| cache := <[(pair, ShinonV1.informative_timeframe ShinonV1.default) :=
                            renamed]> (cache unusable_provider) |})).
Proof.
  apply (shinonV1_indicators_failures (H := short_table_indicators) ShinonV1.default
           five_minutes btc unusable_provider
           [Num 30090; Num 30100] [NaN; NaN] [NaN; NaN]);
    vm_compute; reflexivity.
Defined.

End HostMore.

(** ** Tables on which the signal hooks return *)

Module Returns.

Import Pandas PandasFacts PandasMore.
Local Open Scope float_scope.

Definition is_num (x : cell) : bool :=
  match x with
  | Num _ => true
  | Str _ => false
  end.

(** A series of numbers (NaN included), and a table's column of numbers. *)
Definition all_numbers (s : Series) : Prop := Forall (λ x, is_num x = true) s.

Definition numeric (df : DataFrame) (c : string) : Prop :=
  ∃ s, columns df !! c = Some s ∧ all_numbers s.

Lemma mapM_returns {A B} (f : A → result B) (l : list A) :
  Forall (λ x, ∃ y, f x = Ok y) l → ∃ k, mapM f l = Ok k.
Proof.
  induction 1 as [|x l [y Hy] _ [k Hk]]; simpl; [by eexists|].
  rewrite Hy. simpl. rewrite Hk. simpl. by eexists.
Qed.

Lemma series_cmp_returns op (a b : Series) :
  length a = length b → all_numbers a → all_numbers b →
  ∃ m, series_cmp op a b = Ok m.
Proof.
  intros Hl Ha Hb. unfold series_cmp.
  apply Nat.eqb_eq in Hl. rewrite Hl. simpl.
  apply mapM_returns. apply Forall_lookup. intros i [x y] Hz.
  rewrite lookup_zip_with in Hz.
  destruct (a !! i) as [x'|] eqn:Hx; simpl in Hz; [|discriminate].
  destruct (b !! i) as [y'|] eqn:Hy; simpl in Hz; [|discriminate].
  injection Hz as -> ->.
  pose proof (Forall_lookup_1 _ _ _ _ Ha Hx) as Nx.
  pose proof (Forall_lookup_1 _ _ _ _ Hb Hy) as Ny.
  destruct x, y; simpl in *; try discriminate. by eexists.
Qed.

Lemma series_cmp_scalar_returns op (a : Series) (k : float) :
  all_numbers a → ∃ m, series_cmp_scalar op a k = Ok m.
Proof.
  intros Ha. unfold series_cmp_scalar. apply mapM_returns.
  eapply Forall_impl; [exact Ha|]. intros [x|s] Hx; simpl in *; [by eexists|discriminate].
Qed.

Lemma series_arith_scalar_returns op (a : Series) (k : float) :
  all_numbers a → ∃ s, series_arith_scalar op a k = Ok s.
Proof.
  intros Ha. unfold series_arith_scalar. apply mapM_returns.
  eapply Forall_impl; [exact Ha|]. intros [x|s] Hx; simpl in *; [by eexists|discriminate].
Qed.


Lemma shift1_numbers (s : Series) : all_numbers s → all_numbers (shift1 s).
Proof. intros Hs. unfold shift1. apply Forall_take. by constructor. Qed.

Lemma crossed_above_returns (s1 s2 : Series) :
  length s1 = length s2 → all_numbers s1 → all_numbers s2 →
  ∃ m, Qtpylib.crossed_above s1 s2 = Ok m ∧ length m = length s1.
Proof.
  intros Hl H1 H2. unfold Qtpylib.crossed_above.
  destruct (series_cmp_returns PyFloat.gt s1 s2 Hl H1 H2) as [a Ha].
  destruct (series_cmp_returns PyFloat.le (shift1 s1) (shift1 s2)) as [b Hb];
    [by rewrite !shift1_length | by apply shift1_numbers | by apply shift1_numbers |].
  rewrite Ha. simpl. rewrite Hb. simpl. eexists. split; [reflexivity|].
  apply series_cmp_row in Ha as (La & _ & _).
  apply series_cmp_row in Hb as (Lb & _ & _). rewrite shift1_length in Lb.
  by apply mask_and_length.
Qed.

Lemma crossed_below_returns (s1 s2 : Series) :
  length s1 = length s2 → all_numbers s1 → all_numbers s2 →
  ∃ m, Qtpylib.crossed_below s1 s2 = Ok m ∧ length m = length s1.
Proof.
  intros Hl H1 H2. unfold Qtpylib.crossed_below.
  destruct (series_cmp_returns PyFloat.lt s1 s2 Hl H1 H2) as [a Ha].
  destruct (series_cmp_returns PyFloat.ge (shift1 s1) (shift1 s2)) as [b Hb];
    [by rewrite !shift1_length | by apply shift1_numbers | by apply shift1_numbers |].
  rewrite Ha. simpl. rewrite Hb. simpl. eexists. split; [reflexivity|].
  apply series_cmp_row in Ha as (La & _ & _).
  apply series_cmp_row in Hb as (Lb & _ & _). rewrite shift1_length in Lb.
  by apply mask_and_length.
Qed.

Lemma numeric_getitem (df : DataFrame) (c : string) :
  wf df → numeric df c →
  ∃ s, getitem df c = Ok s ∧ length s = index df ∧ all_numbers s.
Proof.
  intros Hwf (s & Hs & Hn). exists s. unfold getitem. rewrite Hs. eauto.
Qed.

Lemma col_cmp_returns op (df : DataFrame) (a b : string) :
  wf df → numeric df a → numeric df b →
  ∃ m, col_cmp op df a b = Ok m ∧ length m = index df.
Proof.
  intros Hwf Ha Hb.
  destruct (numeric_getitem df a Hwf Ha) as (x & Hx & Lx & Nx).
  destruct (numeric_getitem df b Hwf Hb) as (y & Hy & Ly & Ny).
  destruct (series_cmp_returns op x y) as [m Hm]; [congruence|done|done|].
  exists m. unfold col_cmp. rewrite Hx. simpl. rewrite Hy. simpl.
  split; [done|]. apply series_cmp_row in Hm as (Lm & _ & _). congruence.
Qed.

Lemma col_cmp_scalar_returns op (df : DataFrame) (a : string) (k : float) :
  wf df → numeric df a →
  ∃ m, col_cmp_scalar op df a k = Ok m ∧ length m = index df.
Proof.
  intros Hwf Ha.
  destruct (numeric_getitem df a Hwf Ha) as (x & Hx & Lx & Nx).
  destruct (series_cmp_scalar_returns op x k Nx) as [m Hm].
  exists m. unfold col_cmp_scalar. rewrite Hx. simpl.
  split; [done|]. apply series_cmp_scalar_row in Hm as (Lm & _). congruence.
Qed.

Lemma numeric_extends (names : list string) (df df' : DataFrame) (c : string) :
  extends_by names df df' → c ∉ names → numeric df c → numeric df' c.
Proof.
  intros Hext Hc (s & Hs & Hn). exists s.
  by rewrite (extends_by_column _ _ _ _ Hext Hc).
Qed.

(** [df.loc[mask, cvs] = ...] with a mask over the rows returns, and what it
    returns keeps the numeric columns it does not assign. *)
Lemma loc_setitem_next (df : DataFrame) (mask : list bool) (cvs : list (string * cell)) :
  wf df → length mask = index df →
  ∃ df', loc_setitem df mask cvs = Ok df' ∧ wf df' ∧ index df' = index df ∧
         ∀ c, c ∉ cvs.*1 → numeric df c → numeric df' c.
Proof.
  intros Hwf Hm. destruct (loc_setitem_returns df mask cvs Hm) as [df' H].
  exists df'. split; [done|]. split; [by eapply loc_setitem_wf|].
  pose proof (loc_setitem_extends _ _ _ _ H) as Hext.
  split; [by eapply extends_by_index|]. intros c Hc. by eapply numeric_extends.
Qed.

(** The numeric columns a hypothesis lists, also after an assignment to
    other columns. *)
Ltac solve_numeric :=
  lazymatch goal with
  | H : ∀ c, c ∈ _ → numeric ?df c |- numeric ?df _ => apply H; solve_elem
  | H : ∀ c, c ∉ _ → numeric ?d c → numeric ?df c |- numeric ?df _ =>
      apply H; [simpl; solve_not_elem | solve_numeric]
  end.

Ltac wf_now := lazymatch goal with H : wf ?df |- wf ?df => exact H end.

(** The length of a mask built from masks over the rows. *)
Ltac solve_length :=
  repeat apply mask_and_length;
  first [ congruence
        | unfold series_eq_scalar; rewrite length_fmap; congruence ].

(** One statement of a hook that is about to return. *)
Ltac step_returns :=
  lazymatch goal with
  | |- ∃ v, (col_cmp ?op ?df ?a ?b ≫= _) = Ok v =>
      let m := fresh "m" in let Hm := fresh "Hm" in let Lm := fresh "Lm" in
      destruct (col_cmp_returns op df a b) as (m & Hm & Lm);
      [wf_now | solve_numeric | solve_numeric | rewrite Hm; simpl]
  | |- ∃ v, (col_cmp_scalar ?op ?df ?a ?k ≫= _) = Ok v =>
      let m := fresh "m" in let Hm := fresh "Hm" in let Lm := fresh "Lm" in
      destruct (col_cmp_scalar_returns op df a k) as (m & Hm & Lm);
      [wf_now | solve_numeric | rewrite Hm; simpl]
  | |- ∃ v, (getitem ?df ?a ≫= _) = Ok v =>
      let s := fresh "s" in let Hs := fresh "Hs" in let Ls := fresh "Ls" in
      let Ns := fresh "Ns" in
      destruct (numeric_getitem df a) as (s & Hs & Ls & Ns);
      [wf_now | solve_numeric | rewrite Hs; simpl]
  | |- ∃ v, (Qtpylib.crossed_above ?a ?b ≫= _) = Ok v =>
      let m := fresh "m" in let Hm := fresh "Hm" in let Lm := fresh "Lm" in
      destruct (crossed_above_returns a b) as (m & Hm & Lm);
      [congruence | assumption | assumption | rewrite Hm; simpl]
  | |- ∃ v, (Qtpylib.crossed_below ?a ?b ≫= _) = Ok v =>
      let m := fresh "m" in let Hm := fresh "Hm" in let Lm := fresh "Lm" in
      destruct (crossed_below_returns a b) as (m & Hm & Lm);
      [congruence | assumption | assumption | rewrite Hm; simpl]
  | |- ∃ v, (loc_setitem ?df ?mask ?cvs ≫= _) = Ok v =>
      let d := fresh "d" in let Hd := fresh "Hd" in let Wd := fresh "Wd" in
      let Id := fresh "Id" in let Nd := fresh "Nd" in
      destruct (loc_setitem_next df mask cvs) as (d & Hd & Wd & Id & Nd);
      [wf_now | solve_length | rewrite Hd; simpl]
  | |- ∃ v, loc_setitem ?df ?mask ?cvs = Ok v =>
      apply loc_setitem_returns; solve_length
  end.

(** X14. [populate_entry_trend] and [populate_exit_trend] of ShinonV1
    return a table, without raising, on every table whose columns have one
    cell per row and whose close, EMA and informative columns are present
    and hold numbers (NaN included). *)
Theorem shinonV1_signal_hooks_return (self : ShinonV1.ShinonV1) (df : DataFrame) :
  wf df →
  (∀ c, c ∈ ["close"; "ema13"; "ema21"; "informative_1h_close";
             "informative_1h_ema13"; "informative_1h_ema21"] → numeric df c) →
  (∃ df', ShinonV1.populate_entry_trend self df = Ok df') ∧
  (∃ df', ShinonV1.populate_exit_trend self df = Ok df').
Proof.
  intros Hwf Hnum. split.
  - unfold ShinonV1.populate_entry_trend. do 6 step_returns.
    simpl. step_returns. do 6 step_returns. simpl. step_returns.
  - unfold ShinonV1.populate_exit_trend. repeat step_returns.
Qed.

Definition shinonV1_signals_input : DataFrame := ShinonV1Facts.entry_table.

Lemma shinonV1_signal_hooks_return_witness :
  (∃ df', ShinonV1.populate_entry_trend ShinonV1.default shinonV1_signals_input = Ok df') ∧
  (∃ df', ShinonV1.populate_exit_trend ShinonV1.default shinonV1_signals_input = Ok df').
Proof.
  apply (shinonV1_signal_hooks_return ShinonV1.default shinonV1_signals_input).
  - prove_wf.
  - intros c Hc. rewrite !elem_of_cons, elem_of_nil in Hc.
    destruct Hc as [->|[->|[->|[->|[->|[->|[]]]]]]];
      (eexists; split; [vm_compute; reflexivity | repeat constructor]).
Defined.

(** *** ShinonV2 *)







(** *** ZaratustraV2 *)

(** [dataframe[c] = s] with one number per row keeps the table rectangular
    and the other numeric columns. *)
Lemma setitem_next (df : DataFrame) (c : string) (s : Series) :
  wf df → length s = index df →
  wf (setitem df c s) ∧ index (setitem df c s) = index df ∧
  ∀ c', c' ∉ [c] → numeric df c' → numeric (setitem df c s) c'.
Proof.
  intros Hwf Hs. split; [by apply setitem_wf|]. split; [done|].
  intros c' Hc' (s' & Hs' & Hn). exists s'. split; [|done].
  rewrite <- Hs'. apply setitem_other. intros ->. apply Hc'. by left.
Qed.

(** X16. [populate_entry_trend] and [populate_exit_trend] of ZaratustraV2
    return a table, without raising, on every table whose columns have one
    cell per row and whose trend, directional, RSI, volatility and ATR
    columns are present and hold numbers (NaN included), whatever the
    thresholds and the multiplier. *)
Theorem zaratustraV2_signal_hooks_return (self : ZaratustraV2.ZaratustraV2)
    (df : DataFrame) :
  wf df →
  (∀ c, c ∈ ["market_trend"; "dx"; "pdi"; "mdi"; "adx"; "rsi"; "volatility"; "atr"] →
        numeric df c) →
  (∃ df', ZaratustraV2.populate_entry_trend self df = Ok df') ∧
  (∃ df', ZaratustraV2.populate_exit_trend self df = Ok df').
Proof.
  intros Hwf Hnum. split.
  - unfold ZaratustraV2.populate_entry_trend. repeat step_returns.
  - unfold ZaratustraV2.populate_exit_trend. step_returns.
    destruct (series_arith_scalar_returns PrimFloat.mul s
                (ZaratustraV2.atr_multiplier self) Ns) as [sl Hsl].
    rewrite Hsl. simpl.
    apply series_arith_scalar_row in Hsl as (Lsl & _).
    destruct (setitem_next df "stoploss" sl Hwf) as (W0 & I0 & N0); [congruence|].
    set (d0 := setitem df "stoploss" sl) in *.
    repeat step_returns.
Qed.

(** Two candles with every column the signal hooks of ZaratustraV2 read; the
    RSI of the first is NaN. *)
Definition zaratustraV2_signals_input : DataFrame :=
  frame 2 [("market_trend", [-1; -1]); ("dx", [10; 30]); ("pdi", [5; 5]);
           ("mdi", [20; 20]); ("adx", [25; 25]); ("rsi", [nan; 30]);
           ("volatility", [0.01; 0.01]); ("atr", [1; 1])].

Lemma zaratustraV2_signal_hooks_return_witness :
  (∃ df', ZaratustraV2.populate_entry_trend ZaratustraV2.default
            zaratustraV2_signals_input = Ok df') ∧
  (∃ df', ZaratustraV2.populate_exit_trend ZaratustraV2.default
            zaratustraV2_signals_input = Ok df').
Proof.
  apply (zaratustraV2_signal_hooks_return ZaratustraV2.default zaratustraV2_signals_input).
  - prove_wf.
  - intros c Hc. rewrite !elem_of_cons, elem_of_nil in Hc.
    destruct Hc as [->|[->|[->|[->|[->|[->|[->|[->|[]]]]]]]]];
      (eexists; split; [vm_compute; reflexivity | repeat constructor]).
Defined.

End Returns.
